(** * The katcp type registry (katcp/ktype.c)

    A shallow embedding of the typed key/value registry of katcp:
    a sorted, dynamically resized array of type descriptors searched by
    binary search, each descriptor owning an ordered map of stored values
    and five behaviour callbacks.

    Conventions of the embedding.
    - [int] values are [Z]; an operation whose mathematical result leaves
      the range of a 32-bit [int] is undefined in C and is a [Stuck] outcome
      here.
    - [char *] arguments are [option string] ([None] is [NULL]); function
      and data pointers are [Z] (0 is [NULL]) and are compared by identity.
    - The pointer array [s_type] is a block of slots; a slot is a
      descriptor pointer ([None] is [NULL]).  In a sorted registry every
      descriptor is reached from one slot, so a write through a descriptor
      pointer is an update of that slot.  A failed deregistration can
      leave one pointer in two slots; for such an array only the slots'
      contents are stated, and no write through them is followed.
    - The allocator is an oracle: the dispatch state carries the outcomes
      of the coming allocation requests. *)

From Stdlib Require Import ZArith Lia String Ascii Sorted.
From stdpp Require Import base tactics option list sorting.

Local Open Scope Z_scope.

(** ** Byte-wise order on names, as computed by [strcmp] *)

(** [strcmp] compares two strings as sequences of unsigned bytes;
    [String.compare] does the same on [string] (through [N_of_ascii]). *)
Definition strcmp (a b : string) : comparison := String.compare a b.

Definition str_lt (a b : string) : Prop := strcmp a b = Lt.

#[global] Instance str_lt_dec (a b : string) : Decision (str_lt a b).
Proof.
  unfold str_lt. destruct (strcmp a b); [right|left|right]; congruence.
Defined.

(** ** Outcomes of C computations *)

(** What makes an execution undefined.  [LoopFuel] is the embedding's own:
    the loops are unrolled a bounded number of times, and the bound is
    proved sufficient wherever a result is claimed. *)
Inductive fault : Type :=
| NullDeref
| OutOfBounds
| UseAfterFree
| IntOverflow
| LoopFuel.

Inductive result (A : Type) : Type :=
| Ok (a : A)
| Stuck (f : fault).

Arguments Ok {A} a.
Arguments Stuck {A} f.

Definition bindR {A B : Type} (c : result A) (k : A -> result B) : result B :=
  match c with
  | Ok a => k a
  | Stuck f => Stuck f
  end.

Notation "'let?' x ':=' c 'in' k" := (bindR c (fun x => k))
  (at level 10, x pattern, c at level 100, k at level 200).

(** *** [int] arithmetic *)

Definition INT_MAX : Z := 2147483647.
Definition INT_MIN : Z := -2147483648.

Definition int_chk (z : Z) : result Z :=
  if (INT_MIN <=? z) && (z <=? INT_MAX) then Ok z else Stuck IntOverflow.

Definition int_add (a b : Z) : result Z := int_chk (a + b).
Definition int_sub (a b : Z) : result Z := int_chk (a - b).
Definition int_mul (a b : Z) : result Z := int_chk (a * b).
(** [/] on [int] truncates towards zero. *)
Definition int_div (a b : Z) : result Z := int_chk (Z.quot a b).

(** *** Arrays *)

(** [a[i]] as an rvalue and [a[i] = x]: an index outside the block is
    undefined behaviour. *)
Definition array_get {A : Type} (blk : list A) (i : Z) : result A :=
  if i <? 0 then Stuck OutOfBounds
  else match blk !! Z.to_nat i with
       | Some x => Ok x
       | None => Stuck OutOfBounds
       end.

Definition array_set {A : Type} (blk : list A) (i : Z) (x : A) : result (list A) :=
  if (0 <=? i) && (i <? Z.of_nat (length blk))
  then Ok (<[Z.to_nat i := x]> blk)
  else Stuck OutOfBounds.

(** ** Data model *)

(** Function pointers and [void *] data pointers; [NULL] is 0. *)
Definition fnptr : Type := Z.
Definition dataptr : Type := Z.
Definition NULL : Z := 0.

(** Modelled from the spec: the ordered map ADT of avltree.c, which is not
    among the sources.  The spec gives its interface only: a string-keyed,
    string-ordered container from keys to opaque values, with creation,
    insertion that reports a collision, lookup by key, and destruction that
    releases every entry through a caller-supplied free function.  A map is
    the list of its entries in key order; a node is one entry. *)
Definition avl_node : Type := (string * dataptr)%type.
Definition avl_tree : Type := list avl_node.

Record katcp_type : Type := {
  t_name : option string;
  t_tree : option avl_tree;
  t_print : fnptr;
  t_free : fnptr;
  t_copy : fnptr;
  t_compare : fnptr;
  t_parse : fnptr
}.

(** A [struct katcp_type *]. *)
Definition slot : Type := option katcp_type.

(** A [struct katcp_type **]: null, a live block of slots, or a pointer to
    a block that [realloc] has released. *)
Inductive array_ptr : Type :=
| NullPtr
| Live (blk : list slot)
| Dangling.

Record katcp_shared : Type := {
  s_type : array_ptr;
  s_type_count : Z
}.

(** The outcome of one allocation request.  [Relocated] differs from
    [Granted] for [realloc] only: the block was moved and the old one
    released. *)
Inductive alloc_outcome : Type :=
| Refused
| Granted
| Relocated.

Inductive log_line : Type :=
| LogCouldNotCreateType (type : option string)
| LogCallbacksDontMatch (key type : option string)
| LogTypeNotDefined.

(** Effects that leave the registry: calls of a free callback on a stored
    value, the release of a descriptor ([free(t)], labelled with the name
    the descriptor had when its destruction began), and error log lines. *)
Inductive event : Type :=
| EvFree (fn : fnptr) (data : dataptr)
| EvReleaseType (name : option string)
| EvLog (l : log_line).

(** The dispatch state [d]: the shared registry it points to, together
    with the allocator's coming answers and the effects so far. *)
Record katcp_dispatch : Type := {
  d_shared : option katcp_shared;
  d_allocs : list alloc_outcome;
  d_events : list event
}.

(** Every failing [return -1] of ktype.c, tagged by its cause.  The C
    caller sees [-1] for all of them ([c_int]). *)
Inductive error : Type :=
| NoSharedState
| AllocationError
| DuplicateNameError
| NotFoundError
| NullDescriptor
| CallbackMismatchError
| DuplicateKeyError.

Inductive status : Type :=
| Done (v : Z)
| Failed (e : error).

Definition c_int (r : status) : Z :=
  match r with
  | Done v => v
  | Failed _ => -1
  end.

(** ** The state monad of the registry operations *)

Definition M (A : Type) : Type := katcp_dispatch -> result (A * katcp_dispatch).

Definition ret {A : Type} (a : A) : M A := fun d => Ok (a, d).

Definition bind {A B : Type} (c : M A) (k : A -> M B) : M B :=
  fun d => match c d with
           | Ok (a, d') => k a d'
           | Stuck f => Stuck f
           end.

Notation "x <- c ;; k" := (bind c (fun x => k))
  (at level 100, c at next level, right associativity).
Notation "c ;;; k" := (bind c (fun _ => k))
  (at level 100, right associativity).

Definition lift {A : Type} (r : result A) : M A :=
  fun d => match r with
           | Ok a => Ok (a, d)
           | Stuck f => Stuck f
           end.

Definition get_shared : M (option katcp_shared) := fun d => Ok (d_shared d, d).

Definition set_shared (s : katcp_shared) : M unit :=
  fun d => Ok (tt, {| d_shared := Some s; d_allocs := d_allocs d; d_events := d_events d |}).

Definition emit (evs : list event) : M unit :=
  fun d => Ok (tt, {| d_shared := d_shared d; d_allocs := d_allocs d;
                      d_events := d_events d ++ evs |}).

(** The allocator answers the next request; once the recorded answers are
    used up every request is granted. *)
Definition next_alloc : M alloc_outcome :=
  fun d => Ok (hd Granted (d_allocs d),
               {| d_shared := d_shared d; d_allocs := tl (d_allocs d);
                  d_events := d_events d |}).

(** [log_message_katcp(d, KATCP_LEVEL_ERROR, NULL, ...)] *)
Definition log_message_katcp (l : log_line) : M unit := emit [EvLog l].

(** ** The ordered map, modelled from the spec *)

(** Modelled from the spec: [create_map() -> Map]; the map is allocated,
    so creation answers [NULL] when the allocator refuses. *)
Definition create_avltree : M (option avl_tree) :=
  o <- next_alloc ;;
  match o with
  | Refused => ret None
  | _ => ret (Some [])
  end.

(** Modelled from the spec: a store entry is a key with an opaque value;
    the node is allocated.  The spec has no entry without a key, so a null
    key is left undefined. *)
Definition create_node_avltree (key : option string) (data : dataptr) : M (option avl_node) :=
  match key with
  | None => lift (Stuck NullDeref)
  | Some k =>
      o <- next_alloc ;;
      match o with
      | Refused => ret None
      | _ => ret (Some (k, data))
      end
  end.

(** Modelled from the spec: [find(map, key) -> value | NotFound]. *)
Fixpoint find_name_node_avltree (t : avl_tree) (key : string) : option avl_node :=
  match t with
  | [] => None
  | e :: rest =>
      match strcmp key (fst e) with
      | Eq => Some e
      | _ => find_name_node_avltree rest key
      end
  end.

(** The entries are kept in key order. *)
Fixpoint insert_node (t : avl_tree) (n : avl_node) : avl_tree :=
  match t with
  | [] => [n]
  | e :: rest =>
      match strcmp (fst n) (fst e) with
      | Gt => e :: insert_node rest n
      | _ => n :: e :: rest
      end
  end.

(** Modelled from the spec: [insert(map, key, value) -> Ok | Error]; keys
    are unique within a store, and the error is the collision with a key
    the map already holds. *)
Definition add_node_avltree (t : avl_tree) (n : avl_node) : option avl_tree :=
  match find_name_node_avltree t (fst n) with
  | Some _ => None
  | None => Some (insert_node t n)
  end.

(** Modelled from the spec: the value of a found entry. *)
Definition get_node_data_avltree (n : avl_node) : dataptr := snd n.

(** Modelled from the spec: node destruction with a caller-supplied
    value-free callback.  The value is released through the callback; an
    unset callback cannot be called. *)
Definition free_node_avltree (n : avl_node) (free_fn : fnptr) : list event :=
  if free_fn =? NULL then [] else [EvFree free_fn (snd n)].

(** Modelled from the spec: [destroy_map(map, free_fn)] releases all
    entries via [free_fn], then the map itself. *)
Definition destroy_avltree (t : avl_tree) (free_fn : fnptr) : list event :=
  flat_map (fun n => free_node_avltree n free_fn) t.

(** ** ktype.c *)

(** [sane_shared_katcp(d)], a consistency check declared outside these
    sources, is left out; each function's own test of [d->d_shared] is
    kept.  The check guards the dispatch without shared state, and no
    statement below is about such a dispatch. *)

Definition set_tree (t : katcp_type) (tr : option avl_tree) : katcp_type :=
  {| t_name := t_name t; t_tree := tr;
     t_print := t_print t; t_free := t_free t; t_copy := t_copy t;
     t_compare := t_compare t; t_parse := t_parse t |}.

(** [destroy_type_katcp]: the name is released, the tree is destroyed with
    the type's own free callback, the descriptor is released last. *)
Definition destroy_type_katcp (t : slot) : M unit :=
  match t with
  | None => ret tt
  | Some t =>
      match t_tree t with
      | Some tr => emit (destroy_avltree tr (t_free t))
      | None => ret tt
      end ;;;
      emit [EvReleaseType (t_name t)]
  end.

Definition create_type_katcp : M slot :=
  o <- next_alloc ;;
  match o with
  | Refused => ret None
  | _ => ret (Some {| t_name := None; t_tree := None;
                      t_print := NULL; t_free := NULL; t_copy := NULL;
                      t_compare := NULL; t_parse := NULL |})
  end.

(** [strdup]: copies the string; reading a null argument is undefined. *)
Definition strdup (s : option string) : M (option string) :=
  match s with
  | None => lift (Stuck NullDeref)
  | Some str =>
      o <- next_alloc ;;
      match o with
      | Refused => ret None
      | _ => ret (Some str)
      end
  end.

(** Reading [ts[i]] through the array pointer. *)
Definition deref_array (ts : array_ptr) : result (list slot) :=
  match ts with
  | NullPtr => Stuck NullDeref
  | Dangling => Stuck UseAfterFree
  | Live blk => Ok blk
  end.

Definition read_slot (ts : array_ptr) (i : Z) : result slot :=
  let? blk := deref_array ts in array_get blk i.

(** [t->t_name] for the [strcmp] of the search: both the descriptor pointer
    and its name are dereferenced. *)
Definition name_of_slot (t : slot) : result string :=
  match t with
  | None => Stuck NullDeref
  | Some t => match t_name t with
              | None => Stuck NullDeref
              | Some n => Ok n
              end
  end.

(** The [while (low <= high)] loop of the search. *)
Fixpoint bsearch_loop (fuel : nat) (ts : array_ptr) (str : string) (low high : Z)
  : result Z :=
  if low <=? high then
    match fuel with
    | O => Stuck LoopFuel
    | S fuel =>
        let? span := int_sub high low in
        let? half := int_div span 2 in
        let? mid := int_add low half in
        let? t := read_slot ts mid in
        let? name := name_of_slot t in
        match strcmp str name with
        | Eq => Ok mid
        | Lt => let? high' := int_sub mid 1 in bsearch_loop fuel ts str low high'
        | Gt => let? low' := int_add mid 1 in bsearch_loop fuel ts str low' high
        end
    end
  else
    let? l1 := int_add low 1 in int_mul (-1) l1.

Definition is_null_array (ts : array_ptr) : bool :=
  match ts with
  | NullPtr => true
  | _ => false
  end.

Definition binary_search_type_list_katcp (ts : array_ptr) (t_size : Z) (str : option string)
  : result Z :=
  match str with
  | None => Ok (-1)
  | Some str =>
      if is_null_array ts || (t_size =? 0) then Ok (-1)
      else
        let? high := int_sub t_size 1 in
        bsearch_loop (Z.to_nat t_size) ts str 0 high
  end.

(** The block [s->s_type] points to has been released by a [realloc] that
    moved it or was asked for no bytes; the field itself still holds the
    old address. *)
Definition block_released : M unit :=
  s <- get_shared ;;
  match s with
  | Some s =>
      match s_type s with
      | Live _ => set_shared {| s_type := Dangling; s_type_count := s_type_count s |}
      | _ => ret tt
      end
  | None => ret tt
  end.

(** [realloc(ts, sizeof(struct katcp_type * ) * n)].  A refusal leaves the
    old block as it was.  A grant keeps the first slots and leaves the new
    ones indeterminate (every use below writes them before reading them);
    when the block moves, the old one is gone.  A negative [n] converts to
    a [size_t] no allocator serves.  A request of 0 bytes for a block that
    exists is no request at all: the C library this code runs on (glibc)
    releases the block and answers [NULL].  The result is the resized
    block, to which the local [ts] now points. *)
Definition realloc (ts : array_ptr) (n : Z) : M (option (list slot)) :=
  match ts with
  | Dangling => lift (Stuck UseAfterFree)
  | _ =>
      if n <? 0 then ret None
      else if (n =? 0) && negb (is_null_array ts) then
        block_released ;;; ret None
      else
        let old := match ts with Live blk => blk | _ => [] end in
        o <- next_alloc ;;
        match o with
        | Refused => ret None
        | Granted => ret (Some (resize (Z.to_nat n) None old))
        | Relocated => block_released ;;; ret (Some (resize (Z.to_nat n) None old))
        end
  end.

(** [for (; i > tid; i--) ts[i] = ts[i-1];] yields the block and the final [i]. *)
Fixpoint shift_up (fuel : nat) (ts : list slot) (i tid : Z) : result (list slot * Z) :=
  if i >? tid then
    match fuel with
    | O => Stuck LoopFuel
    | S fuel =>
        let? j := int_sub i 1 in
        let? x := array_get ts j in
        let? ts' := array_set ts i x in
        shift_up fuel ts' j tid
    end
  else Ok (ts, i).

Definition register_at_id_type_katcp (tid : Z) (tname : option string)
    (fn_print fn_free fn_copy fn_compare fn_parse : fnptr) : M status :=
  s <- get_shared ;;
  match s with
  | None => ret (Failed NoSharedState)
  | Some s =>
      let size := s_type_count s in
      n <- lift (int_add size 1) ;;
      r <- realloc (s_type s) n ;;
      match r with
      | None => ret (Failed AllocationError)
      | Some ts =>
          ts <- lift (array_set ts size None) ;;
          t <- create_type_katcp ;;
          match t with
          | None => ret (Failed AllocationError)
          | Some t =>
              name <- strdup tname ;;
              match name with
              | None =>
                  destroy_type_katcp (Some t) ;;;
                  ret (Failed AllocationError)
              | Some _ =>
                  tree <- create_avltree ;;
                  match tree with
                  | None =>
                      destroy_type_katcp
                        (Some {| t_name := name; t_tree := None;
                                 t_print := t_print t; t_free := t_free t;
                                 t_copy := t_copy t; t_compare := t_compare t;
                                 t_parse := t_parse t |}) ;;;
                      ret (Failed AllocationError)
                  | Some _ =>
                      let t := {| t_name := name; t_tree := tree;
                                  t_print := fn_print; t_free := fn_free;
                                  t_copy := fn_copy; t_compare := fn_compare;
                                  t_parse := fn_parse |} in
                      p <- lift (shift_up (S (Z.to_nat size)) ts size tid) ;;
                      ts <- lift (array_set (fst p) (snd p) (Some t)) ;;
                      count <- lift (int_add size 1) ;;
                      set_shared {| s_type := Live ts; s_type_count := count |} ;;;
                      ret (Done (snd p))
                  end
              end
          end
      end
  end.

Definition register_name_type_katcp (name : option string)
    (fn_print fn_free fn_copy fn_compare fn_parse : fnptr) : M status :=
  s <- get_shared ;;
  match s with
  | None => ret (Failed NoSharedState)
  | Some s =>
      pos <- lift (binary_search_type_list_katcp (s_type s) (s_type_count s) name) ;;
      if pos >=? 0 then ret (Failed DuplicateNameError)
      else
        p1 <- lift (int_add pos 1) ;;
        pos <- lift (int_mul p1 (-1)) ;;
        register_at_id_type_katcp pos name fn_print fn_free fn_copy fn_compare fn_parse
  end.

(** [for (; pos < (size-1); pos++) ts[pos] = ts[pos+1];] *)
Fixpoint shift_down (fuel : nat) (ts : list slot) (pos size : Z) : result (list slot) :=
  let? last := int_sub size 1 in
  if pos <? last then
    match fuel with
    | O => Stuck LoopFuel
    | S fuel =>
        let? j := int_add pos 1 in
        let? x := array_get ts j in
        let? ts' := array_set ts pos x in
        shift_down fuel ts' j size
    end
  else Ok ts.

(** [deregister_type_katcp].  The local [ts] aliases [s->s_type] up to the
    [realloc], so the destruction, the nulling of the slot and the shift
    are writes to the registry's own block and are there whatever
    [realloc] answers. *)
Definition deregister_type_katcp (name : option string) : M status :=
  s <- get_shared ;;
  match s with
  | None => ret (Failed NoSharedState)
  | Some s =>
      let ts := s_type s in
      let size := s_type_count s in
      pos <- lift (binary_search_type_list_katcp ts size name) ;;
      if pos <? 0 then ret (Failed NotFoundError)
      else
        blk <- lift (deref_array ts) ;;
        t <- lift (array_get blk pos) ;;
        blk <- match t with
               | Some _ =>
                   destroy_type_katcp t ;;;
                   lift (array_set blk pos None)
               | None => ret blk
               end ;;
        blk <- lift (shift_down (Z.to_nat size) blk pos size) ;;
        set_shared {| s_type := Live blk; s_type_count := size |} ;;;
        n <- lift (int_sub size 1) ;;
        r <- realloc (Live blk) n ;;
        match r with
        | None => ret (Failed AllocationError)
        | Some blk' =>
            count <- lift (int_sub size 1) ;;
            set_shared {| s_type := Live blk'; s_type_count := count |} ;;;
            ret (Done 0)
        end
  end.

Definition same_callbacks (t : katcp_type)
    (fn_print fn_free fn_copy fn_compare fn_parse : fnptr) : bool :=
  (t_print t =? fn_print) && (t_free t =? fn_free) && (t_copy t =? fn_copy)
  && (t_compare t =? fn_compare) && (t_parse t =? fn_parse).

(** Writing a field of the descriptor [ts[pos]] points to. *)
Definition update_type (pos : Z) (t : katcp_type) : M unit :=
  s <- get_shared ;;
  match s with
  | None => lift (Stuck NullDeref)
  | Some s =>
      blk <- lift (deref_array (s_type s)) ;;
      blk <- lift (array_set blk pos (Some t)) ;;
      set_shared {| s_type := Live blk; s_type_count := s_type_count s |}
  end.

Definition store_data_type_katcp (t_name : option string) (d_name : option string)
    (d_data : dataptr) (fn_print fn_free fn_copy fn_compare fn_parse : fnptr) : M status :=
  s <- get_shared ;;
  match s with
  | None => ret (Failed NoSharedState)
  | Some s =>
      pos <- lift (binary_search_type_list_katcp (s_type s) (s_type_count s) t_name) ;;
      r <- (if pos <? 0 then
              p1 <- lift (int_add pos 1) ;;
              at_id <- lift (int_mul p1 (-1)) ;;
              r <- register_at_id_type_katcp at_id t_name
                     fn_print fn_free fn_copy fn_compare fn_parse ;;
              if c_int r <? 0 then
                log_message_katcp (LogCouldNotCreateType t_name) ;;;
                ret (Failed (match r with Failed e => e | Done _ => AllocationError end))
              else ret r
            else ret (Done pos)) ;;
      match r with
      | Failed e => ret (Failed e)
      | Done pos =>
          s <- get_shared ;;
          match s with
          | None => lift (Stuck NullDeref)
          | Some s =>
              t <- lift (read_slot (s_type s) pos) ;;
              match t with
              | None => ret (Failed NullDescriptor)
              | Some t =>
                  if negb (same_callbacks t fn_print fn_free fn_copy fn_compare fn_parse)
                  then
                    log_message_katcp (LogCallbacksDontMatch d_name t_name) ;;;
                    ret (Failed CallbackMismatchError)
                  else
                    tree <- match t_tree t with
                            | Some tr => ret (Some tr)
                            | None =>
                                tr <- create_avltree ;;
                                update_type pos (set_tree t tr) ;;;
                                ret tr
                            end ;;
                    match tree with
                    | None => ret (Failed AllocationError)
                    | Some tr =>
                        an <- create_node_avltree d_name d_data ;;
                        match an with
                        | None => ret (Failed AllocationError)
                        | Some an =>
                            match add_node_avltree tr an with
                            | None =>
                                emit (free_node_avltree an fn_free) ;;;
                                ret (Failed DuplicateKeyError)
                            | Some tr' =>
                                update_type pos (set_tree t (Some tr')) ;;;
                                ret (Done 0)
                            end
                        end
                    end
              end
          end
      end
  end.

(** The part of [store_data_type_katcp] that follows the resolution of the
    type: the descriptor at [pos] was read as [t]. *)
Definition store_in_type (pos : Z) (t : katcp_type) (t_name d_name : option string)
    (d_data : dataptr) (fn_print fn_free fn_copy fn_compare fn_parse : fnptr) : M status :=
  if negb (same_callbacks t fn_print fn_free fn_copy fn_compare fn_parse)
  then
    log_message_katcp (LogCallbacksDontMatch d_name t_name) ;;;
    ret (Failed CallbackMismatchError)
  else
    tree <- match t_tree t with
            | Some tr => ret (Some tr)
            | None =>
                tr <- create_avltree ;;
                update_type pos (set_tree t tr) ;;;
                ret tr
            end ;;
    match tree with
    | None => ret (Failed AllocationError)
    | Some tr =>
        an <- create_node_avltree d_name d_data ;;
        match an with
        | None => ret (Failed AllocationError)
        | Some an =>
            match add_node_avltree tr an with
            | None =>
                emit (free_node_avltree an fn_free) ;;;
                ret (Failed DuplicateKeyError)
            | Some tr' =>
                update_type pos (set_tree t (Some tr')) ;;;
                ret (Done 0)
            end
        end
    end.

Definition find_name_id_type_katcp (str : option string) : M Z :=
  s <- get_shared ;;
  match s with
  | None => ret (-1)
  | Some s => lift (binary_search_type_list_katcp (s_type s) (s_type_count s) str)
  end.

Definition find_name_type_katcp (str : option string) : M slot :=
  pos <- find_name_id_type_katcp str ;;
  if pos <? 0 then
    log_message_katcp LogTypeNotDefined ;;;
    ret None
  else
    s <- get_shared ;;
    match s with
    | None => ret None
    | Some s => lift (read_slot (s_type s) pos)
    end.

(** The result is the stored data pointer, [NULL] when the type or the key
    is not found.  (Modelled from the spec: a type without a store holds no
    key.) *)
Definition get_key_data_type_katcp (type key : option string) : M dataptr :=
  match type, key with
  | Some _, Some k =>
      t <- find_name_type_katcp type ;;
      match t with
      | None => ret NULL
      | Some t =>
          match t_tree t with
          | None => ret NULL
          | Some tr =>
              match find_name_node_avltree tr k with
              | None => ret NULL
              | Some n => ret (get_node_data_avltree n)
              end
          end
      end
  | _, _ => ret NULL
  end.

(** ** Registry invariants *)

Definition slot_name (t : slot) : option string :=
  match t with
  | Some d => t_name d
  | None => None
  end.

(** Every slot of [blk] points to a descriptor, and [ns] are their names
    in array order. *)
Definition block_names (blk : list slot) (ns : list string) : Prop :=
  Forall2 (fun t n => slot_name t = Some n) blk ns.

(** The registry holds exactly the slots [blk]: the count is their number
    and [s_type] points to them (or is null while there are none). *)
Definition holds (s : katcp_shared) (blk : list slot) : Prop :=
  s_type_count s = Z.of_nat (length blk) /\
  (s_type s = Live blk \/ (s_type s = NullPtr /\ blk = [])).

(** The invariant of the spec's data model: the descriptors are sorted
    strictly ascending by name, so no two share a name. *)
Definition sorted_registry (s : katcp_shared) (blk : list slot) (ns : list string) : Prop :=
  holds s blk /\ block_names blk ns /\ StronglySorted str_lt ns.

(** The dispatch state holds a sorted registry whose
    names are [ns]. *)
Definition registry_names (d : katcp_dispatch) (ns : list string) : Prop :=
  exists s blk, d_shared d = Some s /\ sorted_registry s blk ns.

(** The registry a dispatch starts with. *)
Definition empty_shared : katcp_shared := {| s_type := NullPtr; s_type_count := 0 |}.

(** The callback set of a descriptor. *)
Definition callbacks_of (t : katcp_type) : fnptr * fnptr * fnptr * fnptr * fnptr :=
  (t_print t, t_free t, t_copy t, t_compare t, t_parse t).

(** The entries of a descriptor's store; there are none without a store. *)
Definition entries_of (t : katcp_type) : avl_tree :=
  match t_tree t with
  | Some tr => tr
  | None => []
  end.

(** The position [l] splits the names [ns] around [str]: the names before
    it are below [str], the names from it on are above. *)
Definition splits_at (ns : list string) (str : string) (l : nat) : Prop :=
  (l <= length ns)%nat /\
  (forall i a, ns !! i = Some a -> (i < l)%nat -> str_lt a str) /\
  (forall i a, ns !! i = Some a -> (l <= i)%nat -> str_lt str a).

(** What the search may answer: a position holding [str], or the coded
    position that splits the names around [str]. *)
Definition search_answer (ns : list string) (str : string) (r : Z) : Prop :=
  (0 <= r /\ ns !! Z.to_nat r = Some str) \/
  (exists l : nat, r = - (Z.of_nat l + 1) /\ splits_at ns str l).

(** The allocator refuses none of the coming requests. *)
Definition never_refuses (d : katcp_dispatch) : Prop :=
  Forall (fun o => o <> Refused) (d_allocs d).

(** The allocator grants the next [k] requests. *)
Definition grants (k : nat) (d : katcp_dispatch) : Prop :=
  Forall (fun o => o <> Refused) (take k (d_allocs d)).

#[global] Instance alloc_outcome_eq_dec : EqDecision alloc_outcome.
Proof. solve_decision. Defined.

(** The descriptor a successful registration builds: the copied name, a
    fresh empty tree and the five callbacks. *)
Definition new_type (name : string)
    (fn_print fn_free fn_copy fn_compare fn_parse : fnptr) : katcp_type :=
  {| t_name := Some name; t_tree := Some [];
     t_print := fn_print; t_free := fn_free; t_copy := fn_copy;
     t_compare := fn_compare; t_parse := fn_parse |}.

(** The list [l] with [x] put in before position [k]. *)
Definition insert_at {A : Type} (k : nat) (x : A) (l : list A) : list A :=
  take k l ++ x :: drop k l.

(** The dispatch state after [k] allocation requests and with the registry
    replaced by [s]. *)
Definition with_shared (d : katcp_dispatch) (k : nat) (s : katcp_shared) : katcp_dispatch :=
  {| d_shared := Some s; d_allocs := drop k (d_allocs d); d_events := d_events d |}.

(** The part of [deregister_type_katcp] that follows the shift: the block
    [blk] of [size] slots is given back one slot shorter. *)
Definition deregister_shrink (blk : list slot) (size : Z) : M status :=
  n <- lift (int_sub size 1) ;;
  r <- realloc (Live blk) n ;;
  match r with
  | None => ret (Failed AllocationError)
  | Some blk' =>
      count <- lift (int_sub size 1) ;;
      set_shared {| s_type := Live blk'; s_type_count := count |} ;;;
      ret (Done 0)
  end.

(** What the destruction of the descriptor [t] lets out: one call of the
    type's free callback per stored entry, then the release of the
    descriptor. *)
Definition destroy_events (t : katcp_type) : list event :=
  destroy_avltree (entries_of t) (t_free t) ++ [EvReleaseType (t_name t)].

(** The block after the descriptor at [i] was destroyed and the slots
    behind it were moved down: the last slot is left holding the pointer
    its neighbour now holds as well (or null when [i] was the last). *)
Definition shifted_down (i : nat) (blk : list slot) : list slot :=
  delete i blk ++ [default None (last (drop (S i) blk))].

(** ** Sequences of registrations *)

(** One [register_by_name] call: the name and the five callbacks. *)
Definition registration : Type := (string * (fnptr * fnptr * fnptr * fnptr * fnptr))%type.

Definition register_by_name (c : registration) : M status :=
  let '(name, (fn_print, fn_free, fn_copy, fn_compare, fn_parse)) := c in
  register_name_type_katcp (Some name) fn_print fn_free fn_copy fn_compare fn_parse.

(** The calls are made one after the other; the result lists, for every
    call, what it returned and the state it left. *)
Fixpoint register_all (calls : list registration) (d : katcp_dispatch)
  : result (list (status * katcp_dispatch)) :=
  match calls with
  | [] => Ok []
  | c :: rest =>
      let? p := register_by_name c d in
      let? trace := register_all rest (snd p) in
      Ok (p :: trace)
  end.

(** ** A sample registry *)

Definition sample_type (name : string) (tree : avl_tree) : katcp_type :=
  {| t_name := Some name; t_tree := Some tree;
     t_print := 11; t_free := 12; t_copy := 13; t_compare := 14; t_parse := 15 |}.

Definition sample_block : list slot :=
  [ Some (sample_type "names" [("adam", 101); ("john", 102); ("perry", 103)]%string);
    Some (sample_type "string" [("test1", 201); ("test2", 202)]%string);
    Some (sample_type "test" []) ].

Definition sample_names : list string := ["names"; "string"; "test"]%string.

Definition sample_shared : katcp_shared :=
  {| s_type := Live sample_block; s_type_count := 3 |}.

Definition sample_dispatch (allocs : list alloc_outcome) : katcp_dispatch :=
  {| d_shared := Some sample_shared; d_allocs := allocs; d_events := [] |}.

Definition empty_dispatch (allocs : list alloc_outcome) : katcp_dispatch :=
  {| d_shared := Some empty_shared; d_allocs := allocs; d_events := [] |}.

(** A registry whose only type is the first of the sample. *)
Definition single_dispatch (allocs : list alloc_outcome) : katcp_dispatch :=
  {| d_shared := Some {| s_type := Live (take 1 sample_block); s_type_count := 1 |};
     d_allocs := allocs; d_events := [] |}.

(** ** The rest of ktype.c *)

(** [get_id_type_katcp]: the only test is [id >= size]. *)
Definition get_id_type_katcp (id : Z) : M slot :=
  s <- get_shared ;;
  match s with
  | None => ret None
  | Some s =>
      if id >=? s_type_count s then ret None
      else lift (read_slot (s_type s) id)
  end.

Definition get_tree_type_katcp (t : slot) : option avl_tree :=
  match t with
  | None => None
  | Some t => t_tree t
  end.

(** [destroy_avltree(t->t_tree, t->t_free)] as [destroy_type_list_katcp]
    calls it, without a test of the tree pointer.  The spec describes the
    destruction of a map only, so a null tree is left undefined. *)
Definition destroy_tree_of (t : katcp_type) : M unit :=
  match t_tree t with
  | None => lift (Stuck NullDeref)
  | Some tr => emit (destroy_avltree tr (t_free t))
  end.

(** The first loop of [destroy_type_list_katcp]: every descriptor's tree is
    destroyed and its pointer nulled. *)
Fixpoint destroy_trees (fuel : nat) (blk : list slot) (i size : Z) : M (list slot) :=
  if i <? size then
    match fuel with
    | O => lift (Stuck LoopFuel)
    | S fuel =>
        t <- lift (array_get blk i) ;;
        blk <- match t with
               | Some t =>
                   destroy_tree_of t ;;;
                   lift (array_set blk i (Some (set_tree t None)))
               | None => ret blk
               end ;;
        i <- lift (int_add i 1) ;;
        destroy_trees fuel blk i size
    end
  else ret blk.

(** The second loop: every descriptor is destroyed. *)
Fixpoint destroy_types (fuel : nat) (blk : list slot) (i size : Z) : M unit :=
  if i <? size then
    match fuel with
    | O => lift (Stuck LoopFuel)
    | S fuel =>
        t <- lift (array_get blk i) ;;
        destroy_type_katcp t ;;;
        i <- lift (int_add i 1) ;;
        destroy_types fuel blk i size
    end
  else ret tt.

(** [destroy_type_list_katcp]: the array is released at the end, and the
    registry is left null with a count of 0.  A dangling array pointer is
    released a second time, whatever the count. *)
Definition destroy_type_list_katcp : M unit :=
  s <- get_shared ;;
  match s with
  | None => ret tt
  | Some s =>
      let size := s_type_count s in
      match s_type s with
      | NullPtr => ret tt
      | ts =>
          blk <- lift (deref_array ts) ;;
          blk <- destroy_trees (Z.to_nat size) blk 0 size ;;
          destroy_types (Z.to_nat size) blk 0 size ;;;
          set_shared {| s_type := NullPtr; s_type_count := 0 |}
      end
  end.

(** ** Sequences of registry operations *)

(** The calls a user of the registry makes, with non-null names and keys. *)
Inductive operation : Type :=
| OpRegister (name : string) (fn_print fn_free fn_copy fn_compare fn_parse : fnptr)
| OpStore (type key : string) (data : dataptr)
          (fn_print fn_free fn_copy fn_compare fn_parse : fnptr)
| OpLookup (type key : string)
| OpFind (name : string)
| OpDeregister (name : string)
| OpTeardown.

Definition run_operation (o : operation) : M unit :=
  match o with
  | OpRegister name p f c cm pa =>
      register_name_type_katcp (Some name) p f c cm pa ;;; ret tt
  | OpStore type key data p f c cm pa =>
      store_data_type_katcp (Some type) (Some key) data p f c cm pa ;;; ret tt
  | OpLookup type key =>
      get_key_data_type_katcp (Some type) (Some key) ;;; ret tt
  | OpFind name =>
      find_name_type_katcp (Some name) ;;; ret tt
  | OpDeregister name =>
      deregister_type_katcp (Some name) ;;; ret tt
  | OpTeardown => destroy_type_list_katcp
  end.

Fixpoint run_operations (ops : list operation) : M unit :=
  match ops with
  | [] => ret tt
  | o :: rest => run_operation o ;;; run_operations rest
  end.

(** The type names a registry holds after an operation, as a set: what
    the operation is for, apart from how the array is kept. *)
Definition names_step (o : operation) (held : string -> Prop) : string -> Prop :=
  match o with
  | OpRegister name _ _ _ _ _ => fun n => held n \/ n = name
  | OpStore type _ _ _ _ _ _ _ => fun n => held n \/ n = type
  | OpDeregister name => fun n => held n /\ n <> name
  | OpTeardown => fun _ => False
  | OpLookup _ _ => held
  | OpFind _ => held
  end.

Fixpoint names_after (ops : list operation) (held : string -> Prop) : string -> Prop :=
  match ops with
  | [] => held
  | o :: rest => names_after rest (names_step o held)
  end.

(** The operation is no deregistration of the only type a registry holds:
    when [o] deregisters a held name, another name is held as well. *)
Definition spares_a_type (o : operation) (held : string -> Prop) : Prop :=
  match o with
  | OpDeregister name => held name -> exists m, held m /\ m <> name
  | _ => True
  end.

(** No operation of the sequence deregisters the only type the registry
    holds when its turn comes. *)
Fixpoint never_last (ops : list operation) (held : string -> Prop) : Prop :=
  match ops with
  | [] => True
  | o :: rest => spares_a_type o held /\ never_last rest (names_step o held)
  end.

(** Every slot points to a descriptor that has its store. *)
Definition stocked (blk : list slot) : Prop :=
  Forall (fun sl => exists t tr, sl = Some t /\ t_tree t = Some tr) blk.

(** The invariant of a registry in use: sorted by name, every descriptor
    with its store, the count an [int]. *)
Definition registry_ok (d : katcp_dispatch) (ns : list string) : Prop :=
  exists s blk,
    d_shared d = Some s /\ sorted_registry s blk ns /\ stocked blk /\
    s_type_count s <= INT_MAX.

(** The slot after the first loop of the teardown: the descriptor is the
    same but for its tree pointer, which is null. *)
Definition without_tree (sl : slot) : slot :=
  match sl with
  | Some t => Some (set_tree t None)
  | None => None
  end.

(** What the two loops of the teardown let out for one slot. *)
Definition tree_events (sl : slot) : list event :=
  match sl with
  | Some t => destroy_avltree (entries_of t) (t_free t)
  | None => []
  end.

Definition release_events (sl : slot) : list event :=
  match sl with
  | Some t => [EvReleaseType (t_name t)]
  | None => []
  end.

(** The dispatch state with further events. *)
Definition add_events (d : katcp_dispatch) (evs : list event) : katcp_dispatch :=
  {| d_shared := d_shared d; d_allocs := d_allocs d; d_events := d_events d ++ evs |}.

(** What the teardown lets out for the descriptors [blk]: first the
    destruction of every tree with its type's free callback, then the
    release of every descriptor, both in array order. *)
Definition teardown_events (blk : list slot) : list event :=
  flat_map (fun sl => match sl with
                      | Some t => destroy_avltree (entries_of t) (t_free t)
                      | None => []
                      end) blk
  ++ flat_map (fun sl => match sl with
                         | Some t => [EvReleaseType (t_name t)]
                         | None => []
                         end) blk.

(** The registry pointer after a granted [realloc]: it dangles exactly when
    a live block was moved. *)
Definition shared_after_realloc (s : katcp_shared) (o : alloc_outcome) : katcp_shared :=
  match o, s_type s with
  | Relocated, Live _ => {| s_type := Dangling; s_type_count := s_type_count s |}
  | _, _ => s
  end.

(** The dispatch state after one allocation request. *)
Definition pop (d : katcp_dispatch) : katcp_dispatch :=
  {| d_shared := d_shared d; d_allocs := tl (d_allocs d); d_events := d_events d |}.

(** * JTAG bit-banging (tcpborphserver3/rpjtag_io.c)

    The file drives four GPIO lines through the lgpio library, which is
    declared outside these sources.  A library call is recorded with its
    arguments, in program order; the value a call returns, where the code
    uses it, is the next of the answers the library is going to give.  The
    file's static variables are the fields of the state. *)

Definition JTAG_TMS : Z := 27.
Definition JTAG_TDI : Z := 22.
Definition JTAG_TDO : Z := 23.
Definition JTAG_TCK : Z := 24.
(** Built without [DEBUG]. *)
Definition WAIT : Z := 1000.
Definition LG_LOW : Z := 0.

(** The lines written to [stderr]. *)
Inductive jtag_message : Type :=
| MsgOpenFailed (rc : Z)
| MsgClaimFailed (line : string) (gpio : Z)
| MsgResettingClock (gpio : Z)
| MsgDone.

Inductive gpio_call : Type :=
| lgGpiochipOpen (dev : Z)
| lgGpioClaimOutput (handle flags gpio level : Z)
| lgGpioClaimInput (handle flags gpio : Z)
| lgGpioFreeLine (line_handle : Z)
| lgGpiochipClose (handle : Z)
| lgGpioWrite (line_handle level : Z)
| lgGpioRead (line_handle : Z)
| fprintf_stderr (msg : jtag_message).

Record jtag_state : Type := {
  chip : Z;
  h_tck : Z;
  h_tms : Z;
  h_tdi : Z;
  h_tdo : Z;
  tdi_state : Z;
  gpio_calls : list gpio_call;
  gpio_answers : list Z
}.

(** The statics as initialised, before any call. *)
Definition jtag_start (answers : list Z) : jtag_state :=
  {| chip := -1; h_tck := -1; h_tms := -1; h_tdi := -1; h_tdo := -1; tdi_state := -1;
     gpio_calls := []; gpio_answers := answers |}.

Definition set_chip (v : Z) (st : jtag_state) : jtag_state :=
  {| chip := v; h_tck := h_tck st; h_tms := h_tms st; h_tdi := h_tdi st;
     h_tdo := h_tdo st; tdi_state := tdi_state st;
     gpio_calls := gpio_calls st; gpio_answers := gpio_answers st |}.

Definition set_h_tck (v : Z) (st : jtag_state) : jtag_state :=
  {| chip := chip st; h_tck := v; h_tms := h_tms st; h_tdi := h_tdi st;
     h_tdo := h_tdo st; tdi_state := tdi_state st;
     gpio_calls := gpio_calls st; gpio_answers := gpio_answers st |}.

Definition set_h_tms (v : Z) (st : jtag_state) : jtag_state :=
  {| chip := chip st; h_tck := h_tck st; h_tms := v; h_tdi := h_tdi st;
     h_tdo := h_tdo st; tdi_state := tdi_state st;
     gpio_calls := gpio_calls st; gpio_answers := gpio_answers st |}.

Definition set_h_tdi (v : Z) (st : jtag_state) : jtag_state :=
  {| chip := chip st; h_tck := h_tck st; h_tms := h_tms st; h_tdi := v;
     h_tdo := h_tdo st; tdi_state := tdi_state st;
     gpio_calls := gpio_calls st; gpio_answers := gpio_answers st |}.

Definition set_h_tdo (v : Z) (st : jtag_state) : jtag_state :=
  {| chip := chip st; h_tck := h_tck st; h_tms := h_tms st; h_tdi := h_tdi st;
     h_tdo := v; tdi_state := tdi_state st;
     gpio_calls := gpio_calls st; gpio_answers := gpio_answers st |}.

Definition set_tdi_state (v : Z) (st : jtag_state) : jtag_state :=
  {| chip := chip st; h_tck := h_tck st; h_tms := h_tms st; h_tdi := h_tdi st;
     h_tdo := h_tdo st; tdi_state := v;
     gpio_calls := gpio_calls st; gpio_answers := gpio_answers st |}.

(** A library call is made. *)
Definition called (c : gpio_call) (st : jtag_state) : jtag_state :=
  {| chip := chip st; h_tck := h_tck st; h_tms := h_tms st; h_tdi := h_tdi st;
     h_tdo := h_tdo st; tdi_state := tdi_state st;
     gpio_calls := gpio_calls st ++ [c]; gpio_answers := gpio_answers st |}.

(** The value the last call returns; the library answers 0 once the
    recorded answers are used up. *)
Definition returned (st : jtag_state) : Z * jtag_state :=
  (hd 0 (gpio_answers st),
   {| chip := chip st; h_tck := h_tck st; h_tms := h_tms st; h_tdi := h_tdi st;
      h_tdo := h_tdo st; tdi_state := tdi_state st;
      gpio_calls := gpio_calls st; gpio_answers := tl (gpio_answers st) |}).

(** What makes an execution of this file undefined; [OutOfFuel] is the
    embedding's own. *)
Inductive undefined : Type :=
| ShiftCount
| BufferOverrun
| SignedOverflow
| OutOfFuel.

Inductive outcome (A : Type) : Type :=
| Fine (a : A)
| Undefined (u : undefined).

Arguments Fine {A} a.
Arguments Undefined {A} u.

Definition bindO {A B : Type} (c : outcome A) (k : A -> outcome B) : outcome B :=
  match c with
  | Fine a => k a
  | Undefined u => Undefined u
  end.

Notation "'let!' x ':=' c 'in' k" := (bindO c (fun x => k))
  (at level 10, x pattern, c at level 100, k at level 200).

(** An [int] result. *)
Definition as_int (z : Z) : outcome Z :=
  if (INT_MIN <=? z) && (z <=? INT_MAX) then Fine z else Undefined SignedOverflow.

(** [cmd >> n] on an [unsigned int]: the count must be within the width. *)
Definition shift_right (cmd n : Z) : outcome Z :=
  if (0 <=? n) && (n <? 32) then Fine (Z.shiftr cmd n) else Undefined ShiftCount.

(** The [int] value of a C condition. *)
Definition c_bool (b : bool) : Z := if b then 1 else 0.

Definition gpio_set_line (line_handle : Z) (st : jtag_state) : jtag_state :=
  called (lgGpioWrite line_handle 1) st.

Definition gpio_clr_line (line_handle : Z) (st : jtag_state) : jtag_state :=
  called (lgGpioWrite line_handle 0) st.

Definition gpio_read_line (line_handle : Z) (st : jtag_state) : Z * jtag_state :=
  returned (called (lgGpioRead line_handle) st).

Definition tick_clk (st : jtag_state) : jtag_state :=
  gpio_clr_line (h_tck st) (gpio_set_line (h_tck st) st).

(** [while (x--) asm("nop")] on a [long], taken as 32 bits wide (the
    comment names the BCM2708): the test reads [x], then [x] is
    decremented. *)
Fixpoint nop_sleep (fuel : nat) (x : Z) : outcome unit :=
  if x =? 0 then Fine tt
  else
    match fuel with
    | O => Undefined OutOfFuel
    | S fuel =>
        let! x := as_int (x - 1) in
        nop_sleep fuel x
    end.

Arguments nop_sleep : simpl never.

(** The [fail:] label of [setup_io]. *)
Definition setup_io_fail (st : jtag_state) : Z * jtag_state :=
  let st := if h_tck st >=? 0 then called (lgGpioFreeLine (h_tck st)) st else st in
  let st := if h_tms st >=? 0 then called (lgGpioFreeLine (h_tms st)) st else st in
  let st := if h_tdi st >=? 0 then called (lgGpioFreeLine (h_tdi st)) st else st in
  let st := if h_tdo st >=? 0 then called (lgGpioFreeLine (h_tdo st)) st else st in
  let st := if chip st >=? 0 then called (lgGpiochipClose (chip st)) st else st in
  (-1, set_chip (-1) (set_h_tck (-1) (set_h_tms (-1) (set_h_tdi (-1) (set_h_tdo (-1) st))))).

Definition setup_io (st : jtag_state) : outcome (Z * jtag_state) :=
  let '(rc, st) := returned (called (lgGpiochipOpen 0) st) in
  let st := set_chip rc st in
  if chip st <? 0 then
    Fine (-1, called (fprintf_stderr (MsgOpenFailed (chip st))) st)
  else
    let '(rc, st) := returned (called (lgGpioClaimOutput (chip st) 0 JTAG_TCK LG_LOW) st) in
    let st := set_h_tck rc st in
    if h_tck st <? 0 then
      Fine (setup_io_fail (called (fprintf_stderr (MsgClaimFailed "TCK" JTAG_TCK)) st))
    else
      let '(rc, st) := returned (called (lgGpioClaimOutput (chip st) 0 JTAG_TMS LG_LOW) st) in
      let st := set_h_tms rc st in
      if h_tms st <? 0 then
        Fine (setup_io_fail (called (fprintf_stderr (MsgClaimFailed "TMS" JTAG_TMS)) st))
      else
        let '(rc, st) :=
          returned (called (lgGpioClaimOutput (chip st) 0 JTAG_TDI LG_LOW) st) in
        let st := set_h_tdi rc st in
        if h_tdi st <? 0 then
          Fine (setup_io_fail (called (fprintf_stderr (MsgClaimFailed "TDI" JTAG_TDI)) st))
        else
          let '(rc, st) := returned (called (lgGpioClaimInput (chip st) 0 JTAG_TDO) st) in
          let st := set_h_tdo rc st in
          if h_tdo st <? 0 then
            Fine (setup_io_fail (called (fprintf_stderr (MsgClaimFailed "TDO" JTAG_TDO)) st))
          else
            let st := set_tdi_state (-1) st in
            let! _ := nop_sleep (Z.to_nat WAIT) WAIT in
            Fine (0, st).

Definition close_io (st : jtag_state) : jtag_state :=
  let st := if h_tck st >=? 0
            then set_h_tck (-1) (called (lgGpioFreeLine (h_tck st)) st) else st in
  let st := if h_tms st >=? 0
            then set_h_tms (-1) (called (lgGpioFreeLine (h_tms st)) st) else st in
  let st := if h_tdi st >=? 0
            then set_h_tdi (-1) (called (lgGpioFreeLine (h_tdi st)) st) else st in
  let st := if h_tdo st >=? 0
            then set_h_tdo (-1) (called (lgGpioFreeLine (h_tdo st)) st) else st in
  if chip st >=? 0 then set_chip (-1) (called (lgGpiochipClose (chip st)) st) else st.

(** [return (val) ? 1 : 0;] *)
Definition read_jtag_tdo (st : jtag_state) : Z * jtag_state :=
  let '(val, st) := gpio_read_line (h_tdo st) st in
  ((if val =? 0 then 0 else 1), st).

(** TDI is written only when the wanted level differs from [tdi_state]. *)
Definition send_cmd_no_tms (iTDI : Z) (st : jtag_state) : jtag_state :=
  let st :=
    if iTDI =? 0 then
      if negb (tdi_state st =? 0)
      then set_tdi_state 0 (gpio_clr_line (h_tdi st) st) else st
    else
      if negb (tdi_state st =? 1)
      then set_tdi_state 1 (gpio_set_line (h_tdi st) st) else st in
  gpio_clr_line (h_tck st) (gpio_set_line (h_tck st) st).

Definition send_cmd (iTDI iTMS : Z) (st : jtag_state) : jtag_state :=
  let st := if iTDI =? 1 then set_tdi_state 1 (gpio_set_line (h_tdi st) st)
            else set_tdi_state 0 (gpio_clr_line (h_tdi st) st) in
  let st := if iTMS =? 1 then gpio_set_line (h_tms st) st
            else gpio_clr_line (h_tms st) st in
  tick_clk st.

Definition reset_clk (st : jtag_state) : jtag_state :=
  called (fprintf_stderr MsgDone)
    (gpio_clr_line (h_tck st) (called (fprintf_stderr (MsgResettingClock JTAG_TCK)) st)).

(** [while (bitoffset--) { ... }]: the test reads [bitoffset], the body
    sees it decremented. *)
Fixpoint send_cmdWord_msb_first_loop (fuel : nat) (cmd lastBit bitoffset : Z)
    (st : jtag_state) : outcome jtag_state :=
  if bitoffset =? 0 then Fine st
  else
    match fuel with
    | O => Undefined OutOfFuel
    | S fuel =>
        let! bitoffset := as_int (bitoffset - 1) in
        let! shifted := shift_right cmd bitoffset in
        let x := Z.land shifted 1 in
        let st := send_cmd x (c_bool ((lastBit =? 1) && (bitoffset =? 0))) st in
        send_cmdWord_msb_first_loop fuel cmd lastBit bitoffset st
    end.

Definition send_cmdWord_msb_first (cmd lastBit bitoffset : Z) (st : jtag_state)
  : outcome jtag_state :=
  send_cmdWord_msb_first_loop (S (Z.to_nat bitoffset)) cmd lastBit bitoffset st.

(** [for (i = 0; i < bitoffset; i++) { ... }]; [i + 1] stays an [int] as
    [i < bitoffset]. *)
Fixpoint send_cmdWord_msb_last_loop (fuel : nat) (cmd lastBit bitoffset i : Z)
    (st : jtag_state) : outcome jtag_state :=
  if i <? bitoffset then
    match fuel with
    | O => Undefined OutOfFuel
    | S fuel =>
        let! shifted := shift_right cmd i in
        let x := Z.land shifted 1 in
        let st := send_cmd x (c_bool ((lastBit =? 1) && (bitoffset =? i + 1))) st in
        send_cmdWord_msb_last_loop fuel cmd lastBit bitoffset (i + 1) st
    end
  else Fine st.

Definition send_cmdWord_msb_last (cmd lastBit bitoffset : Z) (st : jtag_state)
  : outcome jtag_state :=
  send_cmdWord_msb_last_loop (Z.to_nat bitoffset) cmd lastBit bitoffset 0 st.

(** [for (x = 7; x >= 0; x--) { ... }] *)
Fixpoint send_byte_loop (fuel : nat) (byte lastbyte x : Z) (st : jtag_state)
  : outcome jtag_state :=
  if x >=? 0 then
    match fuel with
    | O => Undefined OutOfFuel
    | S fuel =>
        let st := send_cmd (Z.land (Z.shiftr byte x) 1)
                    (c_bool ((x =? 0) && (lastbyte =? 1))) st in
        send_byte_loop fuel byte lastbyte (x - 1) st
    end
  else Fine st.

Definition send_byte (byte lastbyte : Z) (st : jtag_state) : outcome jtag_state :=
  send_byte_loop 8 byte lastbyte 7 st.

Definition send_byte_no_tms (byte : Z) (st : jtag_state) : jtag_state :=
  let st := send_cmd_no_tms (Z.land byte 128) st in
  let st := send_cmd_no_tms (Z.land byte 64) st in
  let st := send_cmd_no_tms (Z.land byte 32) st in
  let st := send_cmd_no_tms (Z.land byte 16) st in
  let st := send_cmd_no_tms (Z.land byte 8) st in
  let st := send_cmd_no_tms (Z.land byte 4) st in
  let st := send_cmd_no_tms (Z.land byte 2) st in
  send_cmd_no_tms (Z.land byte 1) st.

(** [memset(data, 0, n)] on a buffer of the bytes [data], each byte taken
    as its bit pattern, 0 to 255; a negative [n] converts to a [size_t]
    beyond any buffer. *)
Definition memset_zero (data : list Z) (n : Z) : outcome (list Z) :=
  if (0 <=? n) && (n <=? Z.of_nat (length data))
  then Fine (replicate (Z.to_nat n) 0 ++ drop (Z.to_nat n) data)
  else Undefined BufferOverrun.

(** [data[k] |= v] *)
Definition or_into (data : list Z) (k v : Z) : outcome (list Z) :=
  if k <? 0 then Undefined BufferOverrun
  else
    match data !! Z.to_nat k with
    | Some b => Fine (<[Z.to_nat k := Z.lor b v]> data)
    | None => Undefined BufferOverrun
    end.

(** The loop of [jtag_read_data]: [for (i = iSize - 1; i > 0; i--)]. *)
Fixpoint jtag_read_data_loop (fuel : nat) (data : list Z) (i : Z) (st : jtag_state)
  : outcome (list Z * jtag_state) :=
  if i >? 0 then
    match fuel with
    | O => Undefined OutOfFuel
    | S fuel =>
        let '(temp, st) := read_jtag_tdo st in
        let st := send_cmd 0 0 st in
        let! data := or_into data (Z.quot i 8) (Z.shiftl temp (Z.land i 7)) in
        jtag_read_data_loop fuel data (i - 1) st
    end
  else Fine (data, st).

(** [jtag_read_data(data, iSize)]; the buffer is the bytes [data] and the
    result is the buffer as the call leaves it. *)
Definition jtag_read_data (data : list Z) (iSize : Z) (st : jtag_state)
  : outcome (list Z * jtag_state) :=
  if iSize =? 0 then Fine (data, st)
  else
    let! n := as_int (iSize + 7) in
    let! data := memset_zero data (Z.quot n 8) in
    let! i := as_int (iSize - 1) in
    let! r := jtag_read_data_loop (Z.to_nat iSize) data i st in
    let '(temp, st) := read_jtag_tdo (snd r) in
    let st := send_cmd 0 1 st in
    let! data := or_into (fst r) 0 temp in
    Fine (data, st).

(** ** What [setup_io] and [close_io] ask of the library *)

(** The five requests of [setup_io] on the chip handle [c], in order. *)
Definition setup_requests (c : Z) : list gpio_call :=
  [lgGpiochipOpen 0;
   lgGpioClaimOutput c 0 JTAG_TCK LG_LOW;
   lgGpioClaimOutput c 0 JTAG_TMS LG_LOW;
   lgGpioClaimOutput c 0 JTAG_TDI LG_LOW;
   lgGpioClaimInput c 0 JTAG_TDO].

(** The message for the claim that failed, by its number. *)
Definition claim_failed (k : nat) : jtag_message :=
  match k with
  | 0%nat => MsgClaimFailed "TCK" JTAG_TCK
  | 1%nat => MsgClaimFailed "TMS" JTAG_TMS
  | 2%nat => MsgClaimFailed "TDI" JTAG_TDI
  | _ => MsgClaimFailed "TDO" JTAG_TDO
  end.

(** The release of the line handles among [hs] that are not negative. *)
Definition frees (hs : list Z) : list gpio_call :=
  flat_map (fun h => if h >=? 0 then [lgGpioFreeLine h] else []) hs.

(** The four line handles, in the order the code goes through them. *)
Definition line_handles (st : jtag_state) : list Z :=
  [h_tck st; h_tms st; h_tdi st; h_tdo st].

(** ** What the device sees *)

(** The levels of TDI and TMS at every rising edge of TCK, in order, for a
    sequence of library calls on the lines [tck], [tms] and [tdi] that
    starts with the three lines at the levels [ck], [ms] and [di]. *)
Fixpoint clocked (tck tms tdi : Z) (ck ms di : Z) (calls : list gpio_call)
  : list (Z * Z) :=
  match calls with
  | [] => []
  | lgGpioWrite h v :: rest =>
      if h =? tck then
        (if (ck =? 0) && negb (v =? 0) then [(di, ms)] else [])
        ++ clocked tck tms tdi v ms di rest
      else if h =? tms then clocked tck tms tdi ck v di rest
      else if h =? tdi then clocked tck tms tdi ck ms v rest
      else clocked tck tms tdi ck ms di rest
  | _ :: rest => clocked tck tms tdi ck ms di rest
  end.

(** The levels the same calls leave on the three lines. *)
Fixpoint levels_after (tck tms tdi : Z) (ck ms di : Z) (calls : list gpio_call)
  : Z * Z * Z :=
  match calls with
  | [] => (ck, ms, di)
  | lgGpioWrite h v :: rest =>
      if h =? tck then levels_after tck tms tdi v ms di rest
      else if h =? tms then levels_after tck tms tdi ck v di rest
      else if h =? tdi then levels_after tck tms tdi ck ms v rest
      else levels_after tck tms tdi ck ms di rest
  | _ :: rest => levels_after tck tms tdi ck ms di rest
  end.

(** The bits [n-1 .. 0] of [w], highest first. *)
Fixpoint bits_msb_first (n : nat) (w : Z) : list Z :=
  match n with
  | O => []
  | S n => Z.land (Z.shiftr w (Z.of_nat n)) 1 :: bits_msb_first n w
  end.

(** One [send_cmd]: TDI, TMS, clock up, clock down. *)
Definition send_cmd_calls (tck tms tdi : Z) (di ms : Z) : list gpio_call :=
  [lgGpioWrite tdi (c_bool (di =? 1)); lgGpioWrite tms (c_bool (ms =? 1));
   lgGpioWrite tck 1; lgGpioWrite tck 0].

(** The state after one [send_cmd] for each pair of a TDI and a TMS
    argument, in order. *)
Definition sent (l : list (Z * Z)) (st : jtag_state) : jtag_state :=
  fold_left (fun st p => send_cmd (fst p) (snd p) st) l st.

(** The TMS arguments of [n] cycles of which the last carries the flag. *)
Definition tms_last (n : nat) (last : Z) : list Z :=
  match n with
  | O => []
  | S n => replicate n 0 ++ [c_bool (last =? 1)]
  end.

(** One [send_cmd_no_tms] that wants TDI at [b] when [tdi_state] is
    [state]: TDI only if the two differ, then clock up, clock down. *)
Definition no_tms_calls (tck tdi : Z) (state b : Z) : list gpio_call :=
  (if state =? b then [] else [lgGpioWrite tdi b])
  ++ [lgGpioWrite tck 1; lgGpioWrite tck 0].

(** The state after one [send_cmd_no_tms] for each TDI argument. *)
Definition sent_no_tms (l : list Z) (st : jtag_state) : jtag_state :=
  fold_left (fun st i => send_cmd_no_tms i st) l st.

(** [tdi_state] agrees with the level [di] of the TDI line: it is that
    level, or it is neither 0 nor 1, as after [setup_io]. *)
Definition tdi_in_sync (st : jtag_state) (di : Z) : Prop :=
  tdi_state st = 0 \/ tdi_state st = 1 -> di = tdi_state st.

(** One cycle of [jtag_read_data]: TDO is read, then a clock cycle is
    sent with TDI 0 and the given TMS. *)
Definition read_cycle (tms : Z) (st : jtag_state) : jtag_state :=
  send_cmd 0 tms (snd (read_jtag_tdo st)).

(** Bit [j] of a buffer of bytes. *)
Definition buffer_bit (data : list Z) (j : nat) : bool :=
  Z.testbit (default 0 (data !! (j / 8)%nat)) (Z.of_nat (j mod 8)).

(** * Proofs *)

(** ** The order on names *)

Lemma ascii_compare_refl (c : ascii) : Ascii.compare c c = Eq.
Proof. unfold Ascii.compare. apply N.compare_refl. Qed.

Lemma ascii_compare_trans (a b c : ascii) :
  Ascii.compare a b = Lt -> Ascii.compare b c = Lt -> Ascii.compare a c = Lt.
Proof. unfold Ascii.compare. rewrite !N.compare_lt_iff. apply N.lt_trans. Qed.

Lemma strcmp_refl (s : string) : strcmp s s = Eq.
Proof.
  unfold strcmp. induction s as [|c s IH]; simpl; [reflexivity|].
  rewrite ascii_compare_refl. exact IH.
Qed.

Lemma strcmp_eq (a b : string) : strcmp a b = Eq <-> a = b.
Proof.
  split; [apply String.compare_eq_iff|].
  intros ->. apply strcmp_refl.
Qed.

Lemma strcmp_gt_lt (a b : string) : strcmp a b = Gt <-> str_lt b a.
Proof.
  unfold str_lt, strcmp. rewrite (String.compare_antisym b a).
  destruct (String.compare a b); simpl; split; congruence.
Qed.

Lemma str_lt_irrefl (a : string) : ~ str_lt a a.
Proof. unfold str_lt. rewrite strcmp_refl. discriminate. Qed.

Lemma str_lt_trans (a b c : string) : str_lt a b -> str_lt b c -> str_lt a c.
Proof.
  unfold str_lt, strcmp. revert b c.
  induction a as [|x a IH]; intros [|y b] [|z c]; simpl; try congruence.
  destruct (Ascii.compare x y) eqn:Hxy, (Ascii.compare y z) eqn:Hyz;
    try congruence; intros H1 H2.
  - apply Ascii.compare_eq_iff in Hxy, Hyz. subst.
    rewrite ascii_compare_refl. eauto.
  - apply Ascii.compare_eq_iff in Hxy. subst. rewrite Hyz. reflexivity.
  - apply Ascii.compare_eq_iff in Hyz. subst. rewrite Hxy. reflexivity.
  - rewrite (ascii_compare_trans _ _ _ Hxy Hyz). reflexivity.
Qed.

#[global] Instance str_lt_transitive : Transitive str_lt.
Proof. intros a b c. apply str_lt_trans. Qed.

(** In a strictly sorted list positions and names are ordered alike. *)
Lemma sorted_lookup_lt (ns : list string) (i j : nat) (a b : string) :
  StronglySorted str_lt ns ->
  ns !! i = Some a -> ns !! j = Some b -> (i < j)%nat -> str_lt a b.
Proof.
  intros Hs. revert i j. induction Hs as [|x l Hl IH Hx]; intros i j Hi Hj Hij.
  - discriminate.
  - destruct j as [|j]; [lia|]. destruct i as [|i]; simpl in *.
    + injection Hi as <-. rewrite Forall_forall in Hx.
      apply Hx. eapply list_elem_of_lookup_2. exact Hj.
    + apply (IH i j); [assumption..|lia].
Qed.

Lemma sorted_lookup_inj (ns : list string) (i j : nat) (a : string) :
  StronglySorted str_lt ns -> ns !! i = Some a -> ns !! j = Some a -> i = j.
Proof.
  intros Hs Hi Hj.
  destruct (Nat.lt_trichotomy i j) as [H|[H|H]]; [|assumption|].
  - exfalso. exact (str_lt_irrefl a (sorted_lookup_lt ns i j a a Hs Hi Hj H)).
  - exfalso. exact (str_lt_irrefl a (sorted_lookup_lt ns j i a a Hs Hj Hi H)).
Qed.

(** A position that splits a sorted list around [str] is a place where
    [str] can be inserted. *)
Lemma sorted_insert_at (ns : list string) (str : string) (l : nat) :
  StronglySorted str_lt ns -> splits_at ns str l ->
  StronglySorted str_lt (take l ns ++ str :: drop l ns).
Proof.
  intros Hs (_ & Hlo & Hhi).
  rewrite <- (take_drop l ns) in Hs.
  apply StronglySorted_app in Hs as (Hx & H1 & H2).
  apply StronglySorted_app_2; [|assumption|].
  - intros x1 x2 Hx1 Hx2. apply list_elem_of_lookup in Hx1 as [i Hi].
    apply lookup_take_Some in Hi as [Hi Hil].
    assert (str_lt x1 str) by (eapply Hlo; eassumption).
    apply elem_of_cons in Hx2 as [->|Hx2]; [assumption|].
    apply list_elem_of_lookup in Hx2 as [j Hj]. rewrite lookup_drop in Hj.
    eapply str_lt_trans; [eassumption|]. eapply Hhi; [eassumption|lia].
  - apply StronglySorted_cons. split; [|assumption].
    apply Forall_forall. intros x Hxin.
    apply list_elem_of_lookup in Hxin as [j Hj]. rewrite lookup_drop in Hj.
    eapply Hhi; [eassumption|lia].
Qed.

(** ** Integers and arrays *)

(** The side condition of every checked [int] operation. *)
Ltac int_range := unfold INT_MIN, INT_MAX; lia.

Lemma int_chk_ok (z : Z) : INT_MIN <= z <= INT_MAX -> int_chk z = Ok z.
Proof.
  intros [H1 H2]. unfold int_chk.
  destruct (Z.leb_spec INT_MIN z), (Z.leb_spec z INT_MAX); simpl; try lia; reflexivity.
Qed.

Lemma int_add_ok (a b : Z) : INT_MIN <= a + b <= INT_MAX -> int_add a b = Ok (a + b).
Proof. apply int_chk_ok. Qed.

Lemma int_sub_ok (a b : Z) : INT_MIN <= a - b <= INT_MAX -> int_sub a b = Ok (a - b).
Proof. apply int_chk_ok. Qed.

Lemma int_mul_ok (a b : Z) : INT_MIN <= a * b <= INT_MAX -> int_mul a b = Ok (a * b).
Proof. apply int_chk_ok. Qed.

Lemma int_div_ok (a b : Z) :
  INT_MIN <= Z.quot a b <= INT_MAX -> int_div a b = Ok (Z.quot a b).
Proof. apply int_chk_ok. Qed.

Lemma array_get_ok {A : Type} (blk : list A) (i : Z) (x : A) :
  0 <= i -> blk !! Z.to_nat i = Some x -> array_get blk i = Ok x.
Proof.
  intros Hi Hx. unfold array_get.
  destruct (Z.ltb_spec i 0); [lia|]. rewrite Hx. reflexivity.
Qed.

Lemma array_set_ok {A : Type} (blk : list A) (i : Z) (x : A) :
  0 <= i < Z.of_nat (length blk) ->
  array_set blk i x = Ok (<[Z.to_nat i := x]> blk).
Proof.
  intros Hi. unfold array_set.
  destruct (Z.leb_spec 0 i), (Z.ltb_spec i (Z.of_nat (length blk))); simpl; try lia.
  reflexivity.
Qed.

Lemma block_names_length (blk : list slot) (ns : list string) :
  block_names blk ns -> length blk = length ns.
Proof. apply Forall2_length. Qed.

Lemma block_names_lookup (blk : list slot) (ns : list string) (i : nat) (n : string) :
  block_names blk ns -> ns !! i = Some n ->
  exists t, blk !! i = Some t /\ slot_name t = Some n.
Proof. intros H Hn. exact (Forall2_lookup_r _ _ _ _ _ H Hn). Qed.

Lemma name_of_slot_named (t : slot) (n : string) :
  slot_name t = Some n -> name_of_slot t = Ok n.
Proof.
  destruct t as [d|]; simpl; [|discriminate]. intros ->. reflexivity.
Qed.

(** ** The binary search *)

Section Search.
Variables (blk : list slot) (ns : list string) (str : string).
Hypothesis Hnames : block_names blk ns.
Hypothesis Hsorted : StronglySorted str_lt ns.
Hypothesis Hsize : Z.of_nat (length blk) <= INT_MAX.
(** The miss answer [-(low + 1)] needs [low + 1] to be an [int]; a hit
    never computes it. *)
Hypothesis Hroom : Z.of_nat (length blk) < INT_MAX \/ str ∈ ns.

(** The loop invariant: the names below [low] are below [str], the names
    above [high] are above it. *)
Lemma bsearch_loop_answer (fuel : nat) (low high : Z) :
  0 <= low -> high < Z.of_nat (length blk) -> low <= high + 1 ->
  high - low + 1 <= Z.of_nat fuel ->
  (forall i a, ns !! i = Some a -> Z.of_nat i < low -> str_lt a str) ->
  (forall i a, ns !! i = Some a -> high < Z.of_nat i -> str_lt str a) ->
  exists r, bsearch_loop fuel (Live blk) str low high = Ok r /\ search_answer ns str r.
Proof.
  pose proof (block_names_length _ _ Hnames) as Hlen.
  unfold INT_MAX in Hsize.
  assert (Hexit : forall low high, 0 <= low -> high < Z.of_nat (length blk) ->
            low <= high + 1 -> high < low ->
            (forall i a, ns !! i = Some a -> Z.of_nat i < low -> str_lt a str) ->
            (forall i a, ns !! i = Some a -> high < Z.of_nat i -> str_lt str a) ->
            exists r, (let? l1 := int_add low 1 in int_mul (-1) l1) = Ok r /\
                      search_answer ns str r).
  { clear low high. intros low high Hlow Hhigh Hlh Hgt Hlo Hhi.
    assert (Hlt : Z.of_nat (length blk) < 2147483647).
    { destruct Hroom as [H|H]; [exact H|exfalso].
      apply list_elem_of_lookup in H as [i Hi].
      destruct (Z.lt_ge_cases (Z.of_nat i) low) as [Hc|Hc].
      - exact (str_lt_irrefl _ (Hlo i str Hi Hc)).
      - apply (str_lt_irrefl str), (Hhi i str Hi). lia. }
    rewrite int_add_ok by int_range. simpl.
    rewrite int_mul_ok by int_range.
    eexists; split; [reflexivity|]. right. exists (Z.to_nat low).
    split; [lia|]. split; [lia|]. split.
    - intros i a Hi Hil. apply (Hlo i a Hi). lia.
    - intros i a Hi Hil. apply (Hhi i a Hi). lia. }
  revert low high.
  induction fuel as [|fuel IH]; intros low high Hlow Hhigh Hlh Hfuel Hlo Hhi.
  - simpl. destruct (Z.leb_spec low high); [lia|]. apply (Hexit low high); assumption.
  - simpl. destruct (Z.leb_spec low high) as [Hle|Hgt];
      [|apply (Hexit low high); assumption].
    assert (Hq : 0 <= Z.quot (high - low) 2 <= high - low).
    { split; [apply Z.quot_pos; lia|].
      rewrite Z.quot_div_nonneg by lia.
      apply Z.div_le_upper_bound; lia. }
    rewrite int_sub_ok by int_range. simpl.
    rewrite int_div_ok by int_range. simpl.
    rewrite int_add_ok by int_range. simpl.
    set (mid := low + Z.quot (high - low) 2) in *.
    assert (Hmid : low <= mid <= high) by (unfold mid; lia).
    destruct (lookup_lt_is_Some_2 ns (Z.to_nat mid)) as [n Hn]; [lia|].
    destruct (block_names_lookup _ _ _ _ Hnames Hn) as (t & Ht & Htn).
    unfold read_slot. simpl.
    rewrite (array_get_ok blk mid t) by (lia || assumption). simpl.
    rewrite (name_of_slot_named t n Htn). simpl.
    destruct (strcmp str n) eqn:Hcmp.
    + apply strcmp_eq in Hcmp. subst n.
      eexists; split; [reflexivity|]. left. split; [lia|assumption].
    + rewrite int_sub_ok by int_range. simpl.
      apply IH; try lia; [assumption|].
      intros i a Hi Hil.
      destruct (decide (i = Z.to_nat mid)) as [->|Hne].
      * rewrite Hn in Hi. injection Hi as <-. exact Hcmp.
      * eapply str_lt_trans; [exact Hcmp|].
        apply (sorted_lookup_lt ns (Z.to_nat mid) i n a Hsorted Hn Hi). lia.
    + apply strcmp_gt_lt in Hcmp.
      rewrite int_add_ok by int_range. simpl.
      apply IH; try lia; [|assumption].
      intros i a Hi Hil.
      destruct (decide (i = Z.to_nat mid)) as [->|Hne].
      * rewrite Hn in Hi. injection Hi as <-. exact Hcmp.
      * eapply str_lt_trans; [|exact Hcmp].
        apply (sorted_lookup_lt ns i (Z.to_nat mid) a n Hsorted Hi Hn). lia.
Qed.

(** The search on the registry's block, whatever its size. *)
Lemma binary_search_answer (ts : array_ptr) :
  ts = Live blk \/ (ts = NullPtr /\ blk = []) ->
  exists r,
    binary_search_type_list_katcp ts (Z.of_nat (length blk)) (Some str) = Ok r /\
    search_answer ns str r.
Proof.
  pose proof (block_names_length _ _ Hnames) as Hlen.
  intros Hts. unfold binary_search_type_list_katcp.
  destruct (is_null_array ts || (Z.of_nat (length blk) =? 0)) eqn:Hempty.
  - exists (-1). split; [reflexivity|]. right. exists 0%nat.
    assert (ns = []) as ->.
    { destruct Hts as [->|[-> ->]]; simpl in *.
      - apply Z.eqb_eq in Hempty. destruct ns; [reflexivity|simpl in *; lia].
      - destruct ns; [reflexivity|simpl in *; lia]. }
    split; [reflexivity|]. split; [simpl; lia|]. split; intros i a Hi; discriminate.
  - apply orb_false_iff in Hempty as [Hnull Hnz].
    destruct Hts as [->|[-> _]]; [|discriminate].
    apply Z.eqb_neq in Hnz. unfold INT_MAX in Hsize.
    rewrite int_sub_ok by int_range. simpl.
    apply bsearch_loop_answer; try lia.
    intros i a Hi Hge. apply lookup_lt_Some in Hi. lia.
Qed.

End Search.

Lemma search_answer_found (ns : list string) (str : string) (r : Z) (i : nat) :
  StronglySorted str_lt ns ->
  search_answer ns str r -> ns !! i = Some str -> r = Z.of_nat i.
Proof.
  intros Hsorted [[Hr Hi']|(l & -> & _ & Hlo & Hhi)] Hi.
  - rewrite <- (sorted_lookup_inj ns _ _ str Hsorted Hi' Hi). lia.
  - exfalso. destruct (Nat.lt_ge_cases i l) as [H|H].
    + exact (str_lt_irrefl _ (Hlo i str Hi H)).
    + exact (str_lt_irrefl _ (Hhi i str Hi H)).
Qed.

Lemma search_answer_absent (ns : list string) (str : string) (r : Z) :
  search_answer ns str r -> str ∉ ns ->
  exists l : nat, r = - (Z.of_nat l + 1) /\ splits_at ns str l.
Proof.
  intros [[Hr Hi]|H] Habs; [|exact H].
  exfalso. apply Habs. eapply list_elem_of_lookup_2. exact Hi.
Qed.


(** ** Running the monad *)

Lemma bind_ok {A B : Type} (c : M A) (k : A -> M B) (d d' : katcp_dispatch) (a : A) :
  c d = Ok (a, d') -> bind c k d = k a d'.
Proof. intros H. unfold bind. rewrite H. reflexivity. Qed.

Lemma bind_ret {A B : Type} (a : A) (k : A -> M B) (d : katcp_dispatch) :
  bind (ret a) k d = k a d.
Proof. reflexivity. Qed.

Lemma lift_ok {A : Type} (r : result A) (a : A) (d : katcp_dispatch) :
  r = Ok a -> lift r d = Ok (a, d).
Proof. intros ->. reflexivity. Qed.

Lemma grants_hd (k : nat) (d : katcp_dispatch) :
  grants (S k) d -> hd Granted (d_allocs d) <> Refused.
Proof.
  unfold grants. destruct (d_allocs d) as [|o l]; simpl; [discriminate|].
  intros H. apply Forall_cons in H as [H _]. exact H.
Qed.

Lemma grants_tl (k : nat) (d d' : katcp_dispatch) :
  grants (S k) d -> d_allocs d' = tl (d_allocs d) -> grants k d'.
Proof.
  unfold grants. intros H ->. destruct (d_allocs d) as [|o l]; simpl.
  - rewrite take_nil. constructor.
  - simpl in H. apply Forall_cons in H as [_ H]. exact H.
Qed.

Lemma grants_cons (k : nat) (d d' : katcp_dispatch) :
  hd Granted (d_allocs d) <> Refused -> d_allocs d' = tl (d_allocs d) ->
  grants k d' -> grants (S k) d.
Proof.
  unfold grants. intros Hh -> H. destruct (d_allocs d) as [|o l]; simpl in *.
  - constructor.
  - constructor; assumption.
Qed.

Lemma never_refuses_grants (k : nat) (d : katcp_dispatch) :
  never_refuses d -> grants k d.
Proof.
  unfold never_refuses, grants. intros H.
  rewrite <- (take_drop k (d_allocs d)) in H. apply Forall_app in H as [H _]. exact H.
Qed.

Lemma never_refuses_drop (k : nat) (d d' : katcp_dispatch) :
  never_refuses d -> d_allocs d' = drop k (d_allocs d) -> never_refuses d'.
Proof.
  unfold never_refuses. intros H ->.
  rewrite <- (take_drop k (d_allocs d)) in H. apply Forall_app in H as [_ H]. exact H.
Qed.

Lemma create_type_katcp_grant (d : katcp_dispatch) :
  hd Granted (d_allocs d) <> Refused ->
  create_type_katcp d =
    Ok (Some {| t_name := None; t_tree := None; t_print := NULL; t_free := NULL;
                t_copy := NULL; t_compare := NULL; t_parse := NULL |}, pop d).
Proof.
  intros H. unfold create_type_katcp, bind, next_alloc.
  destruct (hd Granted (d_allocs d)); [congruence|reflexivity..].
Qed.

Lemma strdup_grant (str : string) (d : katcp_dispatch) :
  hd Granted (d_allocs d) <> Refused -> strdup (Some str) d = Ok (Some str, pop d).
Proof.
  intros H. unfold strdup, bind, next_alloc.
  destruct (hd Granted (d_allocs d)); [congruence|reflexivity..].
Qed.

Lemma create_avltree_grant (d : katcp_dispatch) :
  hd Granted (d_allocs d) <> Refused -> create_avltree d = Ok (Some [], pop d).
Proof.
  intros H. unfold create_avltree, bind, next_alloc.
  destruct (hd Granted (d_allocs d)); [congruence|reflexivity..].
Qed.

Lemma create_node_avltree_grant (key : string) (data : dataptr) (d : katcp_dispatch) :
  hd Granted (d_allocs d) <> Refused ->
  create_node_avltree (Some key) data d = Ok (Some (key, data), pop d).
Proof.
  intros H. unfold create_node_avltree, bind, next_alloc.
  destruct (hd Granted (d_allocs d)); [congruence|reflexivity..].
Qed.

(** A granted [realloc] of the registry's block: the local pointer gets
    the resized block; of the state only the registry's pointer can have
    changed (it dangles if the block moved). *)
Lemma realloc_grant (ts : array_ptr) (blk : list slot) (n : Z) (d : katcp_dispatch) :
  ts = Live blk \/ (ts = NullPtr /\ blk = []) -> 0 < n ->
  hd Granted (d_allocs d) <> Refused ->
  exists d', realloc ts n d = Ok (Some (resize (Z.to_nat n) None blk), d') /\
             d_allocs d' = tl (d_allocs d) /\ d_events d' = d_events d.
Proof.
  intros Hts Hn H. unfold realloc.
  assert (Hold : match ts with Live b => b | _ => [] end = blk).
  { destruct Hts as [->|[-> ->]]; reflexivity. }
  assert (Hcont : exists d',
    (if n <? 0 then ret None
     else if (n =? 0) && negb (is_null_array ts) then block_released ;;; ret None
     else let old := match ts with Live b => b | _ => [] end in
          o <- next_alloc ;;
          match o with
          | Refused => ret None
          | Granted => ret (Some (resize (Z.to_nat n) None old))
          | Relocated => block_released ;;; ret (Some (resize (Z.to_nat n) None old))
          end) d = Ok (Some (resize (Z.to_nat n) None blk), d') /\
    d_allocs d' = tl (d_allocs d) /\ d_events d' = d_events d).
  { destruct (Z.ltb_spec n 0); [lia|].
    destruct (Z.eqb_spec n 0); [lia|]. simpl. rewrite Hold.
    unfold bind, next_alloc.
    destruct (hd Granted (d_allocs d)); [congruence| |].
    - eexists; split; [reflexivity|]. split; reflexivity.
    - unfold block_released, bind, get_shared, set_shared, ret. simpl.
      destruct (d_shared d) as [s|]; [destruct (s_type s)|];
        (eexists; split; [reflexivity|]; split; reflexivity). }
  destruct Hts as [->|[-> _]]; exact Hcont.
Qed.

(** A refused [realloc] changes nothing but the allocator's record. *)
Lemma realloc_refused (ts : array_ptr) (n : Z) (d : katcp_dispatch) :
  ts <> Dangling -> 0 < n -> hd Granted (d_allocs d) = Refused ->
  realloc ts n d = Ok (None, pop d).
Proof.
  intros Hts Hn H. unfold realloc.
  destruct ts; [|  |congruence];
    (destruct (Z.ltb_spec n 0); [lia|]; destruct (Z.eqb_spec n 0); [lia|];
     simpl; unfold bind, next_alloc; rewrite H; reflexivity).
Qed.

(** A request of no bytes for the registry's block: the block is released
    and the answer is [NULL]; the allocator is not asked for memory. *)
Lemma realloc_zero (blk b : list slot) (c : Z) (d : katcp_dispatch) :
  d_shared d = Some {| s_type := Live b; s_type_count := c |} ->
  realloc (Live blk) 0 d =
    Ok (None, {| d_shared := Some {| s_type := Dangling; s_type_count := c |};
                 d_allocs := d_allocs d; d_events := d_events d |}).
Proof.
  intros Hd. unfold realloc. simpl.
  unfold block_released, bind, get_shared, set_shared, ret. rewrite Hd. reflexivity.
Qed.

(** ** Shifting the tail of the array *)

Lemma shift_up_spec (l2 : list slot) :
  forall (l1 l3 : list slot) (y : slot) (fuel : nat) (i tid : Z),
    i = Z.of_nat (length l1 + length l2) -> tid = Z.of_nat (length l1) ->
    (length l2 <= fuel)%nat -> i <= INT_MAX ->
    shift_up fuel (l1 ++ l2 ++ y :: l3) i tid =
      Ok (l1 ++ hd y l2 :: l2 ++ l3, tid).
Proof.
  induction l2 as [|x l2 IH] using rev_ind; intros l1 l3 y fuel i tid Hi Htid Hfuel Hmax.
  - simpl in *. replace i with tid by lia.
    destruct fuel; simpl; rewrite Z.gtb_ltb, Z.ltb_irrefl; reflexivity.
  - rewrite length_app in Hi, Hfuel. simpl in Hi, Hfuel.
    destruct fuel as [|fuel]; [lia|]. simpl.
    destruct (Z.gtb_spec i tid); [|lia].
    unfold INT_MAX in Hmax.
    rewrite int_sub_ok by int_range. simpl.
    rewrite (array_get_ok _ (i - 1) x); [|lia|].
    2:{ replace (Z.to_nat (i - 1)) with (length l1 + length l2)%nat by lia.
        rewrite lookup_app_r by lia. rewrite <- (assoc_L (++)).
        replace (length l1 + length l2 - length l1)%nat with (length l2 + 0)%nat by lia.
        rewrite lookup_app_r by lia.
        replace (length l2 + 0 - length l2)%nat with 0%nat by lia. reflexivity. }
    simpl. rewrite array_set_ok.
    2:{ rewrite !length_app. simpl. lia. }
    simpl.
    replace (<[Z.to_nat i:=x]> (l1 ++ (l2 ++ [x]) ++ y :: l3))
      with (l1 ++ l2 ++ x :: (x :: l3)).
    2:{ replace (Z.to_nat i) with (length l1 + (length (l2 ++ [x]) + 0))%nat
          by (rewrite length_app; simpl; lia).
        rewrite insert_app_r, insert_app_r. simpl.
        rewrite <- (assoc_L (++)). reflexivity. }
    rewrite (IH l1 (x :: l3) x fuel (i - 1) tid) by (unfold INT_MAX; lia).
    f_equal. f_equal. f_equal.
    destruct l2; simpl; rewrite <- ?(assoc_L (++)); reflexivity.
Qed.

(** The shift of [register_at_id_type_katcp] followed by the write of the
    new descriptor is an insertion before position [min tid size]. *)
Lemma shift_up_insert (blk : list slot) (tid : Z) (t : slot) :
  0 <= tid -> Z.of_nat (length blk) < INT_MAX ->
  let size := Z.of_nat (length blk) in
  let k := Z.min tid size in
  exists ts, shift_up (S (Z.to_nat size)) (blk ++ [None]) size tid = Ok (ts, k) /\
             array_set ts k t = Ok (insert_at (Z.to_nat k) t blk).
Proof.
  intros Htid Hmax size k. unfold INT_MAX in Hmax.
  destruct (Z.le_gt_cases tid size) as [Hle|Hgt].
  - replace k with tid by lia.
    assert (Hblk : blk ++ [None] =
              take (Z.to_nat tid) blk ++ drop (Z.to_nat tid) blk ++ [None])
      by (rewrite (assoc_L (++)), take_drop; reflexivity).
    assert (Htake : length (take (Z.to_nat tid) blk) = Z.to_nat tid)
      by (rewrite length_take; unfold size in *; lia).
    exists (take (Z.to_nat tid) blk ++
            hd None (drop (Z.to_nat tid) blk) :: drop (Z.to_nat tid) blk ++ []).
    split.
    + rewrite Hblk. apply shift_up_spec.
      * rewrite Htake, length_drop. unfold size in *. lia.
      * rewrite Htake. lia.
      * rewrite length_drop. unfold size in *. lia.
      * unfold INT_MAX, size. lia.
    + rewrite array_set_ok.
      2:{ rewrite length_app, Htake. simpl. lia. }
      f_equal. unfold insert_at. rewrite app_nil_r.
      replace (Z.to_nat tid) with (length (take (Z.to_nat tid) blk) + 0)%nat at 1
        by (rewrite Htake; lia).
      rewrite insert_app_r. reflexivity.
  - replace k with size by lia.
    simpl. destruct (Z.gtb_spec size tid); [lia|].
    eexists; split; [reflexivity|].
    rewrite array_set_ok by (rewrite length_app; simpl; unfold size; lia).
    f_equal. unfold insert_at, size. rewrite Nat2Z.id.
    rewrite take_ge, drop_ge by lia.
    replace (length blk) with (length blk + 0)%nat at 1 by lia.
    rewrite insert_app_r. reflexivity.
Qed.

(** ** Registration *)

Lemma tl_drop {A : Type} (l : list A) (n : nat) : tl (drop n l) = drop (S n) l.
Proof.
  revert l. induction n as [|n IH]; intros [|x l]; simpl; try reflexivity.
  apply IH.
Qed.

Lemma length_snoc {A : Type} (l : list A) (x : A) : length (l ++ [x]) = S (length l).
Proof. rewrite length_app. simpl. lia. Qed.

Lemma insert_snoc {A : Type} (l : list A) (x y : A) :
  <[length l := y]> (l ++ [x]) = l ++ [y].
Proof.
  replace (length l) with (length l + 0)%nat at 1 by lia.
  rewrite insert_app_r. reflexivity.
Qed.

Lemma holds_not_dangling (s : katcp_shared) (blk : list slot) :
  holds s blk -> s_type s <> Dangling.
Proof. intros [_ [H|[H _]]]; rewrite H; discriminate. Qed.

(** With every allocation granted, [register_at_id_type_katcp] puts the
    new descriptor in before position [min tid count] and answers that
    position. *)
Lemma register_at_grant (d : katcp_dispatch) (s : katcp_shared) (blk : list slot)
    (tid : Z) (name : string) (fn_print fn_free fn_copy fn_compare fn_parse : fnptr) :
  d_shared d = Some s -> holds s blk -> Z.of_nat (length blk) < INT_MAX ->
  0 <= tid -> grants 4 d ->
  let k := Z.min tid (Z.of_nat (length blk)) in
  register_at_id_type_katcp tid (Some name) fn_print fn_free fn_copy fn_compare fn_parse d =
    Ok (Done k,
        with_shared d 4
          {| s_type := Live (insert_at (Z.to_nat k)
                               (Some (new_type name fn_print fn_free fn_copy fn_compare fn_parse))
                               blk);
             s_type_count := Z.of_nat (length blk) + 1 |}).
Proof.
  intros Hd [Hcount Hts] Hmax Htid Hall k. unfold INT_MAX in Hmax.
  unfold register_at_id_type_katcp.
  rewrite (bind_ok get_shared _ d d (Some s)) by (unfold get_shared; rewrite Hd; reflexivity).
  rewrite Hcount.
  rewrite (bind_ok _ _ d d (Z.of_nat (length blk) + 1))
    by (apply lift_ok, int_add_ok; int_range).
  destruct (realloc_grant (s_type s) blk (Z.of_nat (length blk) + 1) d Hts ltac:(lia)
              (grants_hd _ d Hall)) as (d1 & Hre & Ha1 & He1).
  rewrite (bind_ok _ _ d d1 _ Hre).
  replace (Z.to_nat (Z.of_nat (length blk) + 1)) with (length blk + 1)%nat by lia.
  rewrite resize_add_eq by reflexivity. simpl replicate.
  pose proof (grants_tl _ d d1 Hall Ha1) as Hall1.
  rewrite (bind_ok _ _ d1 d1 (blk ++ [None])).
  2:{ apply lift_ok. rewrite array_set_ok by (rewrite length_snoc; lia).
      f_equal. rewrite Nat2Z.id. apply insert_snoc. }
  rewrite (bind_ok _ _ d1 (pop d1) _ (create_type_katcp_grant d1 (grants_hd _ d1 Hall1))).
  pose proof (grants_tl _ d1 (pop d1) Hall1 eq_refl) as Hall2.
  rewrite (bind_ok _ _ _ _ _ (strdup_grant name (pop d1) (grants_hd _ _ Hall2))).
  pose proof (grants_tl _ (pop d1) (pop (pop d1)) Hall2 eq_refl) as Hall3.
  rewrite (bind_ok _ _ _ _ _ (create_avltree_grant (pop (pop d1)) (grants_hd _ _ Hall3))).
  destruct (shift_up_insert blk tid
              (Some (new_type name fn_print fn_free fn_copy fn_compare fn_parse))
              Htid ltac:(unfold INT_MAX; lia)) as (ts & Hshift & Hset).
  rewrite (bind_ok _ _ _ _ _ (lift_ok _ _ _ Hshift)).
  cbn [fst snd].
  rewrite (bind_ok _ _ _ _ _ (lift_ok _ _ _ Hset)).
  rewrite (bind_ok _ _ _ (pop (pop (pop d1))) (Z.of_nat (length blk) + 1))
    by (apply lift_ok, int_add_ok; int_range).
  unfold bind, set_shared, ret, with_shared, pop. simpl.
  rewrite Ha1, He1. rewrite <- (tl_drop _ 3), <- (tl_drop _ 2), <- (tl_drop _ 1), <- (tl_drop _ 0).
  reflexivity.
Qed.

(** ** The search on a sorted registry *)

Lemma search_hit (s : katcp_shared) (blk : list slot) (ns : list string)
    (str : string) (i : nat) :
  sorted_registry s blk ns -> s_type_count s <= INT_MAX -> ns !! i = Some str ->
  binary_search_type_list_katcp (s_type s) (s_type_count s) (Some str) = Ok (Z.of_nat i).
Proof.
  intros ([Hcount Hts] & Hnames & Hsorted) Hmax Hi. rewrite Hcount in *.
  assert (Hin : str ∈ ns) by (eapply list_elem_of_lookup_2; exact Hi).
  destruct (binary_search_answer blk ns str Hnames Hsorted Hmax (or_intror Hin) (s_type s) Hts)
    as (r & Hr & Hans).
  rewrite Hr. f_equal. exact (search_answer_found ns str r i Hsorted Hans Hi).
Qed.

Lemma search_miss (s : katcp_shared) (blk : list slot) (ns : list string) (str : string) :
  sorted_registry s blk ns -> s_type_count s < INT_MAX -> str ∉ ns ->
  exists low : nat,
    binary_search_type_list_katcp (s_type s) (s_type_count s) (Some str)
      = Ok (- (Z.of_nat low + 1)) /\
    splits_at ns str low.
Proof.
  intros ([Hcount Hts] & Hnames & Hsorted) Hmax Habs. rewrite Hcount in *.
  destruct (binary_search_answer blk ns str Hnames Hsorted ltac:(lia) (or_introl Hmax)
              (s_type s) Hts) as (r & Hr & Hans).
  destruct (search_answer_absent ns str r Hans Habs) as (low & -> & Hsplit).
  exists low. split; assumption.
Qed.

Lemma sorted_NoDup (ns : list string) : StronglySorted str_lt ns -> NoDup ns.
Proof.
  induction 1 as [|x l Hl IH Hx]; constructor; [|assumption].
  intros Hin. rewrite Forall_forall in Hx. exact (str_lt_irrefl x (Hx x Hin)).
Qed.

(** ** Registration by name *)

Lemma block_names_insert_at (blk : list slot) (ns : list string) (k : nat)
    (t : slot) (n : string) :
  block_names blk ns -> slot_name t = Some n ->
  block_names (insert_at k t blk) (insert_at k n ns).
Proof.
  intros H Ht. unfold insert_at, block_names.
  apply Forall2_app; [apply Forall2_take; exact H|].
  constructor; [exact Ht|apply Forall2_drop; exact H].
Qed.

Lemma length_insert_at {A : Type} (k : nat) (x : A) (l : list A) :
  length (insert_at k x l) = S (length l).
Proof.
  unfold insert_at. rewrite length_app. simpl. rewrite length_take, length_drop. lia.
Qed.

Lemma lookup_insert_at {A : Type} (k : nat) (x : A) (l : list A) :
  (k <= length l)%nat -> insert_at k x l !! k = Some x.
Proof.
  intros Hk. unfold insert_at.
  rewrite lookup_app_r by (rewrite length_take; lia).
  rewrite length_take. replace (k - k `min` length l)%nat with 0%nat by lia. reflexivity.
Qed.

(** The registry after a granted registration by name. *)
Lemma register_name_grant (d : katcp_dispatch) (s : katcp_shared) (blk : list slot)
    (ns : list string) (name : string) (fn_print fn_free fn_copy fn_compare fn_parse : fnptr) :
  d_shared d = Some s -> sorted_registry s blk ns -> s_type_count s < INT_MAX ->
  name ∉ ns -> grants 4 d ->
  exists (low : nat) (s' : katcp_shared),
    splits_at ns name low /\
    register_name_type_katcp (Some name) fn_print fn_free fn_copy fn_compare fn_parse d
      = Ok (Done (Z.of_nat low), with_shared d 4 s') /\
    s_type_count s' = s_type_count s + 1 /\
    sorted_registry s'
      (insert_at low (Some (new_type name fn_print fn_free fn_copy fn_compare fn_parse)) blk)
      (insert_at low name ns).
Proof.
  intros Hd Hreg Hmax Habs Hall.
  destruct (search_miss s blk ns name Hreg Hmax Habs) as (low & Hsearch & Hsplit).
  pose proof Hreg as ([Hcount Hts] & Hnames & Hsorted).
  pose proof (block_names_length _ _ Hnames) as Hlen.
  pose proof Hsplit as (Hlow & _).
  unfold INT_MAX in Hmax.
  exists low. eexists. split; [exact Hsplit|]. split; [|split].
  - unfold register_name_type_katcp.
    rewrite (bind_ok get_shared _ d d (Some s)) by (unfold get_shared; rewrite Hd; reflexivity).
    rewrite (bind_ok _ _ d d _ (lift_ok _ _ d Hsearch)).
    destruct (Z.geb_spec (- (Z.of_nat low + 1)) 0); [lia|].
    rewrite (bind_ok _ _ d d (- Z.of_nat low))
      by (apply lift_ok; rewrite int_add_ok by int_range; f_equal; lia).
    rewrite (bind_ok _ _ d d (Z.of_nat low))
      by (apply lift_ok; rewrite int_mul_ok by int_range; f_equal; lia).
    rewrite (register_at_grant d s blk (Z.of_nat low) name _ _ _ _ _ Hd (conj Hcount Hts))
      by (unfold INT_MAX; lia || assumption).
    replace (Z.of_nat low `min` Z.of_nat (length blk)) with (Z.of_nat low) by lia.
    rewrite Nat2Z.id. reflexivity.
  - simpl. lia.
  - split; [|split].
    + split; simpl; [rewrite length_insert_at; lia|left; reflexivity].
    + apply block_names_insert_at; [assumption|reflexivity].
    + apply sorted_insert_at; assumption.
Qed.

(** Registering a name the registry holds is refused before anything is
    touched. *)
Lemma register_name_duplicate (d : katcp_dispatch) (s : katcp_shared) (blk : list slot)
    (ns : list string) (name : string) (fn_print fn_free fn_copy fn_compare fn_parse : fnptr) :
  d_shared d = Some s -> sorted_registry s blk ns -> s_type_count s <= INT_MAX ->
  name ∈ ns ->
  register_name_type_katcp (Some name) fn_print fn_free fn_copy fn_compare fn_parse d
    = Ok (Failed DuplicateNameError, d).
Proof.
  intros Hd Hreg Hmax Hin. apply list_elem_of_lookup in Hin as [i Hi].
  unfold register_name_type_katcp.
  rewrite (bind_ok get_shared _ d d (Some s)) by (unfold get_shared; rewrite Hd; reflexivity).
  rewrite (bind_ok _ _ d d _ (lift_ok _ _ d (search_hit s blk ns name i Hreg Hmax Hi))).
  destruct (Z.geb_spec (Z.of_nat i) 0); [reflexivity|lia].
Qed.


(** ** Sequences of registrations *)

Lemma insert_at_perm {A : Type} (k : nat) (x : A) (l : list A) :
  insert_at k x l ≡ₚ l ++ [x].
Proof.
  unfold insert_at. rewrite <- (take_drop k l) at 3.
  rewrite <- (assoc_L (++)). apply Permutation_app_head.
  rewrite (Permutation_app_comm (drop k l) [x]). reflexivity.
Qed.

Lemma register_all_sorted (calls : list registration) :
  forall (d : katcp_dispatch) (ns : list string),
    registry_names d ns -> never_refuses d ->
    NoDup (calls.*1) -> (forall n, n ∈ calls.*1 -> n ∉ ns) ->
    Z.of_nat (length ns) + Z.of_nat (length calls) <= INT_MAX ->
    exists trace,
      register_all calls d = Ok trace /\
      length trace = length calls /\
      forall i r d', trace !! i = Some (r, d') ->
        (exists pos, r = Done pos) /\
        exists ns', registry_names d' ns' /\ ns' ≡ₚ ns ++ take (S i) (calls.*1).
Proof.
  induction calls as [|[name [[[[p f] c] cm] pa]] calls IH];
    intros d ns (s & blk & Hd & Hreg) Hall Hnd Hfresh Hmax.
  - exists []. split; [reflexivity|]. split; [reflexivity|].
    intros i r d' Hi. discriminate.
  - rewrite fmap_cons in Hnd, Hfresh. simpl in Hnd, Hfresh, Hmax.
    apply NoDup_cons in Hnd as [Hname Hnd].
    pose proof Hreg as ([Hcount _] & Hnames & _).
    pose proof (block_names_length _ _ Hnames) as Hlen.
    destruct (register_name_grant d s blk ns name p f c cm pa Hd Hreg) as
      (low & s' & Hsplit & Hrun & Hcount' & Hreg').
    { rewrite Hcount. unfold INT_MAX in *. lia. }
    { apply Hfresh. left. }
    { apply never_refuses_grants. exact Hall. }
    destruct (IH (with_shared d 4 s') (insert_at low name ns)) as (trace & Htrace & Hlt & Hinv).
    { exists s'. eexists. split; [reflexivity|exact Hreg']. }
    { eapply never_refuses_drop; [exact Hall|reflexivity]. }
    { exact Hnd. }
    { intros n Hn Hin. rewrite insert_at_perm in Hin.
      apply elem_of_app in Hin as [Hin|Hin].
      - apply (Hfresh n); [right; exact Hn|exact Hin].
      - apply list_elem_of_singleton in Hin. subst n. exact (Hname Hn). }
    { rewrite length_insert_at. lia. }
    exists ((Done (Z.of_nat low), with_shared d 4 s') :: trace).
    split; [|split].
    + simpl. unfold register_by_name. rewrite Hrun. simpl. rewrite Htrace. reflexivity.
    + simpl. rewrite Hlt. reflexivity.
    + intros [|i] r d' Hi.
      * injection Hi as <- <-. split; [eexists; reflexivity|].
        exists (insert_at low name ns). split.
        -- exists s'. eexists. split; [reflexivity|exact Hreg'].
        -- rewrite insert_at_perm. simpl. rewrite take_0. reflexivity.
      * destruct (Hinv i r d' Hi) as (Hdone & ns' & Hns' & Hperm).
        split; [exact Hdone|]. exists ns'. split; [exact Hns'|].
        rewrite Hperm, insert_at_perm. rewrite <- (assoc_L (++)). reflexivity.
Qed.

(** ** Storing into a type the registry holds *)

Lemma get_shared_ok (d : katcp_dispatch) (s : katcp_shared) :
  d_shared d = Some s -> get_shared d = Ok (Some s, d).
Proof. intros H. unfold get_shared. rewrite H. reflexivity. Qed.

Lemma same_callbacks_spec (t : katcp_type) (p f c cm pa : fnptr) :
  same_callbacks t p f c cm pa = true <-> callbacks_of t = (p, f, c, cm, pa).
Proof.
  unfold same_callbacks, callbacks_of. rewrite !andb_true_iff, !Z.eqb_eq.
  split.
  - intros ((((-> & ->) & ->) & ->) & ->). reflexivity.
  - intros H. injection H as -> -> -> -> ->. repeat split.
Qed.

Lemma holds_lookup_live (s : katcp_shared) (blk : list slot) (i : nat) (t : slot) :
  holds s blk -> blk !! i = Some t -> s_type s = Live blk.
Proof.
  intros [_ [H|[_ ->]]] Hi; [exact H|discriminate].
Qed.

Lemma block_names_lookup_l (blk : list slot) (ns : list string) (i : nat)
    (t : katcp_type) (n : string) :
  block_names blk ns -> blk !! i = Some (Some t) -> t_name t = Some n -> ns !! i = Some n.
Proof.
  intros H Hi Hn. destruct (Forall2_lookup_l _ _ _ _ _ H Hi) as (n' & Hn' & Hs).
  simpl in Hs. congruence.
Qed.

Lemma read_slot_live (blk : list slot) (i : nat) (t : slot) :
  blk !! i = Some t -> read_slot (Live blk) (Z.of_nat i) = Ok t.
Proof.
  intros Hi. unfold read_slot. simpl. apply array_get_ok; [lia|].
  rewrite Nat2Z.id. exact Hi.
Qed.

(** On a type the registry holds, the search hits and the call goes on
    with the descriptor found. *)
Lemma store_existing (d : katcp_dispatch) (s : katcp_shared) (blk : list slot)
    (ns : list string) (i : nat) (t : katcp_type) (T : string)
    (key : option string) (data : dataptr) (p f c cm pa : fnptr) :
  d_shared d = Some s -> sorted_registry s blk ns -> s_type_count s <= INT_MAX ->
  blk !! i = Some (Some t) -> t_name t = Some T ->
  store_data_type_katcp (Some T) key data p f c cm pa d =
    store_in_type (Z.of_nat i) t (Some T) key data p f c cm pa d.
Proof.
  intros Hd Hreg Hmax Hi HT.
  pose proof Hreg as (Hholds & Hnames & _).
  pose proof (block_names_lookup_l blk ns i t T Hnames Hi HT) as Hn.
  unfold store_data_type_katcp.
  rewrite (bind_ok _ _ _ _ _ (get_shared_ok d s Hd)).
  rewrite (bind_ok _ _ d d _ (lift_ok _ _ d (search_hit s blk ns T i Hreg Hmax Hn))).
  destruct (Z.ltb_spec (Z.of_nat i) 0); [lia|].
  rewrite (bind_ok (ret (Done (Z.of_nat i))) _ d d (Done (Z.of_nat i)) eq_refl).
  rewrite (bind_ok _ _ _ _ _ (get_shared_ok d s Hd)).
  rewrite (holds_lookup_live s blk i _ Hholds Hi).
  rewrite (bind_ok _ _ d d _ (lift_ok _ _ d (read_slot_live blk i _ Hi))).
  reflexivity.
Qed.

(** A callback set that differs from the descriptor's stops the call at
    the comparison: the mismatch is logged and nothing else happens. *)
Lemma store_in_type_mismatch (pos : Z) (t : katcp_type) (type key : option string)
    (data : dataptr) (p f c cm pa : fnptr) (d : katcp_dispatch) :
  callbacks_of t <> (p, f, c, cm, pa) ->
  store_in_type pos t type key data p f c cm pa d =
    Ok (Failed CallbackMismatchError,
        {| d_shared := d_shared d; d_allocs := d_allocs d;
           d_events := d_events d ++ [EvLog (LogCallbacksDontMatch key type)] |}).
Proof.
  intros Hneq. unfold store_in_type.
  destruct (same_callbacks t p f c cm pa) eqn:Hsame.
  - exfalso. apply Hneq. apply same_callbacks_spec. exact Hsame.
  - reflexivity.
Qed.

(** ** Storing into a type the registry does not hold *)

Lemma bind_bind {A B C : Type} (c : M A) (k1 : A -> M B) (k2 : B -> M C)
    (d : katcp_dispatch) :
  bind (bind c k1) k2 d = bind c (fun a => bind (k1 a) k2) d.
Proof. unfold bind. destruct (c d) as [[a d']|]; reflexivity. Qed.

Lemma insert_insert_at {A : Type} (k : nat) (x y : A) (l : list A) :
  (k <= length l)%nat -> <[k := y]> (insert_at k x l) = insert_at k y l.
Proof.
  intros Hk. unfold insert_at.
  replace k with (length (take k l) + 0)%nat at 1 by (rewrite length_take; lia).
  rewrite insert_app_r. reflexivity.
Qed.

Lemma update_type_live (d : katcp_dispatch) (k : nat) (s : katcp_shared)
    (blk : list slot) (i : nat) (t : katcp_type) :
  (i < length blk)%nat -> s_type s = Live blk ->
  update_type (Z.of_nat i) t (with_shared d k s) =
    Ok (tt, with_shared d k {| s_type := Live (<[i := Some t]> blk);
                              s_type_count := s_type_count s |}).
Proof.
  intros Hi Hs. unfold update_type.
  rewrite (bind_ok _ _ _ _ _ (get_shared_ok (with_shared d k s) s eq_refl)).
  rewrite Hs. simpl deref_array.
  rewrite (bind_ok (lift (Ok blk)) _ _ _ blk eq_refl).
  rewrite (bind_ok _ _ _ _ _ (lift_ok _ _ _ (array_set_ok blk (Z.of_nat i) (Some t)
                                                 ltac:(lia)))).
  rewrite Nat2Z.id. reflexivity.
Qed.

(** The registry after a granted store into a new type: [low] is where
    the search placed the name. *)
Lemma store_new_type_grant (d : katcp_dispatch) (s : katcp_shared) (blk : list slot)
    (ns : list string) (T k : string) (v : dataptr) (p f c cm pa : fnptr) :
  d_shared d = Some s -> sorted_registry s blk ns -> s_type_count s < INT_MAX ->
  T ∉ ns -> grants 5 d ->
  exists (low : nat) (s' : katcp_shared),
    store_data_type_katcp (Some T) (Some k) v p f c cm pa d
      = Ok (Done 0, with_shared d 5 s') /\
    insert_at low T ns !! low = Some T /\
    sorted_registry s'
      (insert_at low (Some (set_tree (new_type T p f c cm pa) (Some [(k, v)]))) blk)
      (insert_at low T ns) /\
    s_type_count s' = s_type_count s + 1.
Proof.
  intros Hd Hreg Hmax Habs Hall.
  destruct (search_miss s blk ns T Hreg Hmax Habs) as (low & Hsearch & Hsplit).
  pose proof Hreg as ([Hcount Hts] & Hnames & Hsorted).
  pose proof (block_names_length _ _ Hnames) as Hlen.
  pose proof Hsplit as (Hlow & _).
  unfold INT_MAX in Hmax.
  assert (Hlowb : (low <= length blk)%nat) by lia.
  assert (H4 : grants 4 d).
  { unfold grants in *. replace 4%nat with (4 `min` 5)%nat by reflexivity.
    rewrite <- take_take. apply Forall_take. exact Hall. }
  assert (H5 : hd Granted (d_allocs (with_shared d 4
                {| s_type := Live (insert_at low (Some (new_type T p f c cm pa)) blk);
                   s_type_count := Z.of_nat (length blk) + 1 |})) <> Refused).
  { simpl. unfold grants in Hall. destruct (drop 4 (d_allocs d)) as [|o l] eqn:Hdrop;
      simpl; [discriminate|].
    rewrite Forall_forall in Hall. apply Hall.
    apply (list_elem_of_lookup_2 _ 4%nat). rewrite lookup_take_lt by lia.
    rewrite <- (Nat.add_0_r 4), <- lookup_drop, Hdrop. reflexivity. }
  exists low. eexists. split; [|split; [|split]].
  - unfold store_data_type_katcp.
    rewrite (bind_ok _ _ _ _ _ (get_shared_ok d s Hd)).
    rewrite (bind_ok _ _ d d _ (lift_ok _ _ d Hsearch)).
    destruct (Z.ltb_spec (- (Z.of_nat low + 1)) 0); [|lia].
    rewrite !bind_bind.
    rewrite (bind_ok _ _ d d (- Z.of_nat low))
      by (apply lift_ok; rewrite int_add_ok by int_range; f_equal; lia).
    rewrite bind_bind.
    rewrite (bind_ok _ _ d d (Z.of_nat low))
      by (apply lift_ok; rewrite int_mul_ok by int_range; f_equal; lia).
    rewrite bind_bind.
    rewrite (bind_ok _ _ _ _ _
               (register_at_grant d s blk (Z.of_nat low) T p f c cm pa Hd (conj Hcount Hts)
                  ltac:(unfold INT_MAX; lia) ltac:(lia) H4)).
    replace (Z.of_nat low `min` Z.of_nat (length blk)) with (Z.of_nat low) by lia.
    rewrite Nat2Z.id. simpl c_int.
    destruct (Z.ltb_spec (Z.of_nat low) 0); [lia|].
    rewrite (bind_ok (ret (Done (Z.of_nat low))) _ _ _ (Done (Z.of_nat low)) eq_refl).
    rewrite (bind_ok _ _ _ _ _ (get_shared_ok (with_shared d 4 _) _ eq_refl)).
    simpl s_type.
    rewrite (bind_ok _ _ _ _ _
               (lift_ok _ _ _ (read_slot_live _ low _ (lookup_insert_at low _ blk ltac:(lia))))).
    fold (store_in_type (Z.of_nat low) (new_type T p f c cm pa) (Some T) (Some k) v p f c cm pa).
    unfold store_in_type.
    replace (same_callbacks (new_type T p f c cm pa) p f c cm pa) with true
      by (symmetry; apply same_callbacks_spec; reflexivity).
    cbn [negb t_tree new_type].
    rewrite bind_ret.
    rewrite (bind_ok _ _ _ _ _ (create_node_avltree_grant k v _ H5)).
    change (add_node_avltree [] (k, v)) with (Some [(k, v)]). cbv iota.
    unfold pop. simpl d_shared. simpl d_events. simpl d_allocs. rewrite tl_drop.
    fold (with_shared d 5 {| s_type := Live (insert_at low (Some (new_type T p f c cm pa)) blk);
                             s_type_count := Z.of_nat (length blk) + 1 |}).
    rewrite (bind_ok _ _ _ _ _
               (update_type_live d 5
                  {| s_type := Live (insert_at low (Some (new_type T p f c cm pa)) blk);
                     s_type_count := Z.of_nat (length blk) + 1 |}
                  (insert_at low (Some (new_type T p f c cm pa)) blk) low _
                  ltac:(rewrite length_insert_at; lia) eq_refl)).
    rewrite insert_insert_at by exact Hlowb. reflexivity.
  - apply lookup_insert_at. lia.
  - split; [|split].
    + split; simpl; [rewrite length_insert_at; lia|left; reflexivity].
    + apply block_names_insert_at; [assumption|reflexivity].
    + apply sorted_insert_at; assumption.
  - simpl. lia.
Qed.

(** ** Refused allocations *)

Lemma create_type_katcp_refused (d : katcp_dispatch) :
  hd Granted (d_allocs d) = Refused -> create_type_katcp d = Ok (None, pop d).
Proof. intros H. unfold create_type_katcp, bind, next_alloc. rewrite H. reflexivity. Qed.

Lemma strdup_refused (str : string) (d : katcp_dispatch) :
  hd Granted (d_allocs d) = Refused -> strdup (Some str) d = Ok (None, pop d).
Proof. intros H. unfold strdup, bind, next_alloc. rewrite H. reflexivity. Qed.

Lemma create_avltree_refused (d : katcp_dispatch) :
  hd Granted (d_allocs d) = Refused -> create_avltree d = Ok (None, pop d).
Proof. intros H. unfold create_avltree, bind, next_alloc. rewrite H. reflexivity. Qed.

Lemma create_node_avltree_refused (key : string) (data : dataptr) (d : katcp_dispatch) :
  hd Granted (d_allocs d) = Refused ->
  create_node_avltree (Some key) data d = Ok (None, pop d).
Proof. intros H. unfold create_node_avltree, bind, next_alloc. rewrite H. reflexivity. Qed.

Lemma grants_0 (d : katcp_dispatch) : grants 0 d.
Proof. unfold grants. rewrite take_0. constructor. Qed.

Lemma grants_split (k : nat) (d : katcp_dispatch) :
  grants (S k) d <-> grants k d /\ hd Granted (drop k (d_allocs d)) <> Refused.
Proof.
  unfold grants. replace (S k) with (k + 1)%nat by lia.
  rewrite <- take_take_drop, Forall_app.
  destruct (drop k (d_allocs d)) as [|o l]; simpl.
  - split; [intros [H _]; split; [exact H|discriminate]|intros [H _]; split; [exact H|constructor]].
  - rewrite take_0. split.
    + intros [H H1]. apply Forall_cons in H1 as [H1 _]. split; assumption.
    + intros [H H1]. split; [exact H|]. constructor; [exact H1|constructor].
Qed.

(** A registration at a position gives up with the allocation error as
    soon as one of its four requests is refused. *)
Lemma register_at_refused (d : katcp_dispatch) (s : katcp_shared) (blk : list slot)
    (tid : Z) (name : string) (p f c cm pa : fnptr) :
  d_shared d = Some s -> holds s blk -> Z.of_nat (length blk) < INT_MAX ->
  ~ grants 4 d ->
  exists d', register_at_id_type_katcp tid (Some name) p f c cm pa d
               = Ok (Failed AllocationError, d').
Proof.
  intros Hd [Hcount Hts] Hmax Hnot. unfold INT_MAX in Hmax.
  unfold register_at_id_type_katcp.
  rewrite (bind_ok _ _ _ _ _ (get_shared_ok d s Hd)).
  rewrite Hcount.
  rewrite (bind_ok _ _ d d (Z.of_nat (length blk) + 1))
    by (apply lift_ok, int_add_ok; int_range).
  destruct (decide (hd Granted (d_allocs d) = Refused)) as [H1|H1].
  { rewrite (bind_ok _ _ _ _ _ (realloc_refused (s_type s) (Z.of_nat (length blk) + 1) d
               (holds_not_dangling s blk (conj Hcount Hts)) ltac:(lia) H1)).
    eexists. reflexivity. }
  destruct (realloc_grant (s_type s) blk (Z.of_nat (length blk) + 1) d Hts ltac:(lia) H1)
    as (d1 & Hre & Ha1 & He1).
  rewrite (bind_ok _ _ d d1 _ Hre).
  replace (Z.to_nat (Z.of_nat (length blk) + 1)) with (length blk + 1)%nat by lia.
  rewrite resize_add_eq by reflexivity. simpl replicate.
  rewrite (bind_ok _ _ d1 d1 (blk ++ [None])).
  2:{ apply lift_ok. rewrite array_set_ok by (rewrite length_snoc; lia).
      f_equal. rewrite Nat2Z.id. apply insert_snoc. }
  destruct (decide (hd Granted (d_allocs d1) = Refused)) as [H2|H2].
  { rewrite (bind_ok _ _ _ _ _ (create_type_katcp_refused d1 H2)). eexists. reflexivity. }
  rewrite (bind_ok _ _ _ _ _ (create_type_katcp_grant d1 H2)).
  destruct (decide (hd Granted (d_allocs (pop d1)) = Refused)) as [H3|H3].
  { rewrite (bind_ok _ _ _ _ _ (strdup_refused name (pop d1) H3)). eexists. reflexivity. }
  rewrite (bind_ok _ _ _ _ _ (strdup_grant name (pop d1) H3)).
  destruct (decide (hd Granted (d_allocs (pop (pop d1))) = Refused)) as [H4|H4].
  { rewrite (bind_ok _ _ _ _ _ (create_avltree_refused (pop (pop d1)) H4)).
    eexists. reflexivity. }
  exfalso. apply Hnot.
  apply (grants_cons 3 d d1 H1 Ha1).
  apply (grants_cons 2 d1 (pop d1) H2 eq_refl).
  apply (grants_cons 1 (pop d1) (pop (pop d1)) H3 eq_refl).
  apply (grants_cons 0 (pop (pop d1)) (pop (pop (pop d1))) H4 eq_refl).
  apply grants_0.
Qed.

(** A store into a new type fails when one of its five requests is
    refused. *)
Lemma store_new_type_refused (d : katcp_dispatch) (s : katcp_shared) (blk : list slot)
    (ns : list string) (T k : string) (v : dataptr) (p f c cm pa : fnptr) :
  d_shared d = Some s -> sorted_registry s blk ns -> s_type_count s < INT_MAX ->
  T ∉ ns -> ~ grants 5 d ->
  exists d', store_data_type_katcp (Some T) (Some k) v p f c cm pa d
               = Ok (Failed AllocationError, d').
Proof.
  intros Hd Hreg Hmax Habs Hnot.
  destruct (search_miss s blk ns T Hreg Hmax Habs) as (low & Hsearch & Hsplit).
  pose proof Hreg as ([Hcount Hts] & Hnames & Hsorted).
  pose proof (block_names_length _ _ Hnames) as Hlen.
  pose proof Hsplit as (Hlow & _).
  unfold INT_MAX in Hmax.
  assert (Hlowb : (low <= length blk)%nat) by lia.
  unfold store_data_type_katcp.
  rewrite (bind_ok _ _ _ _ _ (get_shared_ok d s Hd)).
  rewrite (bind_ok _ _ d d _ (lift_ok _ _ d Hsearch)).
  destruct (Z.ltb_spec (- (Z.of_nat low + 1)) 0); [|lia].
  rewrite !bind_bind.
  rewrite (bind_ok _ _ d d (- Z.of_nat low))
    by (apply lift_ok; rewrite int_add_ok by int_range; f_equal; lia).
  rewrite bind_bind.
  rewrite (bind_ok _ _ d d (Z.of_nat low))
    by (apply lift_ok; rewrite int_mul_ok by int_range; f_equal; lia).
  rewrite bind_bind.
  destruct (decide (grants 4 d)) as [H4|H4].
  - rewrite (bind_ok _ _ _ _ _
               (register_at_grant d s blk (Z.of_nat low) T p f c cm pa Hd (conj Hcount Hts)
                  ltac:(unfold INT_MAX; lia) ltac:(lia) H4)).
    replace (Z.of_nat low `min` Z.of_nat (length blk)) with (Z.of_nat low) by lia.
    rewrite Nat2Z.id. simpl c_int.
    destruct (Z.ltb_spec (Z.of_nat low) 0); [lia|].
    rewrite bind_ret.
    rewrite (bind_ok _ _ _ _ _ (get_shared_ok (with_shared d 4 _) _ eq_refl)).
    simpl s_type.
    rewrite (bind_ok _ _ _ _ _
               (lift_ok _ _ _ (read_slot_live _ low _ (lookup_insert_at low _ blk Hlowb)))).
    replace (same_callbacks (new_type T p f c cm pa) p f c cm pa) with true
      by (symmetry; apply same_callbacks_spec; reflexivity).
    cbn [negb t_tree new_type].
    rewrite bind_ret.
    assert (H5 : hd Granted (drop 4 (d_allocs d)) = Refused).
    { destruct (decide (hd Granted (drop 4 (d_allocs d)) = Refused)) as [E|E]; [exact E|].
      exfalso. apply Hnot. apply grants_split. split; assumption. }
    rewrite (bind_ok _ _ _ _ _ (create_node_avltree_refused k v (with_shared d 4 _) H5)).
    eexists. reflexivity.
  - destruct (register_at_refused d s blk (Z.of_nat low) T p f c cm pa Hd (conj Hcount Hts)
                ltac:(unfold INT_MAX; lia) H4) as (d1 & Hfail).
    rewrite (bind_ok _ _ _ _ _ Hfail). simpl c_int.
    eexists. reflexivity.
Qed.

(** ** Looking a key up *)

Lemma get_key_data_found (d : katcp_dispatch) (s : katcp_shared) (blk : list slot)
    (ns : list string) (i : nat) (t : katcp_type) (T k : string)
    (tr : avl_tree) (e : avl_node) :
  d_shared d = Some s -> sorted_registry s blk ns -> s_type_count s <= INT_MAX ->
  blk !! i = Some (Some t) -> t_name t = Some T ->
  t_tree t = Some tr -> find_name_node_avltree tr k = Some e ->
  get_key_data_type_katcp (Some T) (Some k) d = Ok (get_node_data_avltree e, d).
Proof.
  intros Hd Hreg Hmax Hi HT Htree Hfind.
  pose proof Hreg as (Hholds & Hnames & _).
  pose proof (block_names_lookup_l blk ns i t T Hnames Hi HT) as Hn.
  unfold get_key_data_type_katcp, find_name_type_katcp, find_name_id_type_katcp.
  rewrite !bind_bind.
  rewrite (bind_ok _ _ _ _ _ (get_shared_ok d s Hd)).
  rewrite (bind_ok _ _ d d _ (lift_ok _ _ d (search_hit s blk ns T i Hreg Hmax Hn))).
  destruct (Z.ltb_spec (Z.of_nat i) 0); [lia|].
  rewrite bind_bind.
  rewrite (bind_ok _ _ _ _ _ (get_shared_ok d s Hd)).
  rewrite (holds_lookup_live s blk i _ Hholds Hi).
  rewrite (bind_ok _ _ d d _ (lift_ok _ _ d (read_slot_live blk i _ Hi))).
  rewrite Htree, Hfind. reflexivity.
Qed.

(** ** Deregistration *)

Lemma shift_down_spec (l2 : list slot) :
  forall (l1 : list slot) (y : slot) (fuel : nat) (pos size : Z),
    pos = Z.of_nat (length l1) -> size = Z.of_nat (length l1 + S (length l2)) ->
    size <= INT_MAX -> (length l2 <= fuel)%nat ->
    shift_down fuel (l1 ++ y :: l2) pos size
      = Ok (l1 ++ l2 ++ [default y (last l2)]).
Proof.
  induction l2 as [|x l2 IH]; intros l1 y fuel pos size Hpos Hsize Hmax Hfuel;
    unfold INT_MAX in Hmax.
  - simpl in Hsize.
    destruct fuel; simpl; rewrite int_sub_ok by int_range; simpl;
      (destruct (Z.ltb_spec pos (size - 1)); [lia|reflexivity]).
  - simpl in Hsize, Hfuel. destruct fuel as [|fuel]; [lia|]. simpl.
    rewrite int_sub_ok by int_range. simpl.
    destruct (Z.ltb_spec pos (size - 1)); [|lia].
    rewrite int_add_ok by int_range. simpl.
    rewrite (array_get_ok _ (pos + 1) x); [|lia|].
    2:{ replace (Z.to_nat (pos + 1)) with (length l1 + 1)%nat by lia.
        rewrite lookup_app_r by lia.
        replace (length l1 + 1 - length l1)%nat with 1%nat by lia. reflexivity. }
    simpl. rewrite array_set_ok by (rewrite length_app; simpl; lia). simpl.
    replace (<[Z.to_nat pos:=x]> (l1 ++ y :: x :: l2)) with ((l1 ++ [x]) ++ x :: l2).
    2:{ replace (Z.to_nat pos) with (length l1 + 0)%nat by lia.
        rewrite insert_app_r. simpl. rewrite <- (assoc_L (++)). reflexivity. }
    rewrite (IH (l1 ++ [x]) x fuel (pos + 1) size);
      [|rewrite length_snoc; lia|rewrite length_snoc; lia|unfold INT_MAX; lia|lia].
    f_equal. rewrite <- (assoc_L (++)). simpl. f_equal. f_equal. f_equal. f_equal.
    rewrite last_cons. destruct (last l2); reflexivity.
Qed.

Lemma destroy_type_katcp_events (t : katcp_type) (d : katcp_dispatch) :
  destroy_type_katcp (Some t) d =
    Ok (tt, {| d_shared := d_shared d; d_allocs := d_allocs d;
               d_events := d_events d ++ destroy_events t |}).
Proof.
  unfold destroy_type_katcp, destroy_events, entries_of, bind, emit, ret.
  destruct (t_tree t) as [tr|]; simpl.
  - rewrite <- (assoc_L (++)). reflexivity.
  - reflexivity.
Qed.

(** On a type the registry holds, [deregister_type_katcp] destroys the
    descriptor and shifts the block before it asks for the smaller one. *)
Lemma deregister_found (d : katcp_dispatch) (s : katcp_shared) (blk : list slot)
    (ns : list string) (i : nat) (t : katcp_type) (T : string) :
  d_shared d = Some s -> sorted_registry s blk ns -> s_type_count s <= INT_MAX ->
  blk !! i = Some (Some t) -> t_name t = Some T ->
  deregister_type_katcp (Some T) d =
    deregister_shrink (shifted_down i blk) (s_type_count s)
      {| d_shared := Some {| s_type := Live (shifted_down i blk);
                             s_type_count := s_type_count s |};
         d_allocs := d_allocs d;
         d_events := d_events d ++ destroy_events t |}.
Proof.
  intros Hd Hreg Hmax Hi HT.
  pose proof Hreg as (Hholds & Hnames & _).
  pose proof Hholds as [Hcount _].
  pose proof (block_names_lookup_l blk ns i t T Hnames Hi HT) as Hn.
  assert (Hlt : (i < length blk)%nat) by exact (lookup_lt_Some _ _ _ Hi).
  unfold INT_MAX in Hmax.
  unfold deregister_type_katcp.
  rewrite (bind_ok _ _ _ _ _ (get_shared_ok d s Hd)).
  rewrite (bind_ok _ _ d d _ (lift_ok _ _ d (search_hit s blk ns T i Hreg
                                              ltac:(unfold INT_MAX; lia) Hn))).
  destruct (Z.ltb_spec (Z.of_nat i) 0); [lia|].
  rewrite (holds_lookup_live s blk i _ Hholds Hi). simpl deref_array.
  rewrite (bind_ok (lift (Ok blk)) _ d d blk eq_refl).
  rewrite (bind_ok _ _ d d (Some t))
    by (apply lift_ok, array_get_ok; [lia|rewrite Nat2Z.id; exact Hi]).
  rewrite bind_bind.
  rewrite (bind_ok _ _ _ _ _ (destroy_type_katcp_events t d)).
  assert (Hrange : 0 <= Z.of_nat i < Z.of_nat (length blk)) by lia.
  rewrite (bind_ok _ _ _ _ _ (lift_ok _ _ _ (array_set_ok blk (Z.of_nat i) None Hrange))).
  rewrite Nat2Z.id.
  assert (Hshift : shift_down (Z.to_nat (s_type_count s)) (<[i:=None]> blk)
                     (Z.of_nat i) (s_type_count s) = Ok (shifted_down i blk)).
  { rewrite insert_take_drop by exact Hlt.
    rewrite (shift_down_spec (drop (S i) blk) (take i blk) None).
    - unfold shifted_down. rewrite delete_take_drop, <- (assoc_L (++)). reflexivity.
    - rewrite length_take. lia.
    - rewrite length_take, length_drop. lia.
    - unfold INT_MAX. lia.
    - rewrite length_drop. lia. }
  rewrite (bind_ok _ _ _ _ _ (lift_ok _ _ _ Hshift)).
  reflexivity.
Qed.

Lemma length_shifted_down (i : nat) (blk : list slot) :
  (i < length blk)%nat -> length (shifted_down i blk) = length blk.
Proof.
  intros Hi. unfold shifted_down. rewrite length_snoc, length_delete.
  - lia.
  - apply lookup_lt_is_Some_2. exact Hi.
Qed.

Lemma resize_shifted_down (i : nat) (blk : list slot) :
  (i < length blk)%nat ->
  resize (length blk - 1) None (shifted_down i blk) = delete i blk.
Proof.
  intros Hi. unfold shifted_down. apply resize_app.
  rewrite length_delete by (apply lookup_lt_is_Some_2; exact Hi). reflexivity.
Qed.

(** The shrinking granted: the registry is the old one without the
    descriptor. *)
Lemma deregister_shrink_grant (blk blk' : list slot) (d : katcp_dispatch) :
  1 < Z.of_nat (length blk) <= INT_MAX ->
  hd Granted (d_allocs d) <> Refused ->
  resize (length blk - 1) None blk = blk' ->
  deregister_shrink blk (Z.of_nat (length blk)) d =
    Ok (Done 0,
        {| d_shared := Some {| s_type := Live blk';
                               s_type_count := Z.of_nat (length blk) - 1 |};
           d_allocs := tl (d_allocs d); d_events := d_events d |}).
Proof.
  intros Hlen Hgrant Hres. unfold INT_MAX in Hlen. unfold deregister_shrink.
  rewrite (bind_ok _ _ d d (Z.of_nat (length blk) - 1))
    by (apply lift_ok, int_sub_ok; int_range).
  destruct (realloc_grant (Live blk) blk (Z.of_nat (length blk) - 1) d
              (or_introl eq_refl) ltac:(lia) Hgrant) as (d1 & Hre & Ha1 & He1).
  rewrite (bind_ok _ _ _ _ _ Hre).
  rewrite (bind_ok _ _ d1 d1 (Z.of_nat (length blk) - 1))
    by (apply lift_ok, int_sub_ok; int_range).
  unfold bind, set_shared, ret. simpl. rewrite Ha1, He1.
  replace (Z.to_nat (Z.of_nat (length blk) - 1)) with (length blk - 1)%nat by lia.
  rewrite Hres. reflexivity.
Qed.

(** The shrinking refused: the call gives up where it stands. *)
Lemma deregister_shrink_refused (blk : list slot) (d : katcp_dispatch) :
  1 < Z.of_nat (length blk) <= INT_MAX ->
  hd Granted (d_allocs d) = Refused ->
  deregister_shrink blk (Z.of_nat (length blk)) d = Ok (Failed AllocationError, pop d).
Proof.
  intros Hlen Hrefused. unfold INT_MAX in Hlen. unfold deregister_shrink.
  rewrite (bind_ok _ _ d d (Z.of_nat (length blk) - 1))
    by (apply lift_ok, int_sub_ok; int_range).
  rewrite (bind_ok _ _ _ _ _ (realloc_refused (Live blk) (Z.of_nat (length blk) - 1) d
             ltac:(discriminate) ltac:(lia) Hrefused)).
  reflexivity.
Qed.

(** The shrinking of a block of one slot: the request is for no bytes, so
    the block is released, the answer is [NULL], and the call gives up with
    the registry pointing at the released block and counting one type. *)
Lemma deregister_shrink_last (blk : list slot) (d : katcp_dispatch) :
  d_shared d = Some {| s_type := Live blk; s_type_count := 1 |} ->
  deregister_shrink blk 1 d =
    Ok (Failed AllocationError,
        {| d_shared := Some {| s_type := Dangling; s_type_count := 1 |};
           d_allocs := d_allocs d; d_events := d_events d |}).
Proof.
  intros Hd. unfold deregister_shrink.
  rewrite (bind_ok _ _ d d 0) by reflexivity.
  rewrite (bind_ok _ _ _ _ _ (realloc_zero blk blk 1 d Hd)).
  reflexivity.
Qed.

Lemma sorted_delete (ns : list string) (i : nat) :
  StronglySorted str_lt ns -> StronglySorted str_lt (delete i ns).
Proof.
  intros Hs. destruct (ns !! i) as [x|] eqn:Hi.
  - rewrite <- (take_drop_middle ns i x Hi) in Hs.
    rewrite delete_take_drop.
    apply StronglySorted_app in Hs as (Hx & H1 & H2).
    apply StronglySorted_cons in H2 as [_ H2].
    apply StronglySorted_app_2; [|assumption..].
    intros x1 x2 Hx1 Hx2. apply Hx; [exact Hx1|right; exact Hx2].
  - rewrite delete_take_drop.
    apply lookup_ge_None in Hi.
    rewrite take_ge, drop_ge by lia. rewrite app_nil_r. exact Hs.
Qed.

Lemma sorted_delete_absent (ns : list string) (i : nat) (x : string) :
  StronglySorted str_lt ns -> ns !! i = Some x -> x ∉ delete i ns.
Proof.
  intros Hs Hi. apply sorted_NoDup in Hs.
  rewrite <- (take_drop_middle ns i x Hi) in Hs.
  rewrite delete_take_drop.
  apply NoDup_app in Hs as (_ & Hdis & Hnd).
  apply NoDup_cons in Hnd as [Hnot _].
  intros Hin. apply elem_of_app in Hin as [Hin|Hin].
  - apply (Hdis x Hin). left.
  - exact (Hnot Hin).
Qed.

Lemma destroy_avltree_set (tr : avl_tree) (f : fnptr) :
  f <> NULL -> destroy_avltree tr f = map (fun e => EvFree f (snd e)) tr.
Proof.
  intros Hf. unfold destroy_avltree, free_node_avltree.
  destruct (Z.eqb_spec f NULL); [contradiction|].
  induction tr as [|e tr IH]; simpl; [reflexivity|]. rewrite IH. reflexivity.
Qed.

Lemma register_name_refused (d : katcp_dispatch) (s : katcp_shared) (blk : list slot)
    (ns : list string) (name : string) (p f c cm pa : fnptr) :
  d_shared d = Some s -> sorted_registry s blk ns -> s_type_count s < INT_MAX ->
  name ∉ ns -> ~ grants 4 d ->
  exists d', register_name_type_katcp (Some name) p f c cm pa d
               = Ok (Failed AllocationError, d').
Proof.
  intros Hd Hreg Hmax Habs Hnot.
  destruct (search_miss s blk ns name Hreg Hmax Habs) as (low & Hsearch & Hsplit).
  pose proof Hreg as ([Hcount Hts] & Hnames & Hsorted).
  pose proof (block_names_length _ _ Hnames) as Hlen.
  pose proof Hsplit as (Hlow & _).
  unfold INT_MAX in Hmax.
  unfold register_name_type_katcp.
  rewrite (bind_ok _ _ _ _ _ (get_shared_ok d s Hd)).
  rewrite (bind_ok _ _ d d _ (lift_ok _ _ d Hsearch)).
  destruct (Z.geb_spec (- (Z.of_nat low + 1)) 0); [lia|].
  rewrite (bind_ok _ _ d d (- Z.of_nat low))
    by (apply lift_ok; rewrite int_add_ok by int_range; f_equal; lia).
  rewrite (bind_ok _ _ d d (Z.of_nat low))
    by (apply lift_ok; rewrite int_mul_ok by int_range; f_equal; lia).
  apply (register_at_refused d s blk (Z.of_nat low) name p f c cm pa Hd (conj Hcount Hts)).
  - unfold INT_MAX. lia.
  - exact Hnot.
Qed.

(** ** The sample registry is well formed *)

Lemma sample_sorted : sorted_registry sample_shared sample_block sample_names.
Proof.
  split; [|split].
  - split; [reflexivity|left; reflexivity].
  - repeat constructor.
  - repeat constructor.
Qed.

Lemma empty_sorted : sorted_registry empty_shared [] [].
Proof.
  split; [|split].
  - split; [reflexivity|right; split; reflexivity].
  - constructor.
  - constructor.
Qed.

(** * The claims *)

(** C1.  On a sorted registry the binary search answers the index of the
    searched name when the registry holds it, and otherwise [-(low + 1)]
    where [low] is the one position at which the name can be inserted with
    the order kept: the names before [low] are below it and the names from
    [low] on are above.  On an empty registry the answer is [-1]. *)
Theorem binary_search_contract (s : katcp_shared) (blk : list slot) (ns : list string)
    (str : string) :
  sorted_registry s blk ns -> s_type_count s < INT_MAX ->
  (blk = [] ->
     binary_search_type_list_katcp (s_type s) (s_type_count s) (Some str) = Ok (-1)) /\
  (forall i : nat, ns !! i = Some str ->
     binary_search_type_list_katcp (s_type s) (s_type_count s) (Some str)
       = Ok (Z.of_nat i)) /\
  (str ∉ ns ->
     exists low : nat,
       binary_search_type_list_katcp (s_type s) (s_type_count s) (Some str)
         = Ok (- (Z.of_nat low + 1)) /\
       splits_at ns str low /\
       StronglySorted str_lt (insert_at low str ns)).
Proof.
  intros Hreg Hmax. split; [|split].
  - intros ->. destruct Hreg as ([Hcount Hts] & _). rewrite Hcount.
    unfold binary_search_type_list_katcp. simpl.
    rewrite orb_true_r. reflexivity.
  - intros i Hi. apply (search_hit s blk ns str i Hreg); [lia|exact Hi].
  - intros Habs. destruct (search_miss s blk ns str Hreg Hmax Habs) as (low & Hr & Hsplit).
    exists low. split; [exact Hr|]. split; [exact Hsplit|].
    apply sorted_insert_at; [apply Hreg|exact Hsplit].
Qed.

Lemma binary_search_contract_witness :
  binary_search_type_list_katcp (Live sample_block) 3 (Some "string"%string) = Ok 1 /\
  exists low : nat,
    binary_search_type_list_katcp (Live sample_block) 3 (Some "port"%string)
      = Ok (- (Z.of_nat low + 1)) /\
    StronglySorted str_lt (insert_at low "port"%string sample_names).
Proof.
  destruct (binary_search_contract sample_shared sample_block sample_names "string"
              sample_sorted ltac:(reflexivity)) as (_ & Hhit & _).
  destruct (binary_search_contract sample_shared sample_block sample_names "port"
              sample_sorted ltac:(reflexivity)) as (_ & _ & Hmiss).
  split.
  - exact (Hhit 1%nat eq_refl).
  - destruct Hmiss as (low & Hr & _ & Hs).
    + intros Hin. repeat (apply elem_of_cons in Hin as [Hin|Hin]; [discriminate|]).
      apply elem_of_nil in Hin. exact Hin.
    + exists low. split; assumption.
Defined.

(** C2.  Starting from the empty registry, a sequence of registrations by
    name with pairwise distinct names leaves, after every call, a registry
    sorted strictly ascending by name in which no two descriptors share a
    name; its names are those registered so far.  (The allocator grants
    every request, and the calls are no more than [INT_MAX].) *)
Theorem register_by_name_keeps_sorted (calls : list registration) (d : katcp_dispatch) :
  d_shared d = Some empty_shared -> never_refuses d ->
  NoDup (calls.*1) -> Z.of_nat (length calls) <= INT_MAX ->
  exists trace,
    register_all calls d = Ok trace /\
    length trace = length calls /\
    forall i r d', trace !! i = Some (r, d') ->
      exists s blk ns,
        d_shared d' = Some s /\ holds s blk /\ block_names blk ns /\
        StronglySorted str_lt ns /\ NoDup ns /\
        ns ≡ₚ take (S i) (calls.*1).
Proof.
  intros Hd Hall Hnd Hmax.
  destruct (register_all_sorted calls d []) as (trace & Hrun & Hlen & Hinv).
  - exists empty_shared, []. split; [exact Hd|exact empty_sorted].
  - exact Hall.
  - exact Hnd.
  - intros n _ Hin. apply elem_of_nil in Hin. exact Hin.
  - simpl. lia.
  - exists trace. split; [exact Hrun|]. split; [exact Hlen|].
    intros i r d' Hi.
    destruct (Hinv i r d' Hi) as (_ & ns & (s & blk & Hs & Hh & Hn & Hsorted) & Hperm).
    exists s, blk, ns. repeat split; try assumption.
    + apply Hh.
    + apply Hh.
    + apply sorted_NoDup. exact Hsorted.
Qed.

Lemma register_by_name_keeps_sorted_witness :
  exists trace,
    register_all [("test", (0, 0, 0, 0, 0)); ("names", (0, 0, 0, 0, 0));
                  ("string", (0, 0, 0, 0, 0))]%string (empty_dispatch []) = Ok trace /\
    length trace = 3%nat.
Proof.
  destruct (register_by_name_keeps_sorted
              [("test", (0, 0, 0, 0, 0)); ("names", (0, 0, 0, 0, 0));
               ("string", (0, 0, 0, 0, 0))]%string (empty_dispatch []))
    as (trace & Hrun & Hlen & _).
  - reflexivity.
  - constructor.
  - repeat constructor; intros Hin;
      repeat (apply elem_of_cons in Hin as [Hin|Hin]; [discriminate|]);
      apply elem_of_nil in Hin; exact Hin.
  - unfold INT_MAX. simpl. lia.
  - exists trace. split; assumption.
Defined.

(** C3.  On a type the registry holds with callback set [C], a store call
    that supplies a callback set differing from [C] in any of the five
    entries fails with the callback-mismatch error; the registry, and with
    it the type's store, is unchanged: the call only logs the mismatch. *)
Theorem store_callback_mismatch (d : katcp_dispatch) (s : katcp_shared) (blk : list slot)
    (ns : list string) (i : nat) (t : katcp_type) (T : string)
    (key : option string) (data : dataptr) (p f c cm pa : fnptr) :
  d_shared d = Some s -> sorted_registry s blk ns -> s_type_count s <= INT_MAX ->
  blk !! i = Some (Some t) -> t_name t = Some T ->
  callbacks_of t <> (p, f, c, cm, pa) ->
  store_data_type_katcp (Some T) key data p f c cm pa d =
    Ok (Failed CallbackMismatchError,
        {| d_shared := d_shared d; d_allocs := d_allocs d;
           d_events := d_events d ++ [EvLog (LogCallbacksDontMatch key (Some T))] |}).
Proof.
  intros Hd Hreg Hmax Hi HT Hneq.
  rewrite (store_existing d s blk ns i t T key data p f c cm pa Hd Hreg Hmax Hi HT).
  apply store_in_type_mismatch. exact Hneq.
Qed.

Lemma store_callback_mismatch_witness :
  store_data_type_katcp (Some "names"%string) (Some "zoe"%string) 104 11 12 13 14 99
    (sample_dispatch []) =
  Ok (Failed CallbackMismatchError,
      {| d_shared := Some sample_shared; d_allocs := [];
         d_events := [EvLog (LogCallbacksDontMatch (Some "zoe"%string)
                                                  (Some "names"%string))] |}).
Proof.
  apply (store_callback_mismatch (sample_dispatch []) sample_shared sample_block
           sample_names 0
           (sample_type "names" [("adam", 101); ("john", 102); ("perry", 103)]%string)
           "names" (Some "zoe"%string) 104 11 12 13 14 99
           eq_refl sample_sorted).
  - unfold INT_MAX. simpl. lia.
  - reflexivity.
  - reflexivity.
  - discriminate.
Defined.

(** C4.  For a type name the registry does not hold, a store call that
    succeeds (it registers the type on the way) is followed by a lookup of
    the same type and key that answers exactly the stored value. *)
Theorem store_then_lookup (d d' : katcp_dispatch) (s : katcp_shared) (blk : list slot)
    (ns : list string) (T k : string) (v : dataptr) (p f c cm pa : fnptr) :
  d_shared d = Some s -> sorted_registry s blk ns -> s_type_count s < INT_MAX ->
  T ∉ ns ->
  store_data_type_katcp (Some T) (Some k) v p f c cm pa d = Ok (Done 0, d') ->
  get_key_data_type_katcp (Some T) (Some k) d' = Ok (v, d').
Proof.
  intros Hd Hreg Hmax Habs Hstore.
  destruct (decide (grants 5 d)) as [Hall|Hnot].
  - destruct (store_new_type_grant d s blk ns T k v p f c cm pa Hd Hreg Hmax Habs Hall)
      as (low & s' & Hrun & Hlow & Hreg' & Hcount').
    rewrite Hrun in Hstore. injection Hstore as <-.
    assert (Hlowb : (low <= length blk)%nat).
    { destruct Hreg as (_ & Hn & _). rewrite (block_names_length _ _ Hn).
      apply lookup_lt_Some in Hlow. rewrite length_insert_at in Hlow. lia. }
    apply (get_key_data_found (with_shared d 5 s') s'
             (insert_at low (Some (set_tree (new_type T p f c cm pa) (Some [(k, v)]))) blk)
             (insert_at low T ns) low
             (set_tree (new_type T p f c cm pa) (Some [(k, v)])) T k [(k, v)] (k, v)).
    + reflexivity.
    + exact Hreg'.
    + unfold INT_MAX in *. lia.
    + apply lookup_insert_at. exact Hlowb.
    + reflexivity.
    + reflexivity.
    + simpl. rewrite strcmp_refl. reflexivity.
  - destruct (store_new_type_refused d s blk ns T k v p f c cm pa Hd Hreg Hmax Habs Hnot)
      as (d1 & Hfail).
    rewrite Hfail in Hstore. discriminate.
Qed.

Lemma store_then_lookup_witness :
  exists d',
    store_data_type_katcp (Some "ports"%string) (Some "uplink"%string) 301 1 2 3 4 5
      (sample_dispatch [Relocated]) = Ok (Done 0, d') /\
    get_key_data_type_katcp (Some "ports"%string) (Some "uplink"%string) d' = Ok (301, d').
Proof.
  eexists. split.
  - reflexivity.
  - apply (store_then_lookup (sample_dispatch [Relocated]) _ sample_shared sample_block
             sample_names "ports" "uplink" 301 1 2 3 4 5 eq_refl sample_sorted).
    + reflexivity.
    + intros Hin. repeat (apply elem_of_cons in Hin as [Hin|Hin]; [discriminate|]).
      apply elem_of_nil in Hin. exact Hin.
    + reflexivity.
Defined.

(** C5.  Deregistering the only type of a registry destroys the
    descriptor as it should (the free callback is offered every stored
    value, then the descriptor is released), but then asks [realloc] for a
    block of no bytes: the array is released, the answer is [NULL], and the
    call reports a failure and leaves the registry counting one type in a
    released array.  A search for any name afterwards reads released
    memory instead of answering a negative number. *)
Theorem deregister_last_type_dangles (d : katcp_dispatch) (t : katcp_type) (T : string) :
  d_shared d = Some {| s_type := Live [Some t]; s_type_count := 1 |} ->
  t_name t = Some T ->
  deregister_type_katcp (Some T) d =
    Ok (Failed AllocationError,
        {| d_shared := Some {| s_type := Dangling; s_type_count := 1 |};
           d_allocs := d_allocs d;
           d_events := d_events d
                       ++ destroy_avltree (entries_of t) (t_free t)
                       ++ [EvReleaseType (Some T)] |}) /\
  forall (name : string) (allocs : list alloc_outcome) (events : list event),
    find_name_id_type_katcp (Some name)
      {| d_shared := Some {| s_type := Dangling; s_type_count := 1 |};
         d_allocs := allocs; d_events := events |} = Stuck UseAfterFree.
Proof.
  intros Hd HT. split.
  - set (s := {| s_type := Live [Some t]; s_type_count := 1 |}) in *.
    assert (Hreg : sorted_registry s [Some t] [T]).
    { split; [|split].
      - split; [reflexivity|left; reflexivity].
      - constructor; [exact HT|constructor].
      - constructor; [constructor|constructor]. }
    rewrite (deregister_found d s [Some t] [T] 0 t T Hd Hreg
               ltac:(unfold INT_MAX; simpl; lia) eq_refl HT).
    rewrite deregister_shrink_last by reflexivity.
    unfold destroy_events. rewrite HT. reflexivity.
  - intros name allocs events. reflexivity.
Qed.

Lemma deregister_last_type_dangles_witness :
  deregister_type_katcp (Some "names"%string) (single_dispatch []) =
    Ok (Failed AllocationError,
        {| d_shared := Some {| s_type := Dangling; s_type_count := 1 |};
           d_allocs := [];
           d_events := [EvFree 12 101; EvFree 12 102; EvFree 12 103;
                        EvReleaseType (Some "names"%string)] |}) /\
  find_name_id_type_katcp (Some "names"%string)
    {| d_shared := Some {| s_type := Dangling; s_type_count := 1 |};
       d_allocs := [];
       d_events := [EvFree 12 101; EvFree 12 102; EvFree 12 103;
                    EvReleaseType (Some "names"%string)] |} = Stuck UseAfterFree.
Proof.
  destruct (deregister_last_type_dangles (single_dispatch [])
              (sample_type "names" [("adam", 101); ("john", 102); ("perry", 103)]%string)
              "names" eq_refl eq_refl) as [Hrun Hfind].
  split; [exact Hrun|apply Hfind].
Defined.

(** C6.  On a registry that holds a type named [name], registering that
    name again fails as a duplicate and leaves the dispatch state as it
    was: the same count, the same descriptors in the same order. *)
Theorem register_name_twice_rejected (d : katcp_dispatch) (s : katcp_shared)
    (blk : list slot) (ns : list string) (name : string)
    (fn_print fn_free fn_copy fn_compare fn_parse : fnptr) :
  d_shared d = Some s -> sorted_registry s blk ns -> s_type_count s <= INT_MAX ->
  name ∈ ns ->
  register_name_type_katcp (Some name) fn_print fn_free fn_copy fn_compare fn_parse d
    = Ok (Failed DuplicateNameError, d).
Proof. apply register_name_duplicate. Qed.

Lemma register_name_twice_rejected_witness :
  register_name_type_katcp (Some "test"%string) 0 0 0 0 0 (sample_dispatch [])
    = Ok (Failed DuplicateNameError, sample_dispatch []).
Proof.
  apply (register_name_twice_rejected (sample_dispatch []) sample_shared sample_block
           sample_names "test" 0 0 0 0 0 eq_refl sample_sorted).
  - unfold INT_MAX. simpl. lia.
  - apply (list_elem_of_lookup_2 _ 2%nat). reflexivity.
Defined.

(** C7 fails on the code.  With the registry holding "names", "string"
    and "test", a deregistration of "names" whose shrinking [realloc] is
    refused reports the failure after the descriptor was destroyed and the
    block shifted: the count is still 3 and the last two slots hold the
    same descriptor.  And a registration whose [realloc] moved the block
    and whose next request is refused returns with the registry pointing
    to the released block. *)
Theorem allocation_failure_damages_registry :
  deregister_type_katcp (Some "names"%string) (sample_dispatch [Refused]) =
    Ok (Failed AllocationError,
        {| d_shared :=
             Some {| s_type :=
                       Live [ Some (sample_type "string" [("test1", 201); ("test2", 202)]%string);
                              Some (sample_type "test" []);
                              Some (sample_type "test" []) ];
                     s_type_count := 3 |};
           d_allocs := [];
           d_events := [EvFree 12 101; EvFree 12 102; EvFree 12 103;
                        EvReleaseType (Some "names"%string)] |}) /\
  register_at_id_type_katcp 1 (Some "ports"%string) 1 2 3 4 5
      (sample_dispatch [Relocated; Refused]) =
    Ok (Failed AllocationError,
        {| d_shared := Some {| s_type := Dangling; s_type_count := 3 |};
           d_allocs := []; d_events := [] |}).
Proof. split; reflexivity. Qed.

(** C8, as amended.  [register_at_id_type_katcp] does not look at the
    name it is given.  With an empty name and a position that is not
    negative it succeeds whenever its four allocations are granted: it
    puts a descriptor named by the empty string in before position
    [min tid count], answers that position, and the count grows by one.
    Otherwise it fails with the allocation error. *)
Theorem register_at_empty_name (d : katcp_dispatch) (s : katcp_shared) (blk : list slot)
    (tid : Z) (fn_print fn_free fn_copy fn_compare fn_parse : fnptr) :
  d_shared d = Some s -> holds s blk -> Z.of_nat (length blk) < INT_MAX ->
  0 <= tid ->
  let k := Z.min tid (Z.of_nat (length blk)) in
  (grants 4 d ->
   register_at_id_type_katcp tid (Some EmptyString)
       fn_print fn_free fn_copy fn_compare fn_parse d =
     Ok (Done k,
         with_shared d 4
           {| s_type := Live (insert_at (Z.to_nat k)
                                (Some (new_type EmptyString
                                         fn_print fn_free fn_copy fn_compare fn_parse))
                                blk);
              s_type_count := Z.of_nat (length blk) + 1 |})) /\
  (~ grants 4 d ->
   exists d',
     register_at_id_type_katcp tid (Some EmptyString)
         fn_print fn_free fn_copy fn_compare fn_parse d =
       Ok (Failed AllocationError, d')).
Proof.
  intros Hd Hholds Hmax Htid k. split.
  - intros Hall. apply (register_at_grant d s blk); assumption.
  - intros Hnot. apply (register_at_refused d s blk); assumption.
Qed.

Lemma register_at_empty_name_witness :
  register_at_id_type_katcp 0 (Some EmptyString) 1 2 3 4 5 (sample_dispatch []) =
    Ok (Done 0,
        {| d_shared :=
             Some {| s_type := Live (Some (new_type EmptyString 1 2 3 4 5) :: sample_block);
                     s_type_count := 4 |};
           d_allocs := []; d_events := [] |}).
Proof.
  destruct (register_at_empty_name (sample_dispatch []) sample_shared sample_block
              0 1 2 3 4 5 eq_refl) as [Hok _].
  - split; [reflexivity|left; reflexivity].
  - unfold INT_MAX. simpl. lia.
  - lia.
  - apply Hok. unfold grants. simpl. constructor.
Defined.

(** C8 as stated fails: on the empty registry a registration at position 0
    under the empty name does not fail, and the registry then counts one
    descriptor. *)
Lemma register_at_empty_name_accepted :
  ~ (exists e d',
       register_at_id_type_katcp 0 (Some EmptyString) 0 0 0 0 0 (empty_dispatch [])
         = Ok (Failed e, d')) /\
  register_at_id_type_katcp 0 (Some EmptyString) 0 0 0 0 0 (empty_dispatch []) =
    Ok (Done 0,
        {| d_shared := Some {| s_type := Live [Some (new_type EmptyString 0 0 0 0 0)];
                               s_type_count := 1 |};
           d_allocs := []; d_events := [] |}).
Proof.
  split; [|reflexivity].
  intros (e & d' & H). discriminate H.
Qed.

(** C9, as amended.  A descriptor created by [register_at_id_type_katcp]
    or by [register_name_type_katcp] has its store from the start: when
    the registration returns a position, the descriptor at that position
    carries the given name and a present, empty ordered map. *)
Theorem registration_creates_store (d d' : katcp_dispatch) (s : katcp_shared)
    (blk : list slot) (ns : list string) (name : string) (pos : Z)
    (p f c cm pa : fnptr) :
  d_shared d = Some s -> sorted_registry s blk ns -> s_type_count s < INT_MAX ->
  (forall tid, 0 <= tid ->
     register_at_id_type_katcp tid (Some name) p f c cm pa d = Ok (Done pos, d') ->
     exists s' blk' t,
       d_shared d' = Some s' /\ s_type s' = Live blk' /\
       blk' !! Z.to_nat pos = Some (Some t) /\
       t_name t = Some name /\ t_tree t = Some []) /\
  (register_name_type_katcp (Some name) p f c cm pa d = Ok (Done pos, d') ->
     exists s' blk' t,
       d_shared d' = Some s' /\ s_type s' = Live blk' /\
       blk' !! Z.to_nat pos = Some (Some t) /\
       t_name t = Some name /\ t_tree t = Some []).
Proof.
  intros Hd Hreg Hmax.
  pose proof Hreg as ([Hcount Hts] & Hnames & Hsorted).
  rewrite Hcount in Hmax.
  split.
  - intros tid Htid Hrun.
    destruct (decide (grants 4 d)) as [Hall|Hnot].
    + rewrite (register_at_grant d s blk tid name p f c cm pa Hd (conj Hcount Hts)
                 Hmax Htid Hall) in Hrun.
      injection Hrun as <- <-.
      eexists. eexists. exists (new_type name p f c cm pa).
      split; [reflexivity|]. split; [reflexivity|].
      split; [|split; reflexivity].
      assert (Hk : (Z.to_nat (tid `min` Z.of_nat (length blk)) <= length blk)%nat) by lia.
      exact (lookup_insert_at _ _ blk Hk).
    + destruct (register_at_refused d s blk tid name p f c cm pa Hd (conj Hcount Hts)
                  Hmax Hnot) as (d1 & Hfail).
      rewrite Hfail in Hrun. discriminate.
  - intros Hrun.
    destruct (in_dec string_dec name ns) as [Hin|Habs];
      rewrite <- list_elem_of_In in *.
    { rewrite (register_name_duplicate d s blk ns name p f c cm pa Hd Hreg) in Hrun;
        [discriminate|rewrite Hcount; lia|exact Hin]. }
    destruct (decide (grants 4 d)) as [Hall|Hnot].
    + destruct (register_name_grant d s blk ns name p f c cm pa Hd Hreg) as
        (low & s' & (Hlow & _) & Hrun' & _ & Hreg'); [rewrite Hcount; lia|assumption..|].
      rewrite Hrun' in Hrun. injection Hrun as <- <-.
      destruct Hreg' as ([_ Hts'] & _).
      exists s'. eexists. exists (new_type name p f c cm pa).
      split; [reflexivity|].
      split.
      { destruct Hts' as [H|[_ H]]; [exact H|].
        exfalso. apply (f_equal length) in H. rewrite length_insert_at in H. discriminate. }
      split; [|split; reflexivity].
      rewrite Nat2Z.id.
      assert (Hk : (low <= length blk)%nat)
        by (rewrite (block_names_length _ _ Hnames); exact Hlow).
      exact (lookup_insert_at _ _ blk Hk).
    + destruct (register_name_refused d s blk ns name p f c cm pa Hd Hreg) as (d1 & Hfail);
        [rewrite Hcount; lia|assumption..|].
      rewrite Hfail in Hrun. discriminate.
Qed.

Lemma registration_creates_store_witness :
  exists s' blk' t,
    d_shared (with_shared (empty_dispatch []) 4
                {| s_type := Live [Some (new_type "x" 0 0 0 0 0)]; s_type_count := 1 |})
      = Some s' /\
    s_type s' = Live blk' /\
    blk' !! Z.to_nat 0 = Some (Some t) /\
    t_name t = Some "x"%string /\ t_tree t = Some [].
Proof.
  destruct (registration_creates_store (empty_dispatch [])
              (with_shared (empty_dispatch []) 4
                 {| s_type := Live [Some (new_type "x" 0 0 0 0 0)]; s_type_count := 1 |})
              empty_shared [] [] "x" 0 0 0 0 0 0 eq_refl empty_sorted)
    as [_ Hname].
  - reflexivity.
  - apply Hname. reflexivity.
Defined.

(** C9 as stated fails: right after the registration of "x" on the empty
    registry, before any store call, the new descriptor's store handle is
    not null. *)
Lemma registration_store_not_null :
  ~ (forall d' s' t,
       register_name_type_katcp (Some "x"%string) 0 0 0 0 0 (empty_dispatch [])
         = Ok (Done 0, d') ->
       d_shared d' = Some s' -> s_type s' = Live [Some t] ->
       t_tree t = None).
Proof.
  intros H.
  specialize (H _ _ (new_type "x" 0 0 0 0 0) eq_refl eq_refl eq_refl).
  discriminate H.
Qed.

(** C10, as amended.  On a type the registry holds, a store call for a
    key the type's store already contains, made with the type's own
    callback set and with the node allocation granted, fails with the
    duplicate-key error after releasing the supplied value through the
    supplied free callback (a set one); the registry is unchanged.  Made
    with a callback set that differs from the type's, the call fails at
    the comparison and the value is not released. *)
Theorem store_duplicate_key_releases_value (d : katcp_dispatch) (s : katcp_shared)
    (blk : list slot) (ns : list string) (i : nat) (t : katcp_type) (T k : string)
    (v : dataptr) (p f c cm pa : fnptr) (tr : avl_tree) (e : avl_node) :
  d_shared d = Some s -> sorted_registry s blk ns -> s_type_count s <= INT_MAX ->
  blk !! i = Some (Some t) -> t_name t = Some T ->
  t_tree t = Some tr -> find_name_node_avltree tr k = Some e ->
  (callbacks_of t = (p, f, c, cm, pa) ->
   hd Granted (d_allocs d) <> Refused -> f <> NULL ->
   store_data_type_katcp (Some T) (Some k) v p f c cm pa d =
     Ok (Failed DuplicateKeyError,
         {| d_shared := d_shared d; d_allocs := tl (d_allocs d);
            d_events := d_events d ++ [EvFree f v] |})) /\
  (callbacks_of t <> (p, f, c, cm, pa) ->
   store_data_type_katcp (Some T) (Some k) v p f c cm pa d =
     Ok (Failed CallbackMismatchError,
         {| d_shared := d_shared d; d_allocs := d_allocs d;
            d_events := d_events d
                        ++ [EvLog (LogCallbacksDontMatch (Some k) (Some T))] |})).
Proof.
  intros Hd Hreg Hmax Hi HT Htree Hfind.
  rewrite (store_existing d s blk ns i t T (Some k) v p f c cm pa Hd Hreg Hmax Hi HT).
  split.
  - intros Hcb Hgrant Hf. unfold store_in_type.
    apply same_callbacks_spec in Hcb. rewrite Hcb, Htree. simpl.
    rewrite bind_ret.
    rewrite (bind_ok _ _ _ _ _ (create_node_avltree_grant k v d Hgrant)).
    unfold add_node_avltree. simpl. rewrite Hfind.
    unfold free_node_avltree. simpl.
    destruct (Z.eqb_spec f NULL); [contradiction|]. reflexivity.
  - apply store_in_type_mismatch.
Qed.

Lemma store_duplicate_key_releases_value_witness :
  store_data_type_katcp (Some "names"%string) (Some "john"%string) 999 11 12 13 14 15
    (sample_dispatch []) =
  Ok (Failed DuplicateKeyError,
      {| d_shared := Some sample_shared; d_allocs := []; d_events := [EvFree 12 999] |}).
Proof.
  destruct (store_duplicate_key_releases_value (sample_dispatch []) sample_shared
              sample_block sample_names 0
              (sample_type "names" [("adam", 101); ("john", 102); ("perry", 103)]%string)
              "names" "john" 999 11 12 13 14 15
              [("adam", 101); ("john", 102); ("perry", 103)]%string ("john"%string, 102)
              eq_refl sample_sorted) as [Hdup _].
  - unfold INT_MAX. simpl. lia.
  - reflexivity.
  - reflexivity.
  - reflexivity.
  - reflexivity.
  - apply Hdup; [reflexivity|discriminate|discriminate].
Defined.

(** C10 as stated fails: the store of "names" holds the key "john", yet a
    store call for that key whose print callback differs from the type's
    fails without the value being handed to the free callback. *)
Lemma store_duplicate_key_mismatch_keeps_value :
  find_name_node_avltree
    (entries_of (sample_type "names" [("adam", 101); ("john", 102); ("perry", 103)]%string))
    "john" = Some ("john"%string, 102) /\
  ~ (forall r d',
       store_data_type_katcp (Some "names"%string) (Some "john"%string) 999
         99 12 13 14 15 (sample_dispatch []) = Ok (r, d') ->
       EvFree 12 999 ∈ d_events d').
Proof.
  split; [reflexivity|].
  intros H.
  specialize (H (Failed CallbackMismatchError)
                {| d_shared := Some sample_shared; d_allocs := [];
                   d_events := [EvLog (LogCallbacksDontMatch (Some "john"%string)
                                                            (Some "names"%string))] |}
                eq_refl).
  simpl in H. apply list_elem_of_singleton in H. discriminate.
Qed.
(** * Further properties of ktype.c *)

(** ** Access by index and by name *)

Lemma get_id_type_at (d : katcp_dispatch) (s : katcp_shared) (blk : list slot)
    (i : nat) (sl : slot) :
  d_shared d = Some s -> holds s blk -> blk !! i = Some sl ->
  get_id_type_katcp (Z.of_nat i) d = Ok (sl, d).
Proof.
  intros Hd [Hcount Hts] Hi. unfold get_id_type_katcp.
  rewrite (bind_ok _ _ _ _ _ (get_shared_ok d s Hd)).
  assert (Hlt : (i < length blk)%nat) by exact (lookup_lt_Some _ _ _ Hi).
  destruct (Z.geb_spec (Z.of_nat i) (s_type_count s)); [lia|].
  rewrite (holds_lookup_live s blk i sl (conj Hcount Hts) Hi).
  apply lift_ok, read_slot_live. exact Hi.
Qed.

(** X1.  [get_id_type_katcp] answers NULL for every index from the count
    up, and the slot at the index for an index inside the array; it has no
    lower bound test, so a negative index is read outside the array. *)
Theorem get_id_type_bounds (d : katcp_dispatch) (s : katcp_shared) (blk : list slot) :
  d_shared d = Some s -> holds s blk ->
  (forall id, s_type_count s <= id -> get_id_type_katcp id d = Ok (None, d)) /\
  (forall (i : nat) sl, blk !! i = Some sl ->
     get_id_type_katcp (Z.of_nat i) d = Ok (sl, d)) /\
  (forall id, id < 0 -> exists f, get_id_type_katcp id d = Stuck f).
Proof.
  intros Hd [Hcount Hts]. unfold get_id_type_katcp.
  split; [|split].
  - intros id Hid. rewrite (bind_ok _ _ _ _ _ (get_shared_ok d s Hd)).
    destruct (Z.geb_spec id (s_type_count s)); [reflexivity|lia].
  - intros i sl Hi. fold (get_id_type_katcp (Z.of_nat i)).
    exact (get_id_type_at d s blk i sl Hd (conj Hcount Hts) Hi).
  - intros id Hid. rewrite (bind_ok _ _ _ _ _ (get_shared_ok d s Hd)).
    destruct (Z.geb_spec id (s_type_count s)); [lia|].
    destruct Hts as [->|[-> _]]; unfold lift, read_slot; simpl.
    + unfold array_get. destruct (Z.ltb_spec id 0); [|lia]. eexists. reflexivity.
    + eexists. reflexivity.
Qed.

Lemma get_id_type_bounds_witness :
  get_id_type_katcp 3 (sample_dispatch []) = Ok (None, sample_dispatch []) /\
  get_id_type_katcp 2 (sample_dispatch []) =
    Ok (Some (sample_type "test" []), sample_dispatch []) /\
  exists f, get_id_type_katcp (-1) (sample_dispatch []) = Stuck f.
Proof.
  destruct (get_id_type_bounds (sample_dispatch []) sample_shared sample_block eq_refl)
    as (Hhigh & Hin & Hneg).
  - split; [reflexivity|left; reflexivity].
  - split; [apply Hhigh; simpl; lia|].
    split; [exact (Hin 2%nat _ eq_refl)|apply Hneg; lia].
Defined.

(** The search loop on any block of named descriptors, sorted or not. *)
Lemma bsearch_loop_sound (blk : list slot) (ns : list string) (str : string) :
  block_names blk ns -> Z.of_nat (length blk) < INT_MAX ->
  forall (fuel : nat) (low high : Z),
    0 <= low -> high < Z.of_nat (length blk) -> low <= high + 1 ->
    high - low + 1 <= Z.of_nat fuel ->
    exists r, bsearch_loop fuel (Live blk) str low high = Ok r /\
      ((0 <= r /\ ns !! Z.to_nat r = Some str) \/
       (- (Z.of_nat (length blk) + 1) <= r <= -1)).
Proof.
  intros Hnames Hmax.
  pose proof (block_names_length _ _ Hnames) as Hlen.
  unfold INT_MAX in Hmax.
  induction fuel as [|fuel IH]; intros low high Hlow Hhigh Hlh Hfuel.
  - simpl. destruct (Z.leb_spec low high); [lia|].
    rewrite int_add_ok by int_range. simpl. rewrite int_mul_ok by int_range.
    eexists; split; [reflexivity|]. right. lia.
  - simpl. destruct (Z.leb_spec low high) as [Hle|Hgt].
    + assert (Hq : 0 <= Z.quot (high - low) 2 <= high - low).
      { split; [apply Z.quot_pos; lia|].
        rewrite Z.quot_div_nonneg by lia. apply Z.div_le_upper_bound; lia. }
      rewrite int_sub_ok by int_range. simpl.
      rewrite int_div_ok by int_range. simpl.
      rewrite int_add_ok by int_range. simpl.
      set (mid := low + Z.quot (high - low) 2) in *.
      assert (Hmid : low <= mid <= high) by (unfold mid; lia).
      destruct (lookup_lt_is_Some_2 ns (Z.to_nat mid)) as [n Hn]; [lia|].
      destruct (block_names_lookup _ _ _ _ Hnames Hn) as (t & Ht & Htn).
      unfold read_slot. simpl.
      rewrite (array_get_ok blk mid t) by (lia || assumption). simpl.
      rewrite (name_of_slot_named t n Htn). simpl.
      destruct (strcmp str n) eqn:Hcmp.
      * apply strcmp_eq in Hcmp. subst n.
        eexists; split; [reflexivity|]. left. split; [lia|assumption].
      * rewrite int_sub_ok by int_range. simpl. apply IH; lia.
      * rewrite int_add_ok by int_range. simpl. apply IH; lia.
    + rewrite int_add_ok by int_range. simpl. rewrite int_mul_ok by int_range.
      eexists; split; [reflexivity|]. right. lia.
Qed.

(** X2.  Whatever the order of the descriptors, the binary search ends
    without a fault, an answer that is not negative is the index of a
    descriptor carrying the searched name, and a negative answer lies
    between [-(count + 1)] and [-1]: the search never names a wrong type. *)
Theorem binary_search_hit_is_genuine (s : katcp_shared) (blk : list slot)
    (ns : list string) (str : string) :
  holds s blk -> block_names blk ns -> s_type_count s < INT_MAX ->
  exists r,
    binary_search_type_list_katcp (s_type s) (s_type_count s) (Some str) = Ok r /\
    ((0 <= r /\ ns !! Z.to_nat r = Some str) \/
     (- (s_type_count s + 1) <= r <= -1)).
Proof.
  intros [Hcount Hts] Hnames Hmax. rewrite Hcount in *.
  unfold binary_search_type_list_katcp.
  destruct (is_null_array (s_type s) || (Z.of_nat (length blk) =? 0)) eqn:Hempty.
  - exists (-1). split; [reflexivity|]. right. lia.
  - apply orb_false_iff in Hempty as [Hnull Hnz].
    destruct Hts as [Hts|[Hts _]]; rewrite Hts in *; [|discriminate].
    apply Z.eqb_neq in Hnz. unfold INT_MAX in Hmax.
    rewrite int_sub_ok by int_range. simpl.
    apply (bsearch_loop_sound blk ns str Hnames); unfold INT_MAX; lia.
Qed.

Lemma binary_search_hit_is_genuine_witness :
  exists r,
    binary_search_type_list_katcp
      (Live [Some (sample_type "test" []); Some (sample_type "names" [])]) 2
      (Some "test"%string) = Ok r /\
    ((0 <= r /\ ["test"; "names"]%string !! Z.to_nat r = Some "test"%string) \/
     (- (2 + 1) <= r <= -1)).
Proof.
  apply (binary_search_hit_is_genuine
           {| s_type := Live [Some (sample_type "test" []); Some (sample_type "names" [])];
              s_type_count := 2 |}
           [Some (sample_type "test" []); Some (sample_type "names" [])]
           ["test"; "names"]%string "test").
  - split; [reflexivity|left; reflexivity].
  - repeat constructor.
  - reflexivity.
Defined.

(** A held name is found at its index, with its descriptor. *)
Lemma find_name_hit (d : katcp_dispatch) (s : katcp_shared) (blk : list slot)
    (ns : list string) (n : string) (i : nat) (sl : slot) :
  d_shared d = Some s -> sorted_registry s blk ns -> s_type_count s <= INT_MAX ->
  blk !! i = Some sl -> ns !! i = Some n ->
  find_name_id_type_katcp (Some n) d = Ok (Z.of_nat i, d) /\
  find_name_type_katcp (Some n) d = Ok (sl, d).
Proof.
  intros Hd Hreg Hmax Hi Hn. pose proof Hreg as (Hholds & _).
  assert (Hid : find_name_id_type_katcp (Some n) d = Ok (Z.of_nat i, d)).
  { unfold find_name_id_type_katcp.
    rewrite (bind_ok _ _ _ _ _ (get_shared_ok d s Hd)).
    apply lift_ok. apply (search_hit s blk ns n i Hreg); assumption. }
  split; [exact Hid|].
  unfold find_name_type_katcp. rewrite (bind_ok _ _ _ _ _ Hid).
  destruct (Z.ltb_spec (Z.of_nat i) 0); [lia|].
  rewrite (bind_ok _ _ _ _ _ (get_shared_ok d s Hd)).
  rewrite (holds_lookup_live s blk i sl Hholds Hi).
  apply lift_ok, read_slot_live. exact Hi.
Qed.

(** X3.  On a sorted registry a name is found by [find_name_type_katcp]
    exactly when the registry holds it: for a held name the answer is its
    descriptor, at the index [find_name_id_type_katcp] gives, and
    [get_id_type_katcp] at that index answers the same descriptor; for any
    other name the answer is NULL and the only effect is one error log
    line. *)
Theorem find_name_type_agrees (d : katcp_dispatch) (s : katcp_shared) (blk : list slot)
    (ns : list string) (n : string) :
  d_shared d = Some s -> sorted_registry s blk ns -> s_type_count s < INT_MAX ->
  (forall (i : nat) sl, blk !! i = Some sl -> ns !! i = Some n ->
     find_name_id_type_katcp (Some n) d = Ok (Z.of_nat i, d) /\
     find_name_type_katcp (Some n) d = Ok (sl, d) /\
     get_id_type_katcp (Z.of_nat i) d = Ok (sl, d)) /\
  (n ∉ ns ->
     find_name_type_katcp (Some n) d =
       Ok (None, {| d_shared := d_shared d; d_allocs := d_allocs d;
                    d_events := d_events d ++ [EvLog LogTypeNotDefined] |})).
Proof.
  intros Hd Hreg Hmax. pose proof Hreg as (Hholds & _). split.
  - intros i sl Hi Hn.
    destruct (find_name_hit d s blk ns n i sl Hd Hreg ltac:(lia) Hi Hn) as [Hid Hty].
    split; [exact Hid|]. split; [exact Hty|].
    exact (get_id_type_at d s blk i sl Hd Hholds Hi).
  - intros Habs.
    destruct (search_miss s blk ns n Hreg Hmax Habs) as (low & Hr & _).
    unfold find_name_type_katcp, find_name_id_type_katcp.
    rewrite bind_bind.
    rewrite (bind_ok _ _ _ _ _ (get_shared_ok d s Hd)).
    rewrite (bind_ok _ _ d d _ (lift_ok _ _ d Hr)).
    destruct (Z.ltb_spec (- (Z.of_nat low + 1)) 0); [reflexivity|lia].
Qed.

Lemma find_name_type_agrees_witness :
  find_name_type_katcp (Some "string"%string) (sample_dispatch []) =
    Ok (Some (sample_type "string" [("test1", 201); ("test2", 202)]%string),
        sample_dispatch []) /\
  find_name_type_katcp (Some "ports"%string) (sample_dispatch []) =
    Ok (None, {| d_shared := Some sample_shared; d_allocs := [];
                 d_events := [EvLog LogTypeNotDefined] |}).
Proof.
  destruct (find_name_type_agrees (sample_dispatch []) sample_shared sample_block
              sample_names "string" eq_refl sample_sorted ltac:(reflexivity))
    as (Hhit & _).
  destruct (find_name_type_agrees (sample_dispatch []) sample_shared sample_block
              sample_names "ports" eq_refl sample_sorted ltac:(reflexivity))
    as (_ & Hmiss).
  split.
  - exact (proj1 (proj2 (Hhit 1%nat _ eq_refl eq_refl))).
  - apply Hmiss. intros Hin.
    repeat (apply elem_of_cons in Hin as [Hin|Hin]; [discriminate|]).
    apply elem_of_nil in Hin. exact Hin.
Defined.

(** ** Registration and deregistration keep the other types *)

Lemma lookup_insert_at_lt {A : Type} (k i : nat) (x : A) (l : list A) :
  (i < k)%nat -> (k <= length l)%nat -> insert_at k x l !! i = l !! i.
Proof.
  intros Hi Hk. unfold insert_at.
  rewrite lookup_app_l by (rewrite length_take; lia).
  apply lookup_take_lt. exact Hi.
Qed.

Lemma lookup_insert_at_ge {A : Type} (k i : nat) (x : A) (l : list A) :
  (k <= i)%nat -> (k <= length l)%nat -> insert_at k x l !! (S i) = l !! i.
Proof.
  intros Hi Hk. unfold insert_at.
  rewrite lookup_app_r by (rewrite length_take; lia).
  rewrite length_take. replace (S i - k `min` length l)%nat with (S (i - k)) by lia.
  simpl. rewrite lookup_drop. f_equal. lia.
Qed.

Lemma delete_insert_at {A : Type} (k : nat) (x : A) (l : list A) :
  (k <= length l)%nat -> delete k (insert_at k x l) = l.
Proof.
  intros Hk. unfold insert_at.
  replace k with (length (take k l)) at 1 by (rewrite length_take; lia).
  rewrite delete_middle. apply take_drop.
Qed.

(** What a registration by name that answers a position has done. *)
Lemma register_name_done (d d' : katcp_dispatch) (s : katcp_shared) (blk : list slot)
    (ns : list string) (name : string) (pos : Z) (p f c cm pa : fnptr) :
  d_shared d = Some s -> sorted_registry s blk ns -> s_type_count s < INT_MAX ->
  register_name_type_katcp (Some name) p f c cm pa d = Ok (Done pos, d') ->
  exists (low : nat) (s' : katcp_shared),
    (name ∉ ns) /\ (low <= length blk)%nat /\ pos = Z.of_nat low /\
    d' = with_shared d 4 s' /\ s_type_count s' = s_type_count s + 1 /\
    sorted_registry s'
      (insert_at low (Some (new_type name p f c cm pa)) blk) (insert_at low name ns).
Proof.
  intros Hd Hreg Hmax Hrun.
  pose proof Hreg as ([Hcount _] & Hnames & _).
  destruct (in_dec string_dec name ns) as [Hin|Habs]; rewrite <- list_elem_of_In in *.
  { rewrite (register_name_duplicate d s blk ns name p f c cm pa Hd Hreg) in Hrun;
      [discriminate|lia|exact Hin]. }
  destruct (decide (grants 4 d)) as [Hall|Hnot].
  - destruct (register_name_grant d s blk ns name p f c cm pa Hd Hreg Hmax Habs Hall)
      as (low & s' & (Hlow & _) & Hrun' & Hcount' & Hreg').
    rewrite Hrun' in Hrun. injection Hrun as <- <-.
    exists low, s'. repeat split; try assumption; try reflexivity; try apply Hreg'.
    rewrite (block_names_length _ _ Hnames). exact Hlow.
  - destruct (register_name_refused d s blk ns name p f c cm pa Hd Hreg Hmax Habs Hnot)
      as (d1 & Hfail).
    rewrite Hfail in Hrun. discriminate.
Qed.

(** X4.  A registration by name that succeeds keeps every type the
    registry held: each is still found under its name, with the descriptor
    it had; the index of a type that sorts before the new name is
    unchanged and the index of a type that sorts after it has grown by
    one.  The new name is found at the position the call returned. *)
Theorem register_name_keeps_types (d d' : katcp_dispatch) (s : katcp_shared)
    (blk : list slot) (ns : list string) (name : string) (pos : Z)
    (p f c cm pa : fnptr) :
  d_shared d = Some s -> sorted_registry s blk ns -> s_type_count s < INT_MAX ->
  register_name_type_katcp (Some name) p f c cm pa d = Ok (Done pos, d') ->
  find_name_id_type_katcp (Some name) d' = Ok (pos, d') /\
  forall (i : nat) sl n, blk !! i = Some sl -> ns !! i = Some n ->
    find_name_id_type_katcp (Some n) d'
      = Ok ((if Z.of_nat i <? pos then Z.of_nat i else Z.of_nat i + 1), d') /\
    find_name_type_katcp (Some n) d' = Ok (sl, d').
Proof.
  intros Hd Hreg Hmax Hrun.
  destruct (register_name_done d d' s blk ns name pos p f c cm pa Hd Hreg Hmax Hrun)
    as (low & s' & Habs & Hlow & -> & -> & Hcount' & Hreg').
  pose proof Hreg as (_ & Hnames & _).
  pose proof (block_names_length _ _ Hnames) as Hlen.
  assert (Hmax' : s_type_count s' <= INT_MAX) by (unfold INT_MAX in *; lia).
  split.
  - apply (find_name_hit (with_shared d 4 s') s' _ _ name low
             (Some (new_type name p f c cm pa)) eq_refl Hreg' Hmax').
    + apply lookup_insert_at. exact Hlow.
    + apply lookup_insert_at. lia.
  - intros i sl n Hi Hn.
    destruct (Z.ltb_spec (Z.of_nat i) (Z.of_nat low)) as [Hlt|Hge].
    + apply (find_name_hit (with_shared d 4 s') s' _ _ n i sl eq_refl Hreg' Hmax').
      * rewrite lookup_insert_at_lt by lia. exact Hi.
      * rewrite lookup_insert_at_lt by lia. exact Hn.
    + replace (Z.of_nat i + 1) with (Z.of_nat (S i)) by lia.
      apply (find_name_hit (with_shared d 4 s') s' _ _ n (S i) sl eq_refl Hreg' Hmax').
      * rewrite lookup_insert_at_ge by lia. exact Hi.
      * rewrite lookup_insert_at_ge by lia. exact Hn.
Qed.

Lemma register_name_keeps_types_witness :
  exists d',
    register_name_type_katcp (Some "ports"%string) 1 2 3 4 5 (sample_dispatch [])
      = Ok (Done 1, d') /\
    find_name_id_type_katcp (Some "names"%string) d' = Ok (0, d') /\
    find_name_id_type_katcp (Some "test"%string) d' = Ok (3, d').
Proof.
  eexists. split; [vm_compute; reflexivity|].
  destruct (register_name_keeps_types (sample_dispatch []) _ sample_shared sample_block
              sample_names "ports" 1 1 2 3 4 5 eq_refl sample_sorted
              ltac:(reflexivity) eq_refl) as [_ Hold].
  split.
  - exact (proj1 (Hold 0%nat _ "names"%string eq_refl eq_refl)).
  - exact (proj1 (Hold 2%nat _ "test"%string eq_refl eq_refl)).
Defined.

(** The outcomes of a deregistration of a held type: of the only type, of
    one among several when the smaller block is refused, and of one among
    several when it is granted. *)
Lemma deregister_held (d : katcp_dispatch) (s : katcp_shared) (blk : list slot)
    (ns : list string) (i : nat) (t : katcp_type) (T : string) :
  d_shared d = Some s -> sorted_registry s blk ns -> s_type_count s <= INT_MAX ->
  blk !! i = Some (Some t) -> t_name t = Some T ->
  deregister_type_katcp (Some T) d =
    if decide (length blk = 1%nat)
    then Ok (Failed AllocationError,
             {| d_shared := Some {| s_type := Dangling; s_type_count := 1 |};
                d_allocs := d_allocs d;
                d_events := d_events d ++ destroy_events t |})
    else if decide (hd Granted (d_allocs d) = Refused)
    then Ok (Failed AllocationError,
             {| d_shared := Some {| s_type := Live (shifted_down i blk);
                                    s_type_count := s_type_count s |};
                d_allocs := tl (d_allocs d);
                d_events := d_events d ++ destroy_events t |})
    else Ok (Done 0,
             {| d_shared := Some {| s_type := Live (delete i blk);
                                    s_type_count := s_type_count s - 1 |};
                d_allocs := tl (d_allocs d);
                d_events := d_events d ++ destroy_events t |}).
Proof.
  intros Hd Hreg Hmax Hi HT.
  pose proof Hreg as ([Hcount Hts] & _).
  assert (Hlt : (i < length blk)%nat) by exact (lookup_lt_Some _ _ _ Hi).
  rewrite (deregister_found d s blk ns i t T Hd Hreg Hmax Hi HT).
  rewrite Hcount in *.
  pose proof (length_shifted_down i blk Hlt) as Hlen'.
  destruct (decide (length blk = 1%nat)) as [Hone|Hmore].
  - rewrite Hone. simpl Z.of_nat.
    rewrite deregister_shrink_last by reflexivity. reflexivity.
  - rewrite <- Hlen'.
    destruct (decide (hd Granted (d_allocs d) = Refused)) as [Hrefused|Hgrant].
    + rewrite deregister_shrink_refused; [|lia|exact Hrefused]. reflexivity.
    + rewrite (deregister_shrink_grant _ (delete i blk));
        [|lia|exact Hgrant|rewrite Hlen'; apply resize_shifted_down; exact Hlt].
      reflexivity.
Qed.

Lemma named_slot (sl : slot) (n : string) :
  slot_name sl = Some n -> exists t, sl = Some t /\ t_name t = Some n.
Proof. destruct sl as [t|]; simpl; [eauto|discriminate]. Qed.

Lemma deregister_absent (d : katcp_dispatch) (s : katcp_shared) (blk : list slot)
    (ns : list string) (T : string) :
  d_shared d = Some s -> sorted_registry s blk ns -> s_type_count s < INT_MAX ->
  T ∉ ns -> deregister_type_katcp (Some T) d = Ok (Failed NotFoundError, d).
Proof.
  intros Hd Hreg Hmax Habs.
  destruct (search_miss s blk ns T Hreg Hmax Habs) as (low & Hr & _).
  unfold deregister_type_katcp.
  rewrite (bind_ok _ _ _ _ _ (get_shared_ok d s Hd)).
  rewrite (bind_ok _ _ d d _ (lift_ok _ _ d Hr)).
  destruct (Z.ltb_spec (- (Z.of_nat low + 1)) 0); [reflexivity|lia].
Qed.

Lemma sorted_registry_delete (s : katcp_shared) (blk : list slot) (ns : list string)
    (i : nat) :
  sorted_registry s blk ns -> (i < length blk)%nat ->
  sorted_registry {| s_type := Live (delete i blk); s_type_count := s_type_count s - 1 |}
    (delete i blk) (delete i ns).
Proof.
  intros ([Hcount _] & Hnames & Hsorted) Hlt. split; [|split].
  - split; [|left; reflexivity]. simpl.
    rewrite length_delete by (apply lookup_lt_is_Some_2; exact Hlt). lia.
  - apply Forall2_delete. exact Hnames.
  - apply sorted_delete. exact Hsorted.
Qed.

(** What a deregistration that answers 0 has done. *)
Lemma deregister_done (d d' : katcp_dispatch) (s : katcp_shared) (blk : list slot)
    (ns : list string) (T : string) (v : Z) :
  d_shared d = Some s -> sorted_registry s blk ns -> s_type_count s < INT_MAX ->
  deregister_type_katcp (Some T) d = Ok (Done v, d') ->
  exists (i : nat) (t : katcp_type),
    blk !! i = Some (Some t) /\ ns !! i = Some T /\ t_name t = Some T /\ v = 0 /\
    d' = {| d_shared := Some {| s_type := Live (delete i blk);
                                s_type_count := s_type_count s - 1 |};
            d_allocs := tl (d_allocs d);
            d_events := d_events d ++ destroy_events t |}.
Proof.
  intros Hd Hreg Hmax Hrun.
  pose proof Hreg as (_ & Hnames & _).
  destruct (in_dec string_dec T ns) as [Hin|Habs]; rewrite <- list_elem_of_In in *.
  - apply list_elem_of_lookup in Hin as [i Hn].
    destruct (block_names_lookup _ _ _ _ Hnames Hn) as (sl & Hi & Hsl).
    destruct (named_slot sl T Hsl) as (t & -> & HT).
    rewrite (deregister_held d s blk ns i t T Hd Hreg ltac:(lia) Hi HT) in Hrun.
    destruct (decide (length blk = 1%nat)); [discriminate|].
    destruct (decide (hd Granted (d_allocs d) = Refused)); [discriminate|].
    injection Hrun as <- <-. exists i, t. repeat split; assumption.
  - rewrite (deregister_absent d s blk ns T Hd Hreg Hmax Habs) in Hrun. discriminate.
Qed.

(** X5.  Deregistering a name the registry does not hold, or a null name,
    fails and leaves the dispatch state exactly as it was: nothing is
    destroyed and nothing is asked of the allocator. *)
Theorem deregister_unknown_name (d : katcp_dispatch) (s : katcp_shared) (blk : list slot)
    (ns : list string) (T : string) :
  d_shared d = Some s -> sorted_registry s blk ns -> s_type_count s < INT_MAX ->
  (T ∉ ns -> deregister_type_katcp (Some T) d = Ok (Failed NotFoundError, d)) /\
  deregister_type_katcp None d = Ok (Failed NotFoundError, d).
Proof.
  intros Hd Hreg Hmax. split.
  - apply (deregister_absent d s blk ns T Hd Hreg Hmax).
  - unfold deregister_type_katcp.
    rewrite (bind_ok _ _ _ _ _ (get_shared_ok d s Hd)). reflexivity.
Qed.

Lemma deregister_unknown_name_witness :
  deregister_type_katcp (Some "ports"%string) (sample_dispatch [Refused])
    = Ok (Failed NotFoundError, sample_dispatch [Refused]).
Proof.
  destruct (deregister_unknown_name (sample_dispatch [Refused]) sample_shared sample_block
              sample_names "ports" eq_refl sample_sorted ltac:(reflexivity)) as [Habs _].
  apply Habs. intros Hin.
  repeat (apply elem_of_cons in Hin as [Hin|Hin]; [discriminate|]).
  apply elem_of_nil in Hin. exact Hin.
Defined.

(** X6.  A deregistration that succeeds removes the one descriptor and
    keeps every other type: each is still found under its name, with the
    descriptor it had, at its old index when it sorts before the removed
    name and one lower when it sorts after; the removed name is no longer
    found, and the count is one less. *)
Theorem deregister_keeps_types (d d' : katcp_dispatch) (s : katcp_shared)
    (blk : list slot) (ns : list string) (T : string) (v : Z) :
  d_shared d = Some s -> sorted_registry s blk ns -> s_type_count s < INT_MAX ->
  deregister_type_katcp (Some T) d = Ok (Done v, d') ->
  exists (k : nat) (s' : katcp_shared),
    ns !! k = Some T /\ d_shared d' = Some s' /\
    s_type_count s' = s_type_count s - 1 /\
    (exists r, find_name_id_type_katcp (Some T) d' = Ok (r, d') /\ r < 0) /\
    forall (i : nat) sl n, blk !! i = Some sl -> ns !! i = Some n -> i <> k ->
      find_name_id_type_katcp (Some n) d'
        = Ok ((if (i <? k)%nat then Z.of_nat i else Z.of_nat i - 1), d') /\
      find_name_type_katcp (Some n) d' = Ok (sl, d').
Proof.
  intros Hd Hreg Hmax Hrun.
  destruct (deregister_done d d' s blk ns T v Hd Hreg Hmax Hrun)
    as (k & t & Hk & Hn & HT & -> & ->).
  assert (Hlt : (k < length blk)%nat) by exact (lookup_lt_Some _ _ _ Hk).
  pose proof (sorted_registry_delete s blk ns k Hreg Hlt) as Hreg'.
  pose proof Hreg as (_ & _ & Hsorted).
  set (s' := {| s_type := Live (delete k blk); s_type_count := s_type_count s - 1 |}) in *.
  assert (Hmax' : s_type_count s' < INT_MAX) by (simpl; lia).
  set (d1 := {| d_shared := Some s'; d_allocs := tl (d_allocs d);
                d_events := d_events d ++ destroy_events t |}) in *.
  exists k, s'. split; [exact Hn|]. split; [reflexivity|]. split; [reflexivity|].
  split.
  - destruct (search_miss s' _ _ T Hreg' Hmax') as (low & Hr & _).
    { apply sorted_delete_absent; assumption. }
    exists (- (Z.of_nat low + 1)). split; [|lia].
    unfold find_name_id_type_katcp, bind, get_shared. simpl d_shared.
    apply lift_ok. exact Hr.
  - intros i sl n Hi Hni Hne.
    destruct (Nat.ltb_spec i k) as [Hik|Hik].
    + apply (find_name_hit d1 s' (delete k blk) (delete k ns) n i sl eq_refl Hreg');
        [lia|rewrite list_lookup_delete_lt by lia; assumption..].
    + destruct i as [|i]; [lia|].
      replace (Z.of_nat (S i) - 1) with (Z.of_nat i) by lia.
      apply (find_name_hit d1 s' (delete k blk) (delete k ns) n i sl eq_refl Hreg');
        [lia|rewrite list_lookup_delete_ge by lia; assumption..].
Qed.

Lemma deregister_keeps_types_witness :
  exists d',
    deregister_type_katcp (Some "names"%string) (sample_dispatch []) = Ok (Done 0, d') /\
    find_name_id_type_katcp (Some "test"%string) d' = Ok (1, d').
Proof.
  eexists. split; [vm_compute; reflexivity|].
  destruct (deregister_keeps_types (sample_dispatch []) _ sample_shared sample_block
              sample_names "names" 0 eq_refl sample_sorted ltac:(reflexivity) eq_refl)
    as (k & s' & Hk & _ & _ & _ & Hold).
  assert (k = 0%nat) as ->.
  { destruct k as [|[|[|k]]]; [reflexivity|discriminate..]. }
  exact (proj1 (Hold 2%nat _ "test"%string eq_refl eq_refl ltac:(discriminate))).
Defined.

(** X7.  Registering a new name and deregistering it at once.  On a
    registry that holds other types this gives the registry back: the same
    descriptors in the same order and the same count; the only effect left
    is the release of the new descriptor, and no free callback is called,
    its store being empty.  On an empty registry the deregistration asks
    for a block of no bytes: the array is released, the call reports a
    failure, and the registry is left counting one type in a released
    array, so that the next search reads released memory. *)
Theorem register_then_deregister (d : katcp_dispatch) (s : katcp_shared) (blk : list slot)
    (ns : list string) (name : string) (p f c cm pa : fnptr) :
  d_shared d = Some s -> sorted_registry s blk ns -> s_type_count s < INT_MAX ->
  name ∉ ns -> grants 5 d ->
  exists pos d1,
    register_name_type_katcp (Some name) p f c cm pa d = Ok (Done pos, d1) /\
    (blk <> [] ->
     deregister_type_katcp (Some name) d1 =
       Ok (Done 0,
           {| d_shared := Some {| s_type := Live blk; s_type_count := s_type_count s |};
              d_allocs := drop 5 (d_allocs d);
              d_events := d_events d ++ [EvReleaseType (Some name)] |})) /\
    (blk = [] ->
     exists d2,
       deregister_type_katcp (Some name) d1 = Ok (Failed AllocationError, d2) /\
       d2 = {| d_shared := Some {| s_type := Dangling; s_type_count := 1 |};
               d_allocs := drop 4 (d_allocs d);
               d_events := d_events d ++ [EvReleaseType (Some name)] |} /\
       forall other, find_name_id_type_katcp (Some other) d2 = Stuck UseAfterFree).
Proof.
  intros Hd Hreg Hmax Habs Hall.
  apply grants_split in Hall as [H4 H5].
  destruct (register_name_grant d s blk ns name p f c cm pa Hd Hreg Hmax Habs H4)
    as (low & s' & (Hlow & _) & Hrun & Hcount' & Hreg').
  pose proof Hreg as (_ & Hnames & _).
  assert (Hlowb : (low <= length blk)%nat)
    by (rewrite (block_names_length _ _ Hnames); exact Hlow).
  exists (Z.of_nat low), (with_shared d 4 s'). split; [exact Hrun|].
  rewrite (deregister_held (with_shared d 4 s') s' _ _ low (new_type name p f c cm pa) name
             eq_refl Hreg');
    [|unfold INT_MAX in *; lia|apply lookup_insert_at; exact Hlowb|reflexivity].
  simpl d_allocs. simpl d_events. split.
  - intros Hne.
    destruct (decide (_ = 1%nat)) as [Hone|_].
    { rewrite length_insert_at in Hone.
      destruct blk; [contradiction|discriminate]. }
    destruct (decide (hd Granted (drop 4 (d_allocs d)) = Refused)); [contradiction|].
    rewrite delete_insert_at by exact Hlowb.
    rewrite Hcount', tl_drop. unfold destroy_events. simpl.
    repeat f_equal. lia.
  - intros ->.
    destruct (decide (_ = 1%nat)) as [_|Hmore].
    2:{ rewrite length_insert_at in Hmore. contradiction. }
    eexists. split; [reflexivity|]. split; [reflexivity|].
    intros other. reflexivity.
Qed.

Lemma register_then_deregister_witness :
  (exists pos d1,
     register_name_type_katcp (Some "ports"%string) 1 2 3 4 5 (sample_dispatch [])
       = Ok (Done pos, d1) /\
     deregister_type_katcp (Some "ports"%string) d1 =
       Ok (Done 0,
           {| d_shared := Some sample_shared; d_allocs := [];
              d_events := [EvReleaseType (Some "ports"%string)] |})) /\
  (exists pos d1,
     register_name_type_katcp (Some "ports"%string) 1 2 3 4 5 (empty_dispatch [])
       = Ok (Done pos, d1) /\
     deregister_type_katcp (Some "ports"%string) d1 =
       Ok (Failed AllocationError,
           {| d_shared := Some {| s_type := Dangling; s_type_count := 1 |};
              d_allocs := [];
              d_events := [EvReleaseType (Some "ports"%string)] |})).
Proof.
  split.
  - destruct (register_then_deregister (sample_dispatch []) sample_shared sample_block
                sample_names "ports" 1 2 3 4 5 eq_refl sample_sorted)
      as (pos & d1 & Hrun & Hback & _).
    + reflexivity.
    + intros Hin. repeat (apply elem_of_cons in Hin as [Hin|Hin]; [discriminate|]).
      apply elem_of_nil in Hin. exact Hin.
    + unfold grants. simpl. constructor.
    + exists pos, d1. split; [exact Hrun|]. apply Hback. discriminate.
  - destruct (register_then_deregister (empty_dispatch []) empty_shared [] []
                "ports" 1 2 3 4 5 eq_refl)
      as (pos & d1 & Hrun & _ & Hlost).
    + split; [|split].
      * split; [reflexivity|right; split; reflexivity].
      * constructor.
      * constructor.
    + reflexivity.
    + intros Hin. apply elem_of_nil in Hin. exact Hin.
    + unfold grants. simpl. constructor.
    + destruct (Hlost eq_refl) as (d2 & Hd2 & -> & _).
      exists pos, d1. split; [exact Hrun|exact Hd2].
Defined.

(** X8.  On a registry of two types or more, when the shrinking [realloc]
    is refused, a deregistration of a held type reports the allocation
    failure with the descriptor already destroyed: its entries are freed
    and it is released, the count is unchanged, and the array holds the
    other descriptors moved down, followed by one slot left over.  That
    slot is null when the removed descriptor was the last; otherwise it
    still holds the pointer that was moved into the slot before it, so the
    last descriptor is reachable from two slots. *)
Theorem deregister_refused_shrink (d : katcp_dispatch) (s : katcp_shared)
    (blk : list slot) (ns : list string) (i : nat) (t : katcp_type) (T : string) :
  d_shared d = Some s -> sorted_registry s blk ns -> s_type_count s <= INT_MAX ->
  blk !! i = Some (Some t) -> t_name t = Some T ->
  (2 <= length blk)%nat ->
  hd Granted (d_allocs d) = Refused ->
  exists blk' : list slot,
    deregister_type_katcp (Some T) d =
      Ok (Failed AllocationError,
          {| d_shared := Some {| s_type := Live blk'; s_type_count := s_type_count s |};
             d_allocs := tl (d_allocs d);
             d_events := d_events d ++ destroy_avltree (entries_of t) (t_free t)
                         ++ [EvReleaseType (Some T)] |}) /\
    length blk' = length blk /\
    take (length blk - 1) blk' = delete i blk /\
    blk' !! (length blk - 1)%nat =
      (if decide (i = length blk - 1)%nat then Some None
       else blk' !! (length blk - 2)%nat).
Proof.
  intros Hd Hreg Hmax Hi HT Hlen Hrefused.
  assert (Hlt : (i < length blk)%nat) by exact (lookup_lt_Some _ _ _ Hi).
  assert (Hdel : length (delete i blk) = (length blk - 1)%nat).
  { rewrite length_delete by (apply lookup_lt_is_Some_2; exact Hlt). reflexivity. }
  exists (shifted_down i blk).
  rewrite (deregister_held d s blk ns i t T Hd Hreg Hmax Hi HT).
  destruct (decide (length blk = 1%nat)); [lia|].
  destruct (decide (hd Granted (d_allocs d) = Refused)); [|contradiction].
  split; [unfold destroy_events; rewrite HT; reflexivity|].
  split; [apply length_shifted_down; exact Hlt|].
  unfold shifted_down. split.
  - rewrite take_app_length' by (symmetry; exact Hdel). reflexivity.
  - unfold slot in *.
    rewrite (list_lookup_middle (delete i blk) [] _ (length blk - 1))
      by (symmetry; exact Hdel).
    destruct (decide (i = length blk - 1)%nat) as [->|Hne].
    + rewrite drop_ge by lia. reflexivity.
    + rewrite lookup_app_l by lia.
      rewrite list_lookup_delete_ge by lia.
      replace (S (length blk - 2)) with (length blk - 1)%nat by lia.
      rewrite last_lookup, length_drop, lookup_drop.
      replace (S i + pred (length blk - S i))%nat with (length blk - 1)%nat by lia.
      destruct (lookup_lt_is_Some_2 blk (length blk - 1)%nat ltac:(lia)) as [x Hx].
      rewrite Hx. reflexivity.
Qed.

Lemma deregister_refused_shrink_witness :
  exists blk' : list slot,
    deregister_type_katcp (Some "names"%string) (sample_dispatch [Refused]) =
      Ok (Failed AllocationError,
          {| d_shared := Some {| s_type := Live blk'; s_type_count := 3 |};
             d_allocs := [];
             d_events := [EvFree 12 101; EvFree 12 102; EvFree 12 103;
                          EvReleaseType (Some "names"%string)] |}) /\
    take 2 blk' = drop 1 sample_block /\
    blk' !! 2%nat = blk' !! 1%nat.
Proof.
  destruct (deregister_refused_shrink (sample_dispatch [Refused]) sample_shared sample_block
              sample_names 0
              (sample_type "names" [("adam", 101); ("john", 102); ("perry", 103)]%string)
              "names" eq_refl sample_sorted)
    as (blk' & Hrun & _ & Htake & Hlast).
  - unfold INT_MAX. simpl. lia.
  - reflexivity.
  - reflexivity.
  - simpl. lia.
  - reflexivity.
  - exists blk'. split; [exact Hrun|]. split; [exact Htake|exact Hlast].
Defined.

(** X31. On a registry of two types or more, deregistering a held type
    whose free callback is set calls that callback once on every stored
    value, as many calls as the store has entries, and only then releases
    the descriptor, whether or not the smaller array is granted; when it
    is granted the call answers 0 and a search for the name afterwards
    answers a negative number. *)
Theorem deregister_frees_entries (d : katcp_dispatch) (s : katcp_shared) (blk : list slot)
    (ns : list string) (i : nat) (t : katcp_type) (T : string) :
  d_shared d = Some s -> sorted_registry s blk ns -> s_type_count s <= INT_MAX ->
  blk !! i = Some (Some t) -> t_name t = Some T -> t_free t <> NULL ->
  (2 <= length blk)%nat ->
  exists r d',
    deregister_type_katcp (Some T) d = Ok (r, d') /\
    d_events d' = d_events d
                  ++ map (fun e => EvFree (t_free t) (snd e)) (entries_of t)
                  ++ [EvReleaseType (Some T)] /\
    (hd Granted (d_allocs d) <> Refused ->
       r = Done 0 /\
       exists pos, find_name_id_type_katcp (Some T) d' = Ok (pos, d') /\ pos < 0).
Proof.
  intros Hd Hreg Hmax Hi HT Hfree Htwo.
  pose proof Hreg as ([Hcount Hts] & Hnames & Hsorted).
  assert (Hlt : (i < length blk)%nat) by exact (lookup_lt_Some _ _ _ Hi).
  pose proof (block_names_lookup_l blk ns i t T Hnames Hi HT) as Hn.
  assert (Hev : destroy_events t =
                map (fun e => EvFree (t_free t) (snd e)) (entries_of t)
                ++ [EvReleaseType (Some T)]).
  { unfold destroy_events. rewrite (destroy_avltree_set _ _ Hfree), HT. reflexivity. }
  rewrite (deregister_held d s blk ns i t T Hd Hreg Hmax Hi HT).
  destruct (decide (length blk = 1%nat)); [lia|].
  destruct (decide (hd Granted (d_allocs d) = Refused)) as [Hrefused|Hgrant].
  - eexists. eexists. split; [reflexivity|]. split; [simpl; rewrite Hev; reflexivity|].
    intros Hc. contradiction.
  - eexists. eexists. split; [reflexivity|]. split; [simpl; rewrite Hev; reflexivity|].
    intros _. split; [reflexivity|].
    pose proof (sorted_registry_delete s blk ns i Hreg Hlt) as Hreg'.
    destruct (search_miss _ (delete i blk) (delete i ns) T Hreg') as (low & Hr & _).
    + simpl. unfold INT_MAX in *. lia.
    + apply sorted_delete_absent; assumption.
    + exists (- (Z.of_nat low + 1)). split; [|lia].
      unfold find_name_id_type_katcp, bind, get_shared. simpl d_shared.
      apply lift_ok. exact Hr.
Qed.

Lemma deregister_frees_entries_witness :
  exists d',
    deregister_type_katcp (Some "names"%string) (sample_dispatch []) = Ok (Done 0, d') /\
    d_events d' = [EvFree 12 101; EvFree 12 102; EvFree 12 103;
                   EvReleaseType (Some "names"%string)] /\
    exists pos, find_name_id_type_katcp (Some "names"%string) d' = Ok (pos, d') /\ pos < 0.
Proof.
  destruct (deregister_frees_entries (sample_dispatch []) sample_shared sample_block
              sample_names 0
              (sample_type "names" [("adam", 101); ("john", 102); ("perry", 103)]%string)
              "names" eq_refl sample_sorted)
    as (r & d' & Hrun & Hev & Hok).
  - unfold INT_MAX. simpl. lia.
  - reflexivity.
  - reflexivity.
  - discriminate.
  - simpl. lia.
  - destruct Hok as (-> & Hfind); [discriminate|].
    exists d'. split; [exact Hrun|]. split; [exact Hev|exact Hfind].
Defined.

(** ** Failing and misplaced registrations *)

Lemma realloc_grant_shared (s : katcp_shared) (blk : list slot) (n : Z)
    (d : katcp_dispatch) :
  d_shared d = Some s -> holds s blk -> 0 < n ->
  hd Granted (d_allocs d) <> Refused ->
  realloc (s_type s) n d =
    Ok (Some (resize (Z.to_nat n) None blk),
        {| d_shared := Some (shared_after_realloc s (hd Granted (d_allocs d)));
           d_allocs := tl (d_allocs d); d_events := d_events d |}).
Proof.
  intros Hd [_ Hts] Hn Hgrant. unfold realloc, shared_after_realloc.
  destruct (Z.ltb_spec n 0); [lia|].
  destruct (Z.eqb_spec n 0); [lia|]. simpl andb.
  destruct Hts as [Hts|[Hts ->]]; rewrite Hts;
    unfold bind, next_alloc; destruct (hd Granted (d_allocs d)) eqn:Ho;
    try congruence; unfold ret, block_released, bind, get_shared, set_shared;
    simpl; rewrite ?Ho, ?Hd, ?Hts; simpl; rewrite <- ?Hd; try reflexivity;
    destruct s; simpl in *; subst; rewrite ?Ho; reflexivity.
Qed.

(** X9.  A registration at a position that fails on an allocation leaves
    the registry as it was, unless its [realloc] had moved a live block:
    then the new pointer is never stored, the registry is left pointing to
    the released block, and every later search in it is a use after
    free. *)
Theorem register_at_failure_state (d : katcp_dispatch) (s : katcp_shared)
    (blk : list slot) (tid : Z) (name : string) (p f c cm pa : fnptr) :
  d_shared d = Some s -> holds s blk -> Z.of_nat (length blk) < INT_MAX ->
  ~ grants 4 d ->
  exists d',
    register_at_id_type_katcp tid (Some name) p f c cm pa d
      = Ok (Failed AllocationError, d') /\
    (hd Granted (d_allocs d) <> Relocated \/ s_type s = NullPtr ->
       d_shared d' = Some s) /\
    (hd Granted (d_allocs d) = Relocated -> s_type s = Live blk ->
       d_shared d' = Some {| s_type := Dangling; s_type_count := s_type_count s |} /\
       (blk <> [] -> forall n,
          find_name_id_type_katcp (Some n) d' = Stuck UseAfterFree)).
Proof.
  intros Hd [Hcount Hts] Hmax Hnot. unfold INT_MAX in Hmax.
  assert (Hshape : forall d' : katcp_dispatch,
    d_shared d' = Some (shared_after_realloc s (hd Granted (d_allocs d))) ->
    (hd Granted (d_allocs d) <> Relocated \/ s_type s = NullPtr ->
       d_shared d' = Some s) /\
    (hd Granted (d_allocs d) = Relocated -> s_type s = Live blk ->
       d_shared d' = Some {| s_type := Dangling; s_type_count := s_type_count s |} /\
       (blk <> [] -> forall n,
          find_name_id_type_katcp (Some n) d' = Stuck UseAfterFree))).
  { intros d' Hd'. unfold shared_after_realloc in Hd'. split.
    - intros [Ho|Hnull]; rewrite Hd'.
      + destruct (hd Granted (d_allocs d)); try congruence; reflexivity.
      + rewrite Hnull. destruct (hd Granted (d_allocs d)); reflexivity.
    - intros Ho Hlive. rewrite Ho, Hlive in Hd'. split; [exact Hd'|].
      intros Hne n. unfold find_name_id_type_katcp.
      rewrite (bind_ok _ _ _ _ _ (get_shared_ok d' _ Hd')).
      unfold lift, binary_search_type_list_katcp. simpl.
      rewrite Hcount.
      destruct (Z.eqb_spec (Z.of_nat (length blk)) 0) as [E|E].
      { destruct blk; [congruence|simpl in E; lia]. }
      rewrite int_sub_ok by int_range. simpl.
      destruct (Z.to_nat (Z.of_nat (length blk))) eqn:Hfuel; [lia|].
      simpl. destruct (Z.leb_spec 0 (Z.of_nat (length blk) - 1)); [|lia].
      rewrite int_sub_ok by int_range. simpl.
      assert (Hq : 0 <= Z.quot (Z.of_nat (length blk) - 1 - 0) 2
                   <= Z.of_nat (length blk) - 1).
      { split; [apply Z.quot_pos; lia|].
        rewrite Z.quot_div_nonneg by lia. apply Z.div_le_upper_bound; lia. }
      rewrite int_div_ok by int_range. simpl.
      rewrite int_add_ok by int_range. reflexivity. }
  unfold register_at_id_type_katcp.
  rewrite (bind_ok _ _ _ _ _ (get_shared_ok d s Hd)).
  rewrite Hcount. rewrite Hcount in Hshape.
  rewrite (bind_ok _ _ d d (Z.of_nat (length blk) + 1))
    by (apply lift_ok, int_add_ok; int_range).
  destruct (decide (hd Granted (d_allocs d) = Refused)) as [H1|H1].
  { rewrite (bind_ok _ _ _ _ _ (realloc_refused (s_type s) (Z.of_nat (length blk) + 1) d
               (holds_not_dangling s blk (conj Hcount Hts)) ltac:(lia) H1)).
    eexists. split; [reflexivity|]. split.
    - intros _. exact Hd.
    - intros Ho. congruence. }
  rewrite (bind_ok _ _ _ _ _ (realloc_grant_shared s blk (Z.of_nat (length blk) + 1) d
             Hd (conj Hcount Hts) ltac:(lia) H1)).
  set (d1 := {| d_shared := Some (shared_after_realloc s (hd Granted (d_allocs d)));
                d_allocs := tl (d_allocs d); d_events := d_events d |}).
  replace (Z.to_nat (Z.of_nat (length blk) + 1)) with (length blk + 1)%nat by lia.
  rewrite resize_add_eq by reflexivity. simpl replicate.
  rewrite (bind_ok _ _ d1 d1 (blk ++ [None])).
  2:{ apply lift_ok. rewrite array_set_ok by (rewrite length_snoc; lia).
      f_equal. rewrite Nat2Z.id. apply insert_snoc. }
  destruct (decide (hd Granted (d_allocs d1) = Refused)) as [H2|H2].
  { rewrite (bind_ok _ _ _ _ _ (create_type_katcp_refused d1 H2)).
    eexists. split; [reflexivity|].
    match goal with |- (_ -> d_shared ?x = _) /\ _ => apply (Hshape x) end. reflexivity. }
  rewrite (bind_ok _ _ _ _ _ (create_type_katcp_grant d1 H2)).
  destruct (decide (hd Granted (d_allocs (pop d1)) = Refused)) as [H3|H3].
  { rewrite (bind_ok _ _ _ _ _ (strdup_refused name (pop d1) H3)).
    eexists. split; [reflexivity|].
    match goal with |- (_ -> d_shared ?x = _) /\ _ => apply (Hshape x) end. reflexivity. }
  rewrite (bind_ok _ _ _ _ _ (strdup_grant name (pop d1) H3)).
  destruct (decide (hd Granted (d_allocs (pop (pop d1))) = Refused)) as [H4|H4].
  { rewrite (bind_ok _ _ _ _ _ (create_avltree_refused (pop (pop d1)) H4)).
    eexists. split; [reflexivity|].
    match goal with |- (_ -> d_shared ?x = _) /\ _ => apply (Hshape x) end. reflexivity. }
  exfalso. apply Hnot.
  apply (grants_cons 3 d d1 H1 eq_refl).
  apply (grants_cons 2 d1 (pop d1) H2 eq_refl).
  apply (grants_cons 1 (pop d1) (pop (pop d1)) H3 eq_refl).
  apply (grants_cons 0 (pop (pop d1)) (pop (pop (pop d1))) H4 eq_refl).
  apply grants_0.
Qed.

Lemma register_at_failure_state_witness :
  exists d',
    register_at_id_type_katcp 1 (Some "ports"%string) 1 2 3 4 5
      (sample_dispatch [Relocated; Granted; Refused])
      = Ok (Failed AllocationError, d') /\
    d_shared d' = Some {| s_type := Dangling; s_type_count := 3 |} /\
    find_name_id_type_katcp (Some "test"%string) d' = Stuck UseAfterFree.
Proof.
  destruct (register_at_failure_state (sample_dispatch [Relocated; Granted; Refused])
              sample_shared sample_block 1 "ports" 1 2 3 4 5 eq_refl
              (proj1 sample_sorted) ltac:(vm_compute; reflexivity)
              ltac:(intros H; exact (Forall_lookup_1 _ _ 2%nat Refused H eq_refl eq_refl)))
    as (d' & Hrun & _ & Hdamage).
  destruct (Hdamage eq_refl eq_refl) as [Hs Hfind].
  exists d'. split; [exact Hrun|]. split; [exact Hs|].
  apply Hfind. discriminate.
Defined.

Lemma bind_stuck {A B : Type} (c : M A) (k : A -> M B) (d : katcp_dispatch) (f : fault) :
  c d = Stuck f -> bind c k d = Stuck f.
Proof. intros H. unfold bind. rewrite H. reflexivity. Qed.

Lemma shift_up_negative (fuel : nat) :
  forall (ts : list slot) (i tid : Z),
    tid < 0 -> 0 <= i < Z.of_nat (length ts) -> i <= INT_MAX ->
    (Z.to_nat i < fuel)%nat ->
    shift_up fuel ts i tid = Stuck OutOfBounds.
Proof.
  induction fuel as [|fuel IH]; intros ts i tid Htid Hi Hmax Hfuel; [lia|].
  unfold INT_MAX in Hmax. simpl.
  destruct (Z.gtb_spec i tid); [|lia].
  rewrite int_sub_ok by int_range. simpl.
  destruct (Z.eq_dec i 0) as [->|Hne]; [reflexivity|].
  destruct (lookup_lt_is_Some_2 ts (Z.to_nat (i - 1)) ltac:(lia)) as [x Hx].
  rewrite (array_get_ok ts (i - 1) x ltac:(lia) Hx). simpl.
  rewrite array_set_ok by lia. simpl.
  apply IH; [lia| |unfold INT_MAX; lia|lia].
  rewrite length_insert. lia.
Qed.

(** X10. [register_at_id_type_katcp] takes any [tid]: the copy loop
    [for (i = size; i > tid; i--) ts[i] = ts[i-1]] only stops at [tid].  With
    a negative [tid] it runs below the array and reads [ts[-1]]; with a
    [tid] at or above the count it does not run at all, the descriptor is
    appended, and the value returned is the count, not [tid]. *)
Theorem register_at_id_outside_range (d : katcp_dispatch) (s : katcp_shared)
    (blk : list slot) (tid : Z) (name : string) (p f c cm pa : fnptr) :
  d_shared d = Some s -> holds s blk -> Z.of_nat (length blk) < INT_MAX ->
  grants 4 d ->
  (tid < 0 ->
     register_at_id_type_katcp tid (Some name) p f c cm pa d = Stuck OutOfBounds) /\
  (Z.of_nat (length blk) <= tid ->
     register_at_id_type_katcp tid (Some name) p f c cm pa d =
       Ok (Done (Z.of_nat (length blk)),
           with_shared d 4
             {| s_type := Live (blk ++ [Some (new_type name p f c cm pa)]);
                s_type_count := Z.of_nat (length blk) + 1 |})).
Proof.
  intros Hd Hholds Hmax Hall. split.
  - intros Htid. destruct Hholds as [Hcount Hts]. unfold INT_MAX in Hmax.
    unfold register_at_id_type_katcp.
    rewrite (bind_ok _ _ _ _ _ (get_shared_ok d s Hd)).
    rewrite Hcount.
    rewrite (bind_ok _ _ d d (Z.of_nat (length blk) + 1))
      by (apply lift_ok, int_add_ok; int_range).
    destruct (realloc_grant (s_type s) blk (Z.of_nat (length blk) + 1) d Hts ltac:(lia)
                (grants_hd _ d Hall)) as (d1 & Hre & Ha1 & He1).
    rewrite (bind_ok _ _ d d1 _ Hre).
    replace (Z.to_nat (Z.of_nat (length blk) + 1)) with (length blk + 1)%nat by lia.
    rewrite resize_add_eq by reflexivity. simpl replicate.
    pose proof (grants_tl _ d d1 Hall Ha1) as Hall1.
    rewrite (bind_ok _ _ d1 d1 (blk ++ [None])).
    2:{ apply lift_ok. rewrite array_set_ok by (rewrite length_snoc; lia).
        f_equal. rewrite Nat2Z.id. apply insert_snoc. }
    rewrite (bind_ok _ _ d1 (pop d1) _ (create_type_katcp_grant d1 (grants_hd _ d1 Hall1))).
    pose proof (grants_tl _ d1 (pop d1) Hall1 eq_refl) as Hall2.
    rewrite (bind_ok _ _ _ _ _ (strdup_grant name (pop d1) (grants_hd _ _ Hall2))).
    pose proof (grants_tl _ (pop d1) (pop (pop d1)) Hall2 eq_refl) as Hall3.
    rewrite (bind_ok _ _ _ _ _ (create_avltree_grant (pop (pop d1)) (grants_hd _ _ Hall3))).
    apply bind_stuck. unfold lift.
    rewrite shift_up_negative; [reflexivity|exact Htid| |unfold INT_MAX; lia|lia].
    rewrite length_snoc. lia.
  - intros Htid.
    pose proof (register_at_grant d s blk tid name p f c cm pa Hd Hholds Hmax
                  ltac:(lia) Hall) as Hrun.
    cbv zeta in Hrun. rewrite Z.min_r in Hrun by exact Htid.
    rewrite Nat2Z.id in Hrun. unfold insert_at in Hrun.
    rewrite take_ge, drop_ge in Hrun by reflexivity. exact Hrun.
Qed.

Lemma register_at_id_outside_range_witness :
  register_at_id_type_katcp (-1) (Some "ports"%string) 1 2 3 4 5 (sample_dispatch [])
    = Stuck OutOfBounds /\
  register_at_id_type_katcp 7 (Some "ports"%string) 1 2 3 4 5 (sample_dispatch [])
    = Ok (Done 3,
          with_shared (sample_dispatch []) 4
            {| s_type := Live (sample_block ++ [Some (new_type "ports" 1 2 3 4 5)]);
               s_type_count := 4 |}).
Proof.
  split.
  - apply (register_at_id_outside_range (sample_dispatch []) sample_shared sample_block
             (-1) "ports" 1 2 3 4 5 eq_refl (proj1 sample_sorted)
             ltac:(vm_compute; reflexivity) ltac:(vm_compute; constructor)); lia.
  - apply (register_at_id_outside_range (sample_dispatch []) sample_shared sample_block
             7 "ports" 1 2 3 4 5 eq_refl (proj1 sample_sorted)
             ltac:(vm_compute; reflexivity) ltac:(vm_compute; constructor)); simpl; lia.
Defined.

(** ** Teardown *)

Lemma add_events_nil (d : katcp_dispatch) : add_events d [] = d.
Proof. destruct d. unfold add_events. simpl. rewrite app_nil_r. reflexivity. Qed.

Lemma add_events_app (d : katcp_dispatch) (e1 e2 : list event) :
  add_events (add_events d e1) e2 = add_events d (e1 ++ e2).
Proof. unfold add_events. simpl. rewrite app_assoc. reflexivity. Qed.

Lemma destroy_trees_spec (rest : list slot) :
  forall (done : list slot) (fuel : nat) (i size : Z) (d : katcp_dispatch),
    stocked rest -> i = Z.of_nat (length done) ->
    size = Z.of_nat (length done + length rest) -> size <= INT_MAX ->
    (length rest <= fuel)%nat ->
    destroy_trees fuel (done ++ rest) i size d =
      Ok (done ++ map without_tree rest, add_events d (flat_map tree_events rest)).
Proof.
  induction rest as [|x rest IH]; intros done fuel i size d Hst Hi Hsize Hmax Hfuel.
  - simpl in *. rewrite add_events_nil.
    destruct fuel; simpl; destruct (Z.ltb_spec i size); try lia; reflexivity.
  - simpl in Hsize, Hfuel. destruct fuel as [|fuel]; [lia|].
    apply Forall_cons in Hst as [(t & tr & -> & Htr) Hst].
    unfold INT_MAX in Hmax. simpl destroy_trees.
    destruct (Z.ltb_spec i size); [|lia].
    rewrite (bind_ok _ _ d d (Some t)).
    2:{ apply lift_ok, array_get_ok; [lia|]. subst i. rewrite Nat2Z.id.
        apply list_lookup_middle. reflexivity. }
    rewrite bind_bind. unfold destroy_tree_of. rewrite Htr.
    set (d1 := add_events d (destroy_avltree tr (t_free t))).
    rewrite (bind_ok _ _ d d1 tt) by reflexivity.
    rewrite (bind_ok _ _ d1 d1 (done ++ Some (set_tree t None) :: rest)).
    2:{ apply lift_ok. rewrite array_set_ok by (rewrite length_app; simpl; lia).
        f_equal. subst i. rewrite Nat2Z.id.
        rewrite insert_app_r_alt by lia. rewrite Nat.sub_diag. reflexivity. }
    rewrite (bind_ok _ _ d1 d1 (i + 1)) by (apply lift_ok, int_add_ok; int_range).
    rewrite (cons_middle _ done rest), app_assoc.
    etransitivity.
    { apply (IH (done ++ [Some (set_tree t None)]) fuel (i + 1) size d1 Hst).
      - rewrite length_snoc. lia.
      - rewrite length_snoc. lia.
      - unfold INT_MAX. lia.
      - lia. }
    subst d1. rewrite add_events_app. simpl. rewrite <- app_assoc. simpl.
    unfold entries_of. rewrite Htr. reflexivity.
Qed.

Lemma destroy_types_spec (rest : list slot) :
  forall (done : list slot) (fuel : nat) (i size : Z) (d : katcp_dispatch),
    i = Z.of_nat (length done) ->
    size = Z.of_nat (length done + length rest) -> size <= INT_MAX ->
    (length rest <= fuel)%nat ->
    destroy_types fuel (done ++ map without_tree rest) i size d =
      Ok (tt, add_events d (flat_map release_events rest)).
Proof.
  induction rest as [|x rest IH]; intros done fuel i size d Hi Hsize Hmax Hfuel.
  - simpl in *. rewrite add_events_nil.
    destruct fuel; simpl; destruct (Z.ltb_spec i size); try lia; reflexivity.
  - simpl in Hsize, Hfuel. destruct fuel as [|fuel]; [lia|].
    unfold INT_MAX in Hmax. simpl destroy_types.
    destruct (Z.ltb_spec i size); [|lia].
    rewrite (bind_ok _ _ d d (without_tree x)).
    2:{ apply lift_ok, array_get_ok; [lia|]. subst i. rewrite Nat2Z.id.
        apply list_lookup_middle. reflexivity. }
    set (d1 := add_events d (release_events x)).
    rewrite (bind_ok _ _ d d1 tt).
    2:{ subst d1. destruct x as [t|]; simpl.
        - reflexivity.
        - rewrite add_events_nil. reflexivity. }
    rewrite (bind_ok _ _ d1 d1 (i + 1)) by (apply lift_ok, int_add_ok; int_range).
    simpl map. rewrite (cons_middle _ done (map without_tree rest)), app_assoc.
    etransitivity.
    { apply (IH (done ++ [without_tree x]) fuel (i + 1) size d1).
      - rewrite length_snoc. lia.
      - rewrite length_snoc. lia.
      - unfold INT_MAX. lia.
      - lia. }
    subst d1. rewrite add_events_app. reflexivity.
Qed.

Lemma teardown_live (d : katcp_dispatch) (s : katcp_shared) (blk : list slot) :
  d_shared d = Some s -> s_type s = Live blk ->
  s_type_count s = Z.of_nat (length blk) -> s_type_count s <= INT_MAX ->
  stocked blk ->
  destroy_type_list_katcp d =
    Ok (tt, {| d_shared := Some empty_shared; d_allocs := d_allocs d;
               d_events := d_events d ++ teardown_events blk |}).
Proof.
  intros Hd Hts Hcount Hmax Hst. unfold destroy_type_list_katcp.
  rewrite (bind_ok _ _ _ _ _ (get_shared_ok d s Hd)).
  rewrite Hts. cbv iota.
  rewrite (bind_ok _ _ d d blk) by reflexivity.
  rewrite Hcount, Nat2Z.id.
  rewrite (bind_ok _ _ _ _ _
             (destroy_trees_spec blk [] (length blk) 0 (Z.of_nat (length blk)) d Hst
                eq_refl eq_refl ltac:(rewrite <- Hcount; exact Hmax) (le_n _))).
  rewrite (bind_ok _ _ _ _ _
             (destroy_types_spec blk [] (length blk) 0 (Z.of_nat (length blk)) _
                eq_refl eq_refl ltac:(rewrite <- Hcount; exact Hmax) (le_n _))).
  unfold set_shared, add_events, teardown_events. simpl.
  rewrite <- app_assoc. reflexivity.
Qed.

Lemma teardown_sorted (d : katcp_dispatch) (s : katcp_shared)
    (blk : list slot) (ns : list string) :
  d_shared d = Some s -> sorted_registry s blk ns -> stocked blk ->
  s_type_count s <= INT_MAX ->
  destroy_type_list_katcp d =
    Ok (tt, {| d_shared := Some empty_shared; d_allocs := d_allocs d;
               d_events := d_events d ++ teardown_events blk |}).
Proof.
  intros Hd ([Hcount [Hts|[Hts ->]]] & _ & _) Hst Hmax.
  - apply (teardown_live d s blk Hd Hts Hcount Hmax Hst).
  - unfold destroy_type_list_katcp.
    rewrite (bind_ok _ _ _ _ _ (get_shared_ok d s Hd)).
    rewrite Hts. destruct d as [sh al ev], s as [ts n]. simpl in *. subst.
    unfold ret, teardown_events, empty_shared. simpl. rewrite app_nil_r. reflexivity.
Qed.


(** X11. [destroy_type_list_katcp] on a sorted registry whose descriptors
    all have their store: first every store is destroyed with its type's
    free callback, in array order, then every descriptor is released, in
    array order; no allocation is made, and the registry is left as it
    started: a null array and a count of 0. *)
Theorem teardown_releases_registry (d : katcp_dispatch) (s : katcp_shared)
    (blk : list slot) (ns : list string) :
  d_shared d = Some s -> sorted_registry s blk ns -> stocked blk ->
  s_type_count s <= INT_MAX ->
  destroy_type_list_katcp d =
    Ok (tt, {| d_shared := Some empty_shared; d_allocs := d_allocs d;
               d_events := d_events d ++ teardown_events blk |}).
Proof.
  intros Hd ([Hcount [Hts|[Hts ->]]] & _ & _) Hst Hmax.
  - apply (teardown_live d s blk Hd Hts Hcount Hmax Hst).
  - unfold destroy_type_list_katcp.
    rewrite (bind_ok _ _ _ _ _ (get_shared_ok d s Hd)).
    rewrite Hts. destruct d as [sh al ev], s as [ts n]. simpl in *. subst.
    unfold ret, teardown_events, empty_shared. simpl. rewrite app_nil_r. reflexivity.
Qed.

Lemma teardown_releases_registry_witness :
  destroy_type_list_katcp (sample_dispatch [Refused]) =
    Ok (tt, {| d_shared := Some empty_shared; d_allocs := [Refused];
               d_events := [EvFree 12 101; EvFree 12 102; EvFree 12 103;
                            EvFree 12 201; EvFree 12 202;
                            EvReleaseType (Some "names"%string);
                            EvReleaseType (Some "string"%string);
                            EvReleaseType (Some "test"%string)] |}).
Proof.
  apply (teardown_releases_registry (sample_dispatch [Refused]) sample_shared
           sample_block sample_names eq_refl sample_sorted).
  - repeat constructor; eexists _, _; split; reflexivity.
  - vm_compute. discriminate.
Defined.

Lemma bind_inv {A B : Type} (c : M A) (k : A -> M B) (d : katcp_dispatch)
    (r : B * katcp_dispatch) :
  bind c k d = Ok r -> exists a d1, c d = Ok (a, d1) /\ k a d1 = Ok r.
Proof. unfold bind. destruct (c d) as [[a d1]|]; [eauto|discriminate]. Qed.

Lemma teardown_leaves_null (d d' : katcp_dispatch) (u : unit) :
  destroy_type_list_katcp d = Ok (u, d') ->
  d_shared d' = None \/ exists s, d_shared d' = Some s /\ s_type s = NullPtr.
Proof.
  unfold destroy_type_list_katcp. intros H.
  apply bind_inv in H as (s & d1 & Hget & H).
  unfold get_shared in Hget. injection Hget as <- <-.
  destruct (d_shared d) as [s|] eqn:Hd.
  - destruct (s_type s) eqn:Hts.
    + injection H as _ <-. right. eauto.
    + apply bind_inv in H as (b1 & d1 & _ & H).
      apply bind_inv in H as (b2 & d2 & _ & H).
      apply bind_inv in H as (b3 & d3 & _ & H).
      injection H as _ <-. right. eexists. split; reflexivity.
    + apply bind_inv in H as (b1 & d1 & H1 & _). discriminate.
  - injection H as _ <-. left. exact Hd.
Qed.

(** X12. After [destroy_type_list_katcp] on a sorted registry whose
    descriptors all have their store nothing is left: a second call
    returns at its null test with no effect, every search by name answers
    [-1] and every deregistration fails, all without touching the state;
    and the state is again that of an empty registry, ready for new
    registrations. *)
Theorem teardown_is_final (d : katcp_dispatch) (ns : list string) :
  registry_ok d ns ->
  exists d',
    destroy_type_list_katcp d = Ok (tt, d') /\
    destroy_type_list_katcp d' = Ok (tt, d') /\
    (forall str, find_name_id_type_katcp str d' = Ok (-1, d')) /\
    (forall name, exists e, deregister_type_katcp name d' = Ok (Failed e, d')) /\
    registry_ok d' [].
Proof.
  intros (s & blk & Hd & Hreg & Hst & Hmax).
  pose proof (teardown_sorted d s blk ns Hd Hreg Hst Hmax) as Hrun.
  eexists. split; [exact Hrun|].
  destruct (teardown_leaves_null _ _ _ Hrun) as [Hnone|(s' & Hd' & Hts)];
    [discriminate|].
  injection Hd' as <-.
  split; [reflexivity|]. split; [intros [str|]; reflexivity|].
  split; [intros [name|]; exists NotFoundError; reflexivity|].
  exists empty_shared, []. split; [reflexivity|]. split; [exact empty_sorted|].
  split; [constructor|]. simpl. unfold INT_MAX. lia.
Qed.

Lemma teardown_is_final_witness :
  exists d',
    destroy_type_list_katcp (sample_dispatch []) = Ok (tt, d') /\
    destroy_type_list_katcp d' = Ok (tt, d') /\
    find_name_id_type_katcp (Some "names"%string) d' = Ok (-1, d').
Proof.
  destruct (teardown_is_final (sample_dispatch []) sample_names)
    as (d' & Hrun & Hagain & Hfind & _).
  - exists sample_shared, sample_block. split; [reflexivity|].
    split; [exact sample_sorted|]. split; [|vm_compute; discriminate].
    repeat constructor; eexists _, _; split; reflexivity.
  - exists d'. split; [exact Hrun|]. split; [exact Hagain|apply Hfind].
Defined.

(** ** Stores and lookups on a held type *)

Lemma find_insert_same (tr : avl_tree) (n : avl_node) :
  find_name_node_avltree (insert_node tr n) (fst n) = Some n.
Proof.
  induction tr as [|e tr IH]; simpl.
  - rewrite strcmp_refl. reflexivity.
  - destruct (strcmp (fst n) (fst e)) eqn:E; simpl; rewrite ?strcmp_refl; try reflexivity.
    rewrite E. exact IH.
Qed.

Lemma find_insert_other (tr : avl_tree) (n : avl_node) (k : string) :
  k <> fst n ->
  find_name_node_avltree (insert_node tr n) k = find_name_node_avltree tr k.
Proof.
  intros Hne. assert (Hc : strcmp k (fst n) <> Eq) by (rewrite strcmp_eq; exact Hne).
  induction tr as [|e tr IH]; simpl.
  - destruct (strcmp k (fst n)) eqn:E; congruence.
  - destruct (strcmp (fst n) (fst e)); simpl.
    + destruct (strcmp k (fst n)) eqn:E; congruence.
    + destruct (strcmp k (fst n)) eqn:E; congruence.
    + rewrite IH. reflexivity.
Qed.

Lemma update_type_at (d : katcp_dispatch) (s : katcp_shared) (blk : list slot)
    (i : nat) (t : katcp_type) :
  d_shared d = Some s -> s_type s = Live blk -> (i < length blk)%nat ->
  update_type (Z.of_nat i) t d =
    Ok (tt, {| d_shared := Some {| s_type := Live (<[i := Some t]> blk);
                                   s_type_count := s_type_count s |};
               d_allocs := d_allocs d; d_events := d_events d |}).
Proof.
  intros Hd Hts Hi. unfold update_type.
  rewrite (bind_ok _ _ _ _ _ (get_shared_ok d s Hd)).
  rewrite Hts. rewrite (bind_ok _ _ d d blk) by reflexivity.
  rewrite (bind_ok _ _ d d (<[i := Some t]> blk)).
  2:{ apply lift_ok. rewrite array_set_ok by lia. rewrite Nat2Z.id. reflexivity. }
  reflexivity.
Qed.

Lemma store_in_type_outcome (d : katcp_dispatch) (s : katcp_shared) (blk : list slot)
    (i : nat) (t : katcp_type) (tr : avl_tree) (T : option string) (k : string)
    (v : dataptr) (p f c cm pa : fnptr) :
  d_shared d = Some s -> s_type s = Live blk -> blk !! i = Some (Some t) ->
  t_tree t = Some tr -> callbacks_of t = (p, f, c, cm, pa) ->
  store_in_type (Z.of_nat i) t T (Some k) v p f c cm pa d =
    if decide (hd Granted (d_allocs d) = Refused)
    then Ok (Failed AllocationError, pop d)
    else match find_name_node_avltree tr k with
         | Some _ =>
             Ok (Failed DuplicateKeyError, add_events (pop d) (free_node_avltree (k, v) f))
         | None =>
             Ok (Done 0,
                 {| d_shared :=
                      Some {| s_type :=
                                Live (<[i := Some (set_tree t (Some (insert_node tr (k, v))))]>
                                        blk);
                              s_type_count := s_type_count s |};
                    d_allocs := tl (d_allocs d); d_events := d_events d |})
         end.
Proof.
  intros Hd Hts Hi Htr Hcb. unfold store_in_type.
  replace (same_callbacks t p f c cm pa) with true
    by (symmetry; apply same_callbacks_spec; exact Hcb).
  cbn [negb]. rewrite Htr, bind_ret.
  destruct (decide (hd Granted (d_allocs d) = Refused)) as [Href|Hgr].
  - rewrite (bind_ok _ _ _ _ _ (create_node_avltree_refused k v d Href)). reflexivity.
  - rewrite (bind_ok _ _ _ _ _ (create_node_avltree_grant k v d Hgr)).
    unfold add_node_avltree. cbn [fst].
    destruct (find_name_node_avltree tr k); [reflexivity|].
    rewrite (bind_ok _ _ _ _ _
               (update_type_at (pop d) s blk i _ Hd Hts (lookup_lt_Some _ _ _ Hi))).
    reflexivity.
Qed.

Lemma sorted_registry_update (s : katcp_shared) (blk : list slot) (ns : list string)
    (i : nat) (t t' : katcp_type) :
  sorted_registry s blk ns -> blk !! i = Some (Some t) -> t_name t' = t_name t ->
  sorted_registry {| s_type := Live (<[i := Some t']> blk); s_type_count := s_type_count s |}
    (<[i := Some t']> blk) ns.
Proof.
  intros ([Hcount Hts] & Hnames & Hsorted) Hi Hname. split; [|split].
  - split; simpl; [rewrite length_insert; exact Hcount|left; reflexivity].
  - unfold block_names in *. rewrite <- (list_insert_id ns i (default EmptyString (ns !! i))).
    + apply Forall2_insert; [exact Hnames|].
      destruct (Forall2_lookup_l _ _ _ _ _ Hnames Hi) as (n & Hn & Hsl).
      rewrite Hn. simpl in *. congruence.
    + destruct (Forall2_lookup_l _ _ _ _ _ Hnames Hi) as (n & Hn & _).
      rewrite Hn. reflexivity.
  - exact Hsorted.
Qed.

(** X13. A store into a type the registry holds, with the type's own
    callbacks and a key its store does not hold, succeeds when the node is
    allocated: nothing is logged or freed, the count, the order and every
    other descriptor are as before, and the one descriptor has the entry
    added to its store.  A lookup of the new key then answers the stored
    value, and every entry the store held before is still answered with
    its own value. *)
Theorem store_into_held_type (d : katcp_dispatch) (s : katcp_shared) (blk : list slot)
    (ns : list string) (i : nat) (t : katcp_type) (tr : avl_tree) (T k : string)
    (v : dataptr) (p f c cm pa : fnptr) :
  d_shared d = Some s -> sorted_registry s blk ns -> s_type_count s <= INT_MAX ->
  blk !! i = Some (Some t) -> t_name t = Some T -> t_tree t = Some tr ->
  callbacks_of t = (p, f, c, cm, pa) ->
  hd Granted (d_allocs d) <> Refused ->
  find_name_node_avltree tr k = None ->
  let d' := {| d_shared :=
                 Some {| s_type :=
                           Live (<[i := Some (set_tree t (Some (insert_node tr (k, v))))]>
                                   blk);
                         s_type_count := s_type_count s |};
               d_allocs := tl (d_allocs d); d_events := d_events d |} in
  store_data_type_katcp (Some T) (Some k) v p f c cm pa d = Ok (Done 0, d') /\
  get_key_data_type_katcp (Some T) (Some k) d' = Ok (v, d') /\
  forall k' e, find_name_node_avltree tr k' = Some e ->
    get_key_data_type_katcp (Some T) (Some k') d' = Ok (snd e, d').
Proof.
  intros Hd Hreg Hmax Hi HT Htr Hcb Hgr Hfresh d'.
  pose proof Hreg as (Hholds & _).
  pose proof (holds_lookup_live s blk i _ Hholds Hi) as Hts.
  pose proof (sorted_registry_update s blk ns i t
                (set_tree t (Some (insert_node tr (k, v)))) Hreg Hi eq_refl) as Hreg'.
  assert (Hi' : <[i := Some (set_tree t (Some (insert_node tr (k, v))))]> blk !! i
                = Some (Some (set_tree t (Some (insert_node tr (k, v)))))).
  { apply list_lookup_insert_eq. exact (lookup_lt_Some _ _ _ Hi). }
  split; [|split].
  - rewrite (store_existing d s blk ns i t T (Some k) v p f c cm pa Hd Hreg Hmax Hi HT).
    rewrite (store_in_type_outcome d s blk i t tr (Some T) k v p f c cm pa
               Hd Hts Hi Htr Hcb).
    destruct (decide (hd Granted (d_allocs d) = Refused)); [contradiction|].
    rewrite Hfresh. reflexivity.
  - apply (get_key_data_found d' _ _ ns i _ T k (insert_node tr (k, v)) (k, v)
             eq_refl Hreg' Hmax Hi' HT eq_refl).
    apply (find_insert_same tr (k, v)).
  - intros k' e He.
    apply (get_key_data_found d' _ _ ns i _ T k' (insert_node tr (k, v)) e
             eq_refl Hreg' Hmax Hi' HT eq_refl).
    rewrite find_insert_other; [exact He|].
    simpl. intros ->. congruence.
Qed.

Lemma store_into_held_type_witness :
  exists d',
    store_data_type_katcp (Some "names"%string) (Some "mary"%string) 104 11 12 13 14 15
      (sample_dispatch []) = Ok (Done 0, d') /\
    get_key_data_type_katcp (Some "names"%string) (Some "mary"%string) d' = Ok (104, d') /\
    get_key_data_type_katcp (Some "names"%string) (Some "perry"%string) d' = Ok (103, d').
Proof.
  destruct (store_into_held_type (sample_dispatch []) sample_shared sample_block
              sample_names 0
              (sample_type "names" [("adam", 101); ("john", 102); ("perry", 103)]%string)
              [("adam", 101); ("john", 102); ("perry", 103)]%string
              "names" "mary" 104 11 12 13 14 15
              eq_refl sample_sorted ltac:(vm_compute; discriminate) eq_refl eq_refl
              eq_refl eq_refl ltac:(simpl; discriminate) eq_refl)
    as (Hstore & Hnew & Hold).
  eexists. split; [exact Hstore|]. split; [exact Hnew|].
  apply (Hold "perry"%string ("perry"%string, 103)). reflexivity.
Defined.

Lemma find_name_miss (d : katcp_dispatch) (s : katcp_shared) (blk : list slot)
    (ns : list string) (n : string) :
  d_shared d = Some s -> sorted_registry s blk ns -> s_type_count s < INT_MAX ->
  n ∉ ns ->
  find_name_type_katcp (Some n) d = Ok (None, add_events d [EvLog LogTypeNotDefined]).
Proof.
  intros Hd Hreg Hmax Habs.
  destruct (search_miss s blk ns n Hreg Hmax Habs) as (low & Hr & _).
  unfold find_name_type_katcp, find_name_id_type_katcp.
  rewrite bind_bind.
  rewrite (bind_ok _ _ _ _ _ (get_shared_ok d s Hd)).
  rewrite (bind_ok _ _ d d _ (lift_ok _ _ d Hr)).
  destruct (Z.ltb_spec (- (Z.of_nat low + 1)) 0); [reflexivity|lia].
Qed.

(** X14. The lookups that answer NULL.  With a null type or a null key
    [get_key_data_type_katcp] returns before it reads the registry.  For a
    type name the registry does not hold it answers NULL and the one
    effect is the error log line of the failed search; for a held type
    whose store lacks the key it answers NULL with no effect at all. *)
Theorem get_key_data_misses (d : katcp_dispatch) (s : katcp_shared) (blk : list slot)
    (ns : list string) :
  d_shared d = Some s -> sorted_registry s blk ns -> s_type_count s < INT_MAX ->
  (forall key, get_key_data_type_katcp None key d = Ok (NULL, d)) /\
  (forall type, get_key_data_type_katcp type None d = Ok (NULL, d)) /\
  (forall T k, T ∉ ns ->
     get_key_data_type_katcp (Some T) (Some k) d =
       Ok (NULL, add_events d [EvLog LogTypeNotDefined])) /\
  (forall (i : nat) t tr T k,
     blk !! i = Some (Some t) -> t_name t = Some T -> t_tree t = Some tr ->
     find_name_node_avltree tr k = None ->
     get_key_data_type_katcp (Some T) (Some k) d = Ok (NULL, d)).
Proof.
  intros Hd Hreg Hmax. split; [|split; [|split]].
  - intros key. reflexivity.
  - intros [type|]; reflexivity.
  - intros T k Habs. unfold get_key_data_type_katcp.
    rewrite (bind_ok _ _ _ _ _ (find_name_miss d s blk ns T Hd Hreg Hmax Habs)).
    reflexivity.
  - intros i t tr T k Hi HT Htr Hfind.
    pose proof Hreg as (_ & Hnames & _).
    pose proof (block_names_lookup_l blk ns i t T Hnames Hi HT) as Hn.
    unfold get_key_data_type_katcp.
    rewrite (bind_ok _ _ _ _ _
               (proj2 (find_name_hit d s blk ns T i (Some t) Hd Hreg ltac:(lia) Hi Hn))).
    rewrite Htr, Hfind. reflexivity.
Qed.

Lemma get_key_data_misses_witness :
  get_key_data_type_katcp None (Some "adam"%string) (sample_dispatch []) =
    Ok (NULL, sample_dispatch []) /\
  get_key_data_type_katcp (Some "ports"%string) (Some "adam"%string) (sample_dispatch []) =
    Ok (NULL, add_events (sample_dispatch []) [EvLog LogTypeNotDefined]) /\
  get_key_data_type_katcp (Some "string"%string) (Some "adam"%string) (sample_dispatch []) =
    Ok (NULL, sample_dispatch []).
Proof.
  destruct (get_key_data_misses (sample_dispatch []) sample_shared sample_block
              sample_names eq_refl sample_sorted ltac:(vm_compute; reflexivity))
    as (Hnull & _ & Habsent & Hkey).
  split; [apply Hnull|]. split.
  - apply Habsent. intros Hin.
    repeat (apply elem_of_cons in Hin as [Hin|Hin]; [discriminate|]).
    inversion Hin.
  - apply (Hkey 1%nat (sample_type "string" [("test1", 201); ("test2", 202)]%string)
             [("test1", 201); ("test2", 202)]%string); reflexivity.
Defined.

(** ** Sequences of operations *)

Lemma names_after_ext (ops : list operation) :
  forall held held' : string -> Prop,
    (forall n, held n <-> held' n) ->
    forall n, names_after ops held n <-> names_after ops held' n.
Proof.
  induction ops as [|o ops IH]; intros held held' Hext n; simpl; [apply Hext|].
  apply IH. intros m. destruct o; simpl; rewrite ?Hext; reflexivity.
Qed.

Lemma never_last_ext (ops : list operation) :
  forall held held' : string -> Prop,
    (forall n, held n <-> held' n) ->
    never_last ops held -> never_last ops held'.
Proof.
  induction ops as [|o ops IH]; intros held held' Hext; simpl; [auto|].
  intros [Hsp Hrest]. split.
  - destruct o; simpl in *; try exact I.
    intros Hheld. apply Hext in Hheld. destruct (Hsp Hheld) as (m & Hm & Hne).
    exists m. split; [apply Hext; exact Hm|exact Hne].
  - apply (IH (names_step o held)); [|exact Hrest].
    intros m. destruct o; simpl; rewrite ?Hext; reflexivity.
Qed.

Lemma elem_of_insert_at {A : Type} (k : nat) (x y : A) (l : list A) :
  y ∈ insert_at k x l <-> y ∈ l \/ y = x.
Proof.
  rewrite (insert_at_perm k x l), elem_of_app, list_elem_of_singleton. reflexivity.
Qed.

Lemma elem_of_delete_sorted (ns : list string) (i : nat) (x n : string) :
  StronglySorted str_lt ns -> ns !! i = Some x ->
  n ∈ delete i ns <-> n ∈ ns /\ n <> x.
Proof.
  intros Hsorted Hi.
  pose proof (sorted_delete_absent ns i x Hsorted Hi) as Habs.
  rewrite delete_take_drop in *.
  rewrite <- (take_drop_middle ns i x Hi) at 3.
  rewrite !elem_of_app, elem_of_cons. rewrite elem_of_app in Habs.
  split.
  - intros H. split; [tauto|]. intros ->. tauto.
  - intros [[H|[H|H]] Hne]; tauto.
Qed.

Lemma stocked_insert_at (k : nat) (t : katcp_type) (tr : avl_tree) (blk : list slot) :
  stocked blk -> t_tree t = Some tr -> stocked (insert_at k (Some t) blk).
Proof.
  intros Hst Htr. unfold stocked, insert_at in *.
  apply Forall_app. split; [apply Forall_take; exact Hst|].
  constructor; [eauto|apply Forall_drop; exact Hst].
Qed.

Lemma stocked_lookup (blk : list slot) (i : nat) (sl : slot) :
  stocked blk -> blk !! i = Some sl -> exists t tr, sl = Some t /\ t_tree t = Some tr.
Proof. intros Hst Hi. exact (Forall_lookup_1 _ _ _ _ Hst Hi). Qed.

Lemma never_refuses_hd (d : katcp_dispatch) :
  never_refuses d -> hd Granted (d_allocs d) <> Refused.
Proof.
  unfold never_refuses. destruct (d_allocs d) as [|o l]; simpl; [discriminate|].
  intros H. exact (Forall_inv H).
Qed.

Lemma never_refuses_pop (d d' : katcp_dispatch) :
  never_refuses d -> d_allocs d' = tl (d_allocs d) -> never_refuses d'.
Proof.
  intros H Ha. apply (never_refuses_drop 1 d d' H). rewrite Ha.
  destruct (d_allocs d); reflexivity.
Qed.

Lemma get_key_data_state (d : katcp_dispatch) (s : katcp_shared) (blk : list slot)
    (ns : list string) (T k : string) :
  d_shared d = Some s -> sorted_registry s blk ns -> s_type_count s < INT_MAX ->
  exists v evs,
    get_key_data_type_katcp (Some T) (Some k) d = Ok (v, add_events d evs).
Proof.
  intros Hd Hreg Hmax. pose proof Hreg as (_ & Hnames & _).
  destruct (in_dec string_dec T ns) as [Hin|Habs]; rewrite <- list_elem_of_In in *.
  - apply list_elem_of_lookup in Hin as [i Hn].
    destruct (block_names_lookup _ _ _ _ Hnames Hn) as (sl & Hi & Hsl).
    unfold get_key_data_type_katcp.
    rewrite (bind_ok _ _ _ _ _
               (proj2 (find_name_hit d s blk ns T i sl Hd Hreg ltac:(lia) Hi Hn))).
    exists (match sl with
            | Some t => match t_tree t with
                        | Some tr => match find_name_node_avltree tr k with
                                     | Some n => get_node_data_avltree n
                                     | None => NULL
                                     end
                        | None => NULL
                        end
            | None => NULL
            end), [].
    rewrite add_events_nil.
    destruct sl as [t|]; [|reflexivity].
    destruct (t_tree t) as [tr|]; [|reflexivity].
    destruct (find_name_node_avltree tr k); reflexivity.
  - exists NULL, [EvLog LogTypeNotDefined]. unfold get_key_data_type_katcp.
    rewrite (bind_ok _ _ _ _ _ (find_name_miss d s blk ns T Hd Hreg Hmax Habs)).
    reflexivity.
Qed.

Lemma find_name_state (d : katcp_dispatch) (s : katcp_shared) (blk : list slot)
    (ns : list string) (n : string) :
  d_shared d = Some s -> sorted_registry s blk ns -> s_type_count s < INT_MAX ->
  exists sl evs, find_name_type_katcp (Some n) d = Ok (sl, add_events d evs).
Proof.
  intros Hd Hreg Hmax. pose proof Hreg as (_ & Hnames & _).
  destruct (in_dec string_dec n ns) as [Hin|Habs]; rewrite <- list_elem_of_In in *.
  - apply list_elem_of_lookup in Hin as [i Hn].
    destruct (block_names_lookup _ _ _ _ Hnames Hn) as (sl & Hi & Hsl).
    exists sl, []. rewrite add_events_nil.
    exact (proj2 (find_name_hit d s blk ns n i sl Hd Hreg ltac:(lia) Hi Hn)).
  - exists None, [EvLog LogTypeNotDefined].
    exact (find_name_miss d s blk ns n Hd Hreg Hmax Habs).
Qed.

Lemma run_operation_ok (o : operation) (d : katcp_dispatch) (ns : list string) :
  registry_ok d ns -> never_refuses d -> Z.of_nat (length ns) < INT_MAX ->
  spares_a_type o (fun m => m ∈ ns) ->
  exists d' ns',
    run_operation o d = Ok (tt, d') /\ registry_ok d' ns' /\ never_refuses d' /\
    (length ns' <= S (length ns))%nat /\
    forall n, n ∈ ns' <-> names_step o (fun m => m ∈ ns) n.
Proof.
  intros (s & blk & Hd & Hreg & Hst & _) Hnr Hlen Hspares.
  pose proof Hreg as ([Hcount Hts] & Hnames & Hsorted).
  pose proof (block_names_length blk ns Hnames) as Hlen'.
  assert (Hmax : s_type_count s < INT_MAX).
  { rewrite Hcount. rewrite Hlen'. exact Hlen. }
  assert (Hmax0 : s_type_count s <= INT_MAX) by lia.
  destruct o as [name p f c cm pa|type key data p f c cm pa|type key|name|name|];
    unfold run_operation.
  - (* register *)
    destruct (in_dec string_dec name ns) as [Hin|Habs]; rewrite <- list_elem_of_In in *.
    + rewrite (bind_ok _ _ _ _ _
                 (register_name_duplicate d s blk ns name p f c cm pa Hd Hreg Hmax0 Hin)).
      exists d, ns. split; [reflexivity|].
      split; [exists s, blk; repeat split; assumption|].
      split; [exact Hnr|]. split; [lia|].
      intros n. simpl. split; [auto|]. intros [H| ->]; assumption.
    + destruct (register_name_grant d s blk ns name p f c cm pa Hd Hreg Hmax Habs
                  (never_refuses_grants 4 d Hnr))
        as (low & s' & _ & Hrun & Hcount' & Hreg').
      rewrite (bind_ok _ _ _ _ _ Hrun).
      exists (with_shared d 4 s'), (insert_at low name ns). split; [reflexivity|].
      split.
      { exists s', (insert_at low (Some (new_type name p f c cm pa)) blk).
        split; [reflexivity|]. split; [exact Hreg'|].
        split; [apply (stocked_insert_at _ _ []); [exact Hst|reflexivity]|].
        unfold INT_MAX in *. lia. }
      split; [apply (never_refuses_drop 4 d); [exact Hnr|reflexivity]|].
      split; [rewrite length_insert_at; lia|].
      intros n. apply elem_of_insert_at.
  - (* store *)
    destruct (in_dec string_dec type ns) as [Hin|Habs]; rewrite <- list_elem_of_In in *.
    + pose proof Hin as Hin'. apply list_elem_of_lookup in Hin' as [i Hn].
      destruct (block_names_lookup _ _ _ _ Hnames Hn) as (sl & Hi & Hsl).
      destruct (stocked_lookup blk i sl Hst Hi) as (t & tr & -> & Htr).
      simpl in Hsl.
      assert (Hsame : forall n, n ∈ ns <-> n ∈ ns \/ n = type).
      { intros n. split; [auto|]. intros [H| ->]; assumption. }
      assert (Hrun : exists r d1,
                store_data_type_katcp (Some type) (Some key) data p f c cm pa d
                  = Ok (r, d1) /\
                registry_ok d1 ns /\ never_refuses d1).
      { rewrite (store_existing d s blk ns i t type (Some key) data p f c cm pa
                   Hd Hreg Hmax0 Hi Hsl).
        destruct (same_callbacks t p f c cm pa) eqn:Hcb.
        - apply same_callbacks_spec in Hcb.
          rewrite (store_in_type_outcome d s blk i t tr (Some type) key data p f c cm pa
                     Hd (holds_lookup_live s blk i _ (conj Hcount Hts) Hi) Hi Htr Hcb).
          destruct (decide (hd Granted (d_allocs d) = Refused)) as [Href|_];
            [exfalso; exact (never_refuses_hd d Hnr Href)|].
          destruct (find_name_node_avltree tr key).
          + eexists _, _. split; [reflexivity|].
            split; [exists s, blk; repeat split; assumption|].
            apply (never_refuses_pop d); [exact Hnr|reflexivity].
          + eexists _, _. split; [reflexivity|].
            split; [|apply (never_refuses_pop d); [exact Hnr|reflexivity]].
            eexists _, _. split; [reflexivity|].
            split; [apply (sorted_registry_update s blk ns i t); [exact Hreg|exact Hi|reflexivity]|].
            split; [|exact Hmax0].
            apply Forall_insert; [exact Hst|]. eexists _, _. split; reflexivity.
        - rewrite (store_in_type_mismatch (Z.of_nat i) t (Some type) (Some key) data
                     p f c cm pa d).
          2:{ intros Heq. apply same_callbacks_spec in Heq. congruence. }
          eexists _, _. split; [reflexivity|].
          split; [exists s, blk; repeat split; assumption|exact Hnr]. }
      destruct Hrun as (r & d1 & Hrun & Hok & Hnr1).
      rewrite (bind_ok _ _ _ _ _ Hrun).
      exists d1, ns. split; [reflexivity|]. split; [exact Hok|].
      split; [exact Hnr1|]. split; [lia|exact Hsame].
    + destruct (store_new_type_grant d s blk ns type key data p f c cm pa Hd Hreg Hmax
                  Habs (never_refuses_grants 5 d Hnr))
        as (low & s' & Hrun & _ & Hreg' & Hcount').
      rewrite (bind_ok _ _ _ _ _ Hrun).
      exists (with_shared d 5 s'), (insert_at low type ns). split; [reflexivity|].
      split.
      { eexists s', _. split; [reflexivity|]. split; [exact Hreg'|].
        split; [apply (stocked_insert_at _ _ [(key, data)]); [exact Hst|reflexivity]|].
        unfold INT_MAX in *. lia. }
      split; [apply (never_refuses_drop 5 d); [exact Hnr|reflexivity]|].
      split; [rewrite length_insert_at; lia|].
      intros n. apply elem_of_insert_at.
  - (* lookup *)
    destruct (get_key_data_state d s blk ns type key Hd Hreg Hmax) as (v & evs & Hrun).
    rewrite (bind_ok _ _ _ _ _ Hrun).
    exists (add_events d evs), ns. split; [reflexivity|].
    split; [exists s, blk; repeat split; assumption|].
    split; [exact Hnr|]. split; [lia|reflexivity].
  - (* find *)
    destruct (find_name_state d s blk ns name Hd Hreg Hmax) as (sl & evs & Hrun).
    rewrite (bind_ok _ _ _ _ _ Hrun).
    exists (add_events d evs), ns. split; [reflexivity|].
    split; [exists s, blk; repeat split; assumption|].
    split; [exact Hnr|]. split; [lia|reflexivity].
  - (* deregister *)
    destruct (in_dec string_dec name ns) as [Hin|Habs]; rewrite <- list_elem_of_In in *.
    + assert (Hmore : length blk <> 1%nat).
      { intros Hone. simpl in Hspares. destruct (Hspares Hin) as (m & Hm & Hne).
        rewrite Hlen' in Hone.
        destruct ns as [|x [|y ns]]; try discriminate.
        apply list_elem_of_singleton in Hin, Hm. congruence. }
      apply list_elem_of_lookup in Hin as [i Hn].
      destruct (block_names_lookup _ _ _ _ Hnames Hn) as (sl & Hi & Hsl).
      destruct (named_slot sl name Hsl) as (t & -> & HT).
      rewrite (bind_ok _ _ d
                 {| d_shared := Some {| s_type := Live (delete i blk);
                                        s_type_count := s_type_count s - 1 |};
                    d_allocs := tl (d_allocs d);
                    d_events := d_events d ++ destroy_events t |} (Done 0)).
      2:{ rewrite (deregister_held d s blk ns i t name Hd Hreg Hmax0 Hi HT).
          destruct (decide (length blk = 1%nat)); [contradiction|].
          destruct (decide (hd Granted (d_allocs d) = Refused)) as [Href|_];
            [exfalso; exact (never_refuses_hd d Hnr Href)|reflexivity]. }
      eexists _, (delete i ns). split; [reflexivity|].
      split.
      { eexists _, _. split; [reflexivity|].
        split; [exact (sorted_registry_delete s blk ns i Hreg (lookup_lt_Some _ _ _ Hi))|].
        split; [apply Forall_delete; exact Hst|]. simpl. lia. }
      split; [apply (never_refuses_pop d); [exact Hnr|reflexivity]|].
      split; [rewrite length_delete by (exists name; exact Hn); lia|].
      intros n. apply (elem_of_delete_sorted ns i name n Hsorted Hn).
    + rewrite (bind_ok _ _ _ _ _ (deregister_absent d s blk ns name Hd Hreg Hmax Habs)).
      exists d, ns. split; [reflexivity|].
      split; [exists s, blk; repeat split; assumption|].
      split; [exact Hnr|]. split; [lia|].
      intros n. simpl. split; [|tauto].
      intros H. split; [exact H|]. intros ->. contradiction.
  - (* teardown *)
    rewrite (teardown_sorted d s blk ns Hd Hreg Hst Hmax0).
    eexists _, []. split; [reflexivity|].
    split.
    { exists empty_shared, []. split; [reflexivity|]. split; [exact empty_sorted|].
      split; [constructor|]. simpl. unfold INT_MAX. lia. }
    split; [exact Hnr|]. split; [simpl; lia|].
    intros n. simpl. split; [intros H; inversion H|tauto].
Qed.

(** X15. On a registry that is sorted by name and whose descriptors all
    have their store, any sequence of registrations, stores, lookups,
    searches, deregistrations and teardowns with non-null names and keys
    runs to its end without a fault, provided the allocator refuses
    nothing, the count stays an [int], and no deregistration removes the
    only type the registry holds at that point (that one releases the
    array and leaves the registry pointing at it); the registry the
    sequence leaves is again sorted with every store in place, and the
    names it holds are those the operations add and remove, read as
    operations on a set of names. *)
Theorem operations_keep_registry (ops : list operation) :
  forall (d : katcp_dispatch) (ns : list string),
    registry_ok d ns -> never_refuses d ->
    Z.of_nat (length ns + length ops) <= INT_MAX ->
    never_last ops (fun m => m ∈ ns) ->
    exists d' ns',
      run_operations ops d = Ok (tt, d') /\ registry_ok d' ns' /\ never_refuses d' /\
      forall n, n ∈ ns' <-> names_after ops (fun m => m ∈ ns) n.
Proof.
  induction ops as [|o ops IH]; intros d ns Hok Hnr Hlen Hsafe.
  - exists d, ns. split; [reflexivity|]. split; [exact Hok|]. split; [exact Hnr|].
    intros n. reflexivity.
  - simpl in Hlen. destruct Hsafe as [Hsp Hsafe].
    destruct (run_operation_ok o d ns Hok Hnr ltac:(lia) Hsp)
      as (d1 & ns1 & Hrun & Hok1 & Hnr1 & Hlen1 & Hnames1).
    assert (Hsafe1 : never_last ops (fun m => m ∈ ns1)).
    { apply (never_last_ext ops (names_step o (fun m => m ∈ ns))); [|exact Hsafe].
      intros n. symmetry. apply Hnames1. }
    destruct (IH d1 ns1 Hok1 Hnr1 ltac:(lia) Hsafe1)
      as (d' & ns' & Hrest & Hok' & Hnr' & Hnames').
    exists d', ns'. split; [|split; [exact Hok'|split; [exact Hnr'|]]].
    + simpl. rewrite (bind_ok _ _ _ _ _ Hrun). exact Hrest.
    + intros n. rewrite Hnames'. simpl. apply names_after_ext. exact Hnames1.
Qed.

Lemma operations_keep_registry_witness :
  exists d' ns',
    run_operations
      [OpStore "ports" "uplink" 301 1 2 3 4 5; OpDeregister "names";
       OpRegister "test" 0 0 0 0 0; OpLookup "ports" "uplink";
       OpStore "string" "test1" 203 11 12 13 14 15; OpFind "names"]%string
      (sample_dispatch [Relocated]) = Ok (tt, d') /\
    registry_ok d' ns' /\
    ("ports"%string ∈ ns') /\ ("names"%string ∉ ns').
Proof.
  destruct (operations_keep_registry
              [OpStore "ports" "uplink" 301 1 2 3 4 5; OpDeregister "names";
               OpRegister "test" 0 0 0 0 0; OpLookup "ports" "uplink";
               OpStore "string" "test1" 203 11 12 13 14 15; OpFind "names"]%string
              (sample_dispatch [Relocated]) sample_names)
    as (d' & ns' & Hrun & Hok & _ & Hnames).
  - exists sample_shared, sample_block. split; [reflexivity|].
    split; [exact sample_sorted|]. split; [|vm_compute; discriminate].
    repeat constructor; eexists _, _; split; reflexivity.
  - repeat constructor; discriminate.
  - vm_compute. discriminate.
  - simpl. split; [exact I|]. split; [|repeat split].
    intros _. exists "ports"%string. split; [right; reflexivity|discriminate].
  - exists d', ns'. split; [exact Hrun|]. split; [exact Hok|]. split.
    + apply Hnames. simpl. left. left. split; [right; reflexivity|discriminate].
    + intros Hin. apply Hnames in Hin. simpl in Hin.
      destruct Hin as [[[_ H]|H]|H]; [apply H; reflexivity|discriminate|discriminate].
Defined.

(** ** Null names *)

Lemma register_at_null_name (d : katcp_dispatch) (s : katcp_shared) (blk : list slot)
    (tid : Z) (p f c cm pa : fnptr) :
  d_shared d = Some s -> holds s blk -> Z.of_nat (length blk) < INT_MAX ->
  grants 2 d ->
  register_at_id_type_katcp tid None p f c cm pa d = Stuck NullDeref.
Proof.
  intros Hd [Hcount Hts] Hmax Hall. unfold INT_MAX in Hmax.
  unfold register_at_id_type_katcp.
  rewrite (bind_ok _ _ _ _ _ (get_shared_ok d s Hd)).
  rewrite Hcount.
  rewrite (bind_ok _ _ d d (Z.of_nat (length blk) + 1))
    by (apply lift_ok, int_add_ok; int_range).
  destruct (realloc_grant (s_type s) blk (Z.of_nat (length blk) + 1) d Hts ltac:(lia)
              (grants_hd _ d Hall)) as (d1 & Hre & Ha1 & He1).
  rewrite (bind_ok _ _ d d1 _ Hre).
  replace (Z.to_nat (Z.of_nat (length blk) + 1)) with (length blk + 1)%nat by lia.
  rewrite resize_add_eq by reflexivity. simpl replicate.
  pose proof (grants_tl _ d d1 Hall Ha1) as Hall1.
  rewrite (bind_ok _ _ d1 d1 (blk ++ [None])).
  2:{ apply lift_ok. rewrite array_set_ok by (rewrite length_snoc; lia).
      f_equal. rewrite Nat2Z.id. apply insert_snoc. }
  rewrite (bind_ok _ _ d1 (pop d1) _ (create_type_katcp_grant d1 (grants_hd _ d1 Hall1))).
  reflexivity.
Qed.

(** X16. The name is not tested before it is copied: with a null name
    [register_name_type_katcp] and [store_data_type_katcp] take the
    search's [-1] for "not held", go on to register at position 0, and,
    once the array and the descriptor are allocated, hand the null pointer
    to [strdup]. *)
Theorem register_null_name (d : katcp_dispatch) (s : katcp_shared) (blk : list slot)
    (key : option string) (data : dataptr) (p f c cm pa : fnptr) :
  d_shared d = Some s -> holds s blk -> Z.of_nat (length blk) < INT_MAX ->
  grants 2 d ->
  register_name_type_katcp None p f c cm pa d = Stuck NullDeref /\
  store_data_type_katcp None key data p f c cm pa d = Stuck NullDeref.
Proof.
  intros Hd Hholds Hmax Hall.
  pose proof (register_at_null_name d s blk 0 p f c cm pa Hd Hholds Hmax Hall) as Hat.
  split.
  - unfold register_name_type_katcp.
    rewrite (bind_ok _ _ _ _ _ (get_shared_ok d s Hd)).
    rewrite (bind_ok _ _ d d (-1)) by reflexivity.
    cbn [Z.geb Z.compare].
    rewrite (bind_ok _ _ d d 0) by reflexivity.
    rewrite (bind_ok _ _ d d 0) by reflexivity.
    exact Hat.
  - unfold store_data_type_katcp.
    rewrite (bind_ok _ _ _ _ _ (get_shared_ok d s Hd)).
    rewrite (bind_ok _ _ d d (-1)) by reflexivity.
    cbn [Z.ltb Z.compare].
    apply bind_stuck.
    rewrite (bind_ok _ _ d d 0) by reflexivity.
    rewrite (bind_ok _ _ d d 0) by reflexivity.
    apply bind_stuck. exact Hat.
Qed.

Lemma register_null_name_witness :
  register_name_type_katcp None 1 2 3 4 5 (sample_dispatch []) = Stuck NullDeref /\
  store_data_type_katcp None (Some "uplink"%string) 301 1 2 3 4 5 (sample_dispatch [])
    = Stuck NullDeref.
Proof.
  apply (register_null_name (sample_dispatch []) sample_shared sample_block
           (Some "uplink"%string) 301 1 2 3 4 5 eq_refl (proj1 sample_sorted)).
  - vm_compute. reflexivity.
  - vm_compute. constructor.
Defined.

(** ** A store that fails half-way *)

(** X18. A store for a type name the registry does not hold registers the
    type first.  When the four allocations of the registration are
    granted and that of the store's node is refused, the call returns -1
    without a log line, and the registration is not undone: the registry
    has grown by the new type, with an empty store, sorted in at its
    place, and a search finds it. *)
Theorem store_refused_node_leaves_type (d : katcp_dispatch) (s : katcp_shared)
    (blk : list slot) (ns : list string) (T k : string) (v : dataptr)
    (p f c cm pa : fnptr) :
  d_shared d = Some s -> sorted_registry s blk ns -> s_type_count s < INT_MAX ->
  T ∉ ns -> grants 4 d -> hd Granted (drop 4 (d_allocs d)) = Refused ->
  exists (low : nat) (s' : katcp_shared),
    store_data_type_katcp (Some T) (Some k) v p f c cm pa d
      = Ok (Failed AllocationError, with_shared d 5 s') /\
    sorted_registry s' (insert_at low (Some (new_type T p f c cm pa)) blk)
      (insert_at low T ns) /\
    s_type_count s' = s_type_count s + 1 /\
    find_name_type_katcp (Some T) (with_shared d 5 s')
      = Ok (Some (new_type T p f c cm pa), with_shared d 5 s').
Proof.
  intros Hd Hreg Hmax Habs H4 H5.
  destruct (search_miss s blk ns T Hreg Hmax Habs) as (low & Hsearch & Hsplit).
  pose proof Hreg as ([Hcount Hts] & Hnames & Hsorted).
  pose proof (block_names_length _ _ Hnames) as Hlen.
  pose proof Hsplit as (Hlow & _).
  unfold INT_MAX in Hmax.
  assert (Hlowb : (low <= length blk)%nat) by lia.
  set (s' := {| s_type := Live (insert_at low (Some (new_type T p f c cm pa)) blk);
                s_type_count := Z.of_nat (length blk) + 1 |}).
  assert (Hreg' : sorted_registry s' (insert_at low (Some (new_type T p f c cm pa)) blk)
                    (insert_at low T ns)).
  { split; [|split].
    - split; simpl; [rewrite length_insert_at; lia|left; reflexivity].
    - apply block_names_insert_at; [assumption|reflexivity].
    - apply sorted_insert_at; assumption. }
  exists low, s'. split; [|split; [exact Hreg'|split; [simpl; lia|]]].
  - unfold store_data_type_katcp.
    rewrite (bind_ok _ _ _ _ _ (get_shared_ok d s Hd)).
    rewrite (bind_ok _ _ d d _ (lift_ok _ _ d Hsearch)).
    destruct (Z.ltb_spec (- (Z.of_nat low + 1)) 0); [|lia].
    rewrite !bind_bind.
    rewrite (bind_ok _ _ d d (- Z.of_nat low))
      by (apply lift_ok; rewrite int_add_ok by int_range; f_equal; lia).
    rewrite bind_bind.
    rewrite (bind_ok _ _ d d (Z.of_nat low))
      by (apply lift_ok; rewrite int_mul_ok by int_range; f_equal; lia).
    rewrite bind_bind.
    rewrite (bind_ok _ _ _ _ _
               (register_at_grant d s blk (Z.of_nat low) T p f c cm pa Hd (conj Hcount Hts)
                  ltac:(unfold INT_MAX; lia) ltac:(lia) H4)).
    replace (Z.of_nat low `min` Z.of_nat (length blk)) with (Z.of_nat low) by lia.
    rewrite Nat2Z.id. simpl c_int.
    destruct (Z.ltb_spec (Z.of_nat low) 0); [lia|].
    rewrite bind_ret. fold s'.
    rewrite (bind_ok _ _ _ _ _ (get_shared_ok (with_shared d 4 s') s' eq_refl)).
    simpl s_type.
    rewrite (bind_ok _ _ _ _ _
               (lift_ok _ _ _ (read_slot_live _ low _ (lookup_insert_at low _ blk Hlowb)))).
    replace (same_callbacks (new_type T p f c cm pa) p f c cm pa) with true
      by (symmetry; apply same_callbacks_spec; reflexivity).
    cbn [negb t_tree new_type].
    rewrite bind_ret.
    rewrite (bind_ok _ _ _ _ _ (create_node_avltree_refused k v (with_shared d 4 s') H5)).
    unfold ret, pop, with_shared. simpl. rewrite tl_drop. reflexivity.
  - apply (find_name_hit (with_shared d 5 s') s' _ (insert_at low T ns) T low
             (Some (new_type T p f c cm pa)) eq_refl Hreg').
    + simpl. unfold INT_MAX. lia.
    + apply lookup_insert_at. exact Hlowb.
    + apply lookup_insert_at. lia.
Qed.

Lemma store_refused_node_leaves_type_witness :
  exists d',
    store_data_type_katcp (Some "ports"%string) (Some "uplink"%string) 301 1 2 3 4 5
      (sample_dispatch [Granted; Granted; Granted; Granted; Refused])
      = Ok (Failed AllocationError, d') /\
    find_name_type_katcp (Some "ports"%string) d'
      = Ok (Some (new_type "ports" 1 2 3 4 5), d').
Proof.
  destruct (store_refused_node_leaves_type
              (sample_dispatch [Granted; Granted; Granted; Granted; Refused])
              sample_shared sample_block sample_names "ports" "uplink" 301 1 2 3 4 5
              eq_refl sample_sorted)
    as (low & s' & Hrun & _ & _ & Hfind).
  - vm_compute. reflexivity.
  - intros Hin. repeat (apply elem_of_cons in Hin as [Hin|Hin]; [discriminate|]).
    inversion Hin.
  - repeat constructor; discriminate.
  - reflexivity.
  - eexists. split; [exact Hrun|exact Hfind].
Defined.

(** * Properties of rpjtag_io.c *)

(** ** Opening and closing the lines *)

Lemma nop_sleep_step (fuel : nat) (x : Z) :
  nop_sleep (S fuel) x =
    if x =? 0 then Fine tt else let! x := as_int (x - 1) in nop_sleep fuel x.
Proof. reflexivity. Qed.

Lemma nop_sleep_ends (fuel : nat) :
  forall x, 0 <= x <= INT_MAX -> (Z.to_nat x <= fuel)%nat -> nop_sleep fuel x = Fine tt.
Proof.
  induction fuel as [|fuel IH]; intros x Hx Hfuel.
  - replace x with 0 by lia. reflexivity.
  - rewrite nop_sleep_step. destruct (Z.eqb_spec x 0); [reflexivity|].
    unfold as_int.
    replace ((INT_MIN <=? x - 1) && (x - 1 <=? INT_MAX)) with true.
    + simpl. apply IH; lia.
    + symmetry. apply andb_true_iff. unfold INT_MIN, INT_MAX in *. lia.
Qed.

Ltac known_sign :=
  repeat match goal with
         | H : 0 <= ?x |- context [?x <? 0] => rewrite (proj2 (Z.ltb_ge x 0) H)
         | H : 0 <= ?x |- context [?x >=? 0] =>
             rewrite (proj2 (Z.geb_le x 0) H)
         | H : ?x < 0 |- context [?x <? 0] => rewrite (proj2 (Z.ltb_lt x 0) H)
         | H : ?x < 0 |- context [?x >=? 0] =>
             rewrite (Z.geb_leb x 0), (proj2 (Z.leb_gt 0 x) H)
         end.

Ltac same_state :=
  unfold called, returned, set_chip, set_h_tck, set_h_tms, set_h_tdi, set_h_tdo,
    set_tdi_state; cbn; rewrite <- ?app_assoc; reflexivity.

(** X19. When the library opens the chip and grants the four claims,
    [setup_io] returns 0 with the five handles stored as answered and
    [tdi_state] reset to -1, after exactly the five requests: the chip,
    then TCK, TMS and TDI as outputs at low level, then TDO as input.
    Nothing is released: handles a previous [setup_io] had left in the
    statics are overwritten. *)
Theorem setup_io_success (st : jtag_state) (c tck tms tdi tdo : Z) (rest : list Z) :
  gpio_answers st = c :: tck :: tms :: tdi :: tdo :: rest ->
  0 <= c -> 0 <= tck -> 0 <= tms -> 0 <= tdi -> 0 <= tdo ->
  setup_io st =
    Fine (0, {| chip := c; h_tck := tck; h_tms := tms; h_tdi := tdi; h_tdo := tdo;
                tdi_state := -1;
                gpio_calls := gpio_calls st ++ setup_requests c;
                gpio_answers := rest |}).
Proof.
  intros Hans Hc Htck Htms Htdi Htdo.
  unfold setup_io.
  rewrite (nop_sleep_ends (Z.to_nat WAIT) WAIT
             ltac:(unfold WAIT, INT_MAX; lia) (le_n _)).
  destruct st as [c0 k m i o t calls answers]. simpl in Hans. subst answers.
  do 5 (cbn -[Z.ltb Z.geb]; known_sign).
  same_state.
Qed.

Lemma setup_io_success_witness :
  setup_io (jtag_start [0; 1; 2; 3; 4]) =
    Fine (0, {| chip := 0; h_tck := 1; h_tms := 2; h_tdi := 3; h_tdo := 4;
                tdi_state := -1;
                gpio_calls := [lgGpiochipOpen 0; lgGpioClaimOutput 0 0 24 0;
                               lgGpioClaimOutput 0 0 27 0; lgGpioClaimOutput 0 0 22 0;
                               lgGpioClaimInput 0 0 23];
                gpio_answers := [] |}).
Proof.
  apply (setup_io_success (jtag_start [0; 1; 2; 3; 4]) 0 1 2 3 4 [] eq_refl); lia.
Defined.

Lemma setup_io_fail_state (st : jtag_state) :
  setup_io_fail st =
    (-1, {| chip := -1; h_tck := -1; h_tms := -1; h_tdi := -1; h_tdo := -1;
            tdi_state := tdi_state st;
            gpio_calls := gpio_calls st ++ frees (line_handles st)
                          ++ (if chip st >=? 0 then [lgGpiochipClose (chip st)] else []);
            gpio_answers := gpio_answers st |}).
Proof.
  destruct st as [c k m i o t calls answers].
  destruct k, m, i, o, c; cbv -[app]; rewrite <- ?app_assoc, ?app_nil_r; reflexivity.
Qed.

(** X20. When the library refuses the chip, [setup_io] returns -1 with
    the error code left in [chip] and nothing else touched.  When it
    refuses one of the four claims, [setup_io] returns -1 after releasing
    every line handle in the statics that is not negative, which are the
    lines claimed in this call and whatever an earlier [setup_io] had left
    for the lines not reached, and closing the chip; the five statics end
    at -1 and [tdi_state] is as it was. *)
Theorem setup_io_failure (st : jtag_state) (c bad : Z) (good rest : list Z) :
  bad < 0 ->
  (gpio_answers st = bad :: rest ->
   setup_io st =
     Fine (-1, {| chip := bad; h_tck := h_tck st; h_tms := h_tms st;
                  h_tdi := h_tdi st; h_tdo := h_tdo st; tdi_state := tdi_state st;
                  gpio_calls := gpio_calls st
                                ++ [lgGpiochipOpen 0; fprintf_stderr (MsgOpenFailed bad)];
                  gpio_answers := rest |})) /\
  (gpio_answers st = c :: good ++ bad :: rest ->
   0 <= c -> Forall (fun h => 0 <= h) good -> (length good < 4)%nat ->
   setup_io st =
     Fine (-1, {| chip := -1; h_tck := -1; h_tms := -1; h_tdi := -1; h_tdo := -1;
                  tdi_state := tdi_state st;
                  gpio_calls :=
                    gpio_calls st
                    ++ take (S (S (length good))) (setup_requests c)
                    ++ [fprintf_stderr (claim_failed (length good))]
                    ++ frees (good ++ drop (S (length good)) (line_handles st))
                    ++ [lgGpiochipClose c];
                  gpio_answers := rest |})).
Proof.
  intros Hbad. split.
  - intros Hans.
    destruct st as [c0 k m i o t calls answers]. simpl in Hans. subst answers.
    unfold setup_io.
    rewrite (nop_sleep_ends (Z.to_nat WAIT) WAIT
               ltac:(unfold WAIT, INT_MAX; lia) (le_n _)).
    cbn -[Z.ltb Z.geb]. known_sign. same_state.
  - intros Hans Hc Hgood Hlen.
    destruct st as [c0 k m i o t calls answers]. simpl in Hans. subst answers.
    destruct good as [|a [|b [|e [|x good]]]]; simpl in Hlen; try lia;
      repeat match goal with
             | H : Forall _ (_ :: _) |- _ => apply Forall_cons in H as [? H]
             end;
      unfold setup_io;
      rewrite (nop_sleep_ends (Z.to_nat WAIT) WAIT
                 ltac:(unfold WAIT, INT_MAX; lia) (le_n _));
      do 5 (cbn -[Z.ltb Z.geb setup_io_fail]; known_sign);
      rewrite setup_io_fail_state; unfold frees, line_handles;
      cbn -[Z.ltb Z.geb]; known_sign;
      repeat match goal with
             | |- context [if ?h >=? 0 then _ else _] => destruct (h >=? 0)
             end;
      same_state.
Qed.

Lemma setup_io_failure_witness :
  setup_io (jtag_start [-2]) =
    Fine (-1, {| chip := -2; h_tck := -1; h_tms := -1; h_tdi := -1; h_tdo := -1;
                 tdi_state := -1;
                 gpio_calls := [lgGpiochipOpen 0; fprintf_stderr (MsgOpenFailed (-2))];
                 gpio_answers := [] |}) /\
  setup_io {| chip := 7; h_tck := 8; h_tms := 9; h_tdi := 10; h_tdo := 11;
              tdi_state := 1; gpio_calls := []; gpio_answers := [0; 1; 2; -5; 6] |} =
    Fine (-1, {| chip := -1; h_tck := -1; h_tms := -1; h_tdi := -1; h_tdo := -1;
                 tdi_state := 1;
                 gpio_calls := [lgGpiochipOpen 0; lgGpioClaimOutput 0 0 24 0;
                                lgGpioClaimOutput 0 0 27 0; lgGpioClaimOutput 0 0 22 0;
                                fprintf_stderr (MsgClaimFailed "TDI" 22);
                                lgGpioFreeLine 1; lgGpioFreeLine 2; lgGpioFreeLine 11;
                                lgGpiochipClose 0];
                 gpio_answers := [6] |}).
Proof.
  split.
  - apply (setup_io_failure (jtag_start [-2]) 0 (-2) [] []); [lia|reflexivity].
  - apply (setup_io_failure
             {| chip := 7; h_tck := 8; h_tms := 9; h_tdi := 10; h_tdo := 11;
                tdi_state := 1; gpio_calls := []; gpio_answers := [0; 1; 2; -5; 6] |}
             0 (-5) [1; 2] [6]); [lia|reflexivity|lia| |simpl; lia].
    repeat constructor; lia.
Defined.

Lemma close_io_state (st : jtag_state) :
  close_io st =
    {| chip := if chip st >=? 0 then -1 else chip st;
       h_tck := if h_tck st >=? 0 then -1 else h_tck st;
       h_tms := if h_tms st >=? 0 then -1 else h_tms st;
       h_tdi := if h_tdi st >=? 0 then -1 else h_tdi st;
       h_tdo := if h_tdo st >=? 0 then -1 else h_tdo st;
       tdi_state := tdi_state st;
       gpio_calls := gpio_calls st ++ frees (line_handles st)
                     ++ (if chip st >=? 0 then [lgGpiochipClose (chip st)] else []);
       gpio_answers := gpio_answers st |}.
Proof.
  destruct st as [c k m i o t calls answers].
  destruct k, m, i, o, c; cbv -[app]; rewrite <- ?app_assoc, ?app_nil_r; reflexivity.
Qed.

(** X21. [close_io] releases every line handle that is not negative, in
    the order TCK, TMS, TDI, TDO, then closes the chip if its handle is
    not negative; it asks nothing else of the library and leaves
    [tdi_state] alone.  Afterwards no handle is left, so a second
    [close_io] does nothing. *)
Theorem close_io_releases (st : jtag_state) :
  gpio_calls (close_io st) =
    gpio_calls st ++ frees (line_handles st)
    ++ (if chip st >=? 0 then [lgGpiochipClose (chip st)] else []) /\
  chip (close_io st) < 0 /\
  Forall (fun h => h < 0) (line_handles (close_io st)) /\
  tdi_state (close_io st) = tdi_state st /\
  gpio_answers (close_io st) = gpio_answers st /\
  close_io (close_io st) = close_io st.
Proof.
  destruct st as [c k m i o t calls answers].
  destruct k, m, i, o, c;
    (split; [cbv -[app]; rewrite <- ?app_assoc, ?app_nil_r; reflexivity|]);
    (split; [reflexivity|]);
    (split; [repeat constructor|]); repeat split; reflexivity.
Qed.

(** ** Sending bits *)

Lemma send_cmd_state (di ms : Z) (st : jtag_state) :
  send_cmd di ms st =
    {| chip := chip st; h_tck := h_tck st; h_tms := h_tms st; h_tdi := h_tdi st;
       h_tdo := h_tdo st; tdi_state := c_bool (di =? 1);
       gpio_calls := gpio_calls st
                     ++ send_cmd_calls (h_tck st) (h_tms st) (h_tdi st) di ms;
       gpio_answers := gpio_answers st |}.
Proof.
  unfold send_cmd, send_cmd_calls. destruct st as [c k m i o t calls answers].
  destruct (di =? 1), (ms =? 1);
    unfold tick_clk, gpio_set_line, gpio_clr_line, called, set_tdi_state; cbn;
    rewrite <- !app_assoc; reflexivity.
Qed.

Lemma sent_state (l : list (Z * Z)) :
  forall st : jtag_state,
    sent l st =
      {| chip := chip st; h_tck := h_tck st; h_tms := h_tms st; h_tdi := h_tdi st;
         h_tdo := h_tdo st;
         tdi_state := match last l with
                      | Some p => c_bool (fst p =? 1)
                      | None => tdi_state st
                      end;
         gpio_calls :=
           gpio_calls st
           ++ flat_map (fun p => send_cmd_calls (h_tck st) (h_tms st) (h_tdi st)
                                   (fst p) (snd p)) l;
         gpio_answers := gpio_answers st |}.
Proof.
  induction l as [|p l IH]; intros st.
  - destruct st. simpl. rewrite app_nil_r. reflexivity.
  - unfold sent in *. simpl fold_left. rewrite IH, send_cmd_state. simpl.
    rewrite <- app_assoc. rewrite last_cons. destruct (last l); reflexivity.
Qed.

Lemma sent_app (l1 l2 : list (Z * Z)) (st : jtag_state) :
  sent (l1 ++ l2) st = sent l2 (sent l1 st).
Proof. unfold sent. apply fold_left_app. Qed.

Lemma clocked_send_cmds (tck tms tdi : Z) (l : list (Z * Z)) :
  tck <> tms -> tck <> tdi -> tms <> tdi ->
  forall ms di,
    clocked tck tms tdi 0 ms di
      (flat_map (fun p => send_cmd_calls tck tms tdi (fst p) (snd p)) l)
    = map (fun p => (c_bool (fst p =? 1), c_bool (snd p =? 1))) l.
Proof.
  intros H1 H2 H3.
  induction l as [|p l IH]; intros ms di; [reflexivity|].
  simpl. rewrite !Z.eqb_refl.
  rewrite (proj2 (Z.eqb_neq tdi tck)) by congruence.
  rewrite (proj2 (Z.eqb_neq tdi tms)) by congruence.
  rewrite (proj2 (Z.eqb_neq tms tck)) by congruence.
  simpl. rewrite IH. reflexivity.
Qed.

(** X22. What a run of [send_cmd] calls puts on the wires.  With the
    three output lines on distinct handles and the clock low, every call
    gives one rising edge of TCK, and at that edge TDI is high exactly when
    the call's [iTDI] is 1 and TMS is high exactly when its [iTMS] is 1, in
    the order of the calls; any other argument value, such as 2, is driven
    low.  The handles are not changed and [tdi_state] follows the last TDI
    level. *)
Theorem send_cmd_sequence_clocked (l : list (Z * Z)) (st : jtag_state) :
  h_tck st <> h_tms st -> h_tck st <> h_tdi st -> h_tms st <> h_tdi st ->
  exists new,
    gpio_calls (sent l st) = gpio_calls st ++ new /\
    (forall ms di,
       clocked (h_tck st) (h_tms st) (h_tdi st) 0 ms di new
       = map (fun p => (c_bool (fst p =? 1), c_bool (snd p =? 1))) l) /\
    line_handles (sent l st) = line_handles st /\
    (forall p, last l = Some p -> tdi_state (sent l st) = c_bool (fst p =? 1)).
Proof.
  intros H1 H2 H3. rewrite sent_state. eexists. split; [reflexivity|].
  split; [apply clocked_send_cmds; assumption|]. split; [reflexivity|].
  intros p Hp. simpl. rewrite Hp. reflexivity.
Qed.

Lemma send_cmd_sequence_clocked_witness :
  exists new,
    gpio_calls (sent [(1, 0); (2, 1); (0, 5)]
                  {| chip := 0; h_tck := 1; h_tms := 2; h_tdi := 3; h_tdo := 4;
                     tdi_state := -1; gpio_calls := []; gpio_answers := [] |}) = new /\
    clocked 1 2 3 0 0 0 new = [(1, 0); (0, 1); (0, 0)].
Proof.
  destruct (send_cmd_sequence_clocked [(1, 0); (2, 1); (0, 5)]
              {| chip := 0; h_tck := 1; h_tms := 2; h_tdi := 3; h_tdo := 4;
                 tdi_state := -1; gpio_calls := []; gpio_answers := [] |})
    as (new & Hnew & Hclocked & _); [simpl; lia..|].
  exists new. split; [exact Hnew|]. exact (Hclocked 0 0).
Defined.

Ltac in_range :=
  symmetry; apply andb_true_iff; unfold INT_MIN, INT_MAX in *; lia.

Lemma send_cmdWord_msb_first_loop_spec (cmd lastBit : Z) (n : nat) :
  forall (fuel : nat) (st : jtag_state),
    (n <= 32)%nat -> (n <= fuel)%nat ->
    send_cmdWord_msb_first_loop fuel cmd lastBit (Z.of_nat n) st =
      Fine (sent (combine (bits_msb_first n cmd) (tms_last n lastBit)) st).
Proof.
  induction n as [|n IH]; intros fuel st Hn Hfuel.
  - destruct fuel; reflexivity.
  - destruct fuel as [|fuel]; [lia|].
    cbn [send_cmdWord_msb_first_loop].
    destruct (Z.eqb_spec (Z.of_nat (S n)) 0); [lia|].
    replace (Z.of_nat (S n) - 1) with (Z.of_nat n) by lia.
    unfold as_int, shift_right.
    replace ((INT_MIN <=? Z.of_nat n) && (Z.of_nat n <=? INT_MAX)) with true by in_range.
    cbn [bindO].
    replace ((0 <=? Z.of_nat n) && (Z.of_nat n <? 32)) with true by in_range.
    cbn [bindO]. rewrite IH by lia. f_equal.
    destruct n as [|n].
    + cbn [bits_msb_first tms_last replicate app combine]. unfold sent.
      cbn [fold_left fst snd].
      change (Z.of_nat 0 =? 0) with true. rewrite andb_true_r. reflexivity.
    + change (tms_last (S (S n)) lastBit) with (0 :: tms_last (S n) lastBit).
      cbn [bits_msb_first combine]. unfold sent at 2. cbn [fold_left fst snd].
      replace (Z.of_nat (S n) =? 0) with false by (symmetry; apply Z.eqb_neq; lia).
      rewrite andb_false_r. reflexivity.
Qed.

Lemma send_cmdWord_msb_last_loop_spec (cmd lastBit : Z) (n k : nat) :
  forall (i fuel : nat) (st : jtag_state),
    (i + k = n)%nat -> (n <= 32)%nat -> (k <= fuel)%nat ->
    send_cmdWord_msb_last_loop fuel cmd lastBit (Z.of_nat n) (Z.of_nat i) st =
      Fine (sent (combine (map (fun j => Z.land (Z.shiftr cmd (Z.of_nat j)) 1) (seq i k))
                    (tms_last k lastBit)) st).
Proof.
  induction k as [|k IH]; intros i fuel st Hi Hn Hfuel.
  - destruct fuel; simpl; destruct (Z.ltb_spec (Z.of_nat i) (Z.of_nat n));
      try lia; reflexivity.
  - destruct fuel as [|fuel]; [lia|].
    cbn [send_cmdWord_msb_last_loop].
    destruct (Z.ltb_spec (Z.of_nat i) (Z.of_nat n)); [|lia].
    unfold shift_right.
    replace ((0 <=? Z.of_nat i) && (Z.of_nat i <? 32)) with true by in_range.
    cbn [bindO].
    replace (Z.of_nat i + 1) with (Z.of_nat (S i)) by lia.
    rewrite (IH (S i)) by lia. f_equal.
    destruct k as [|k].
    + cbn [seq map tms_last replicate app combine]. unfold sent.
      cbn [fold_left fst snd].
      replace (Z.of_nat n =? Z.of_nat (S i)) with true
        by (symmetry; apply Z.eqb_eq; lia).
      rewrite andb_true_r. reflexivity.
    + change (tms_last (S (S k)) lastBit) with (0 :: tms_last (S k) lastBit).
      cbn [seq map combine]. unfold sent at 2. cbn [fold_left fst snd].
      replace (Z.of_nat n =? Z.of_nat (S i)) with false
        by (symmetry; apply Z.eqb_neq; lia).
      rewrite andb_false_r. reflexivity.
Qed.

Lemma rev_bits_msb_first (n : nat) (w : Z) :
  rev (bits_msb_first n w) = map (fun j => Z.land (Z.shiftr w (Z.of_nat j)) 1) (seq 0 n).
Proof.
  induction n as [|n IH]; [reflexivity|].
  cbn [bits_msb_first rev]. rewrite IH, seq_S, map_app. reflexivity.
Qed.

(** X23. [send_byte] is eight [send_cmd] calls: the bits of the byte from
    bit 7 down to bit 0 on TDI, with TMS 0 except for the last cycle,
    where it is 1 exactly when [lastbyte] is 1.  It is what
    [send_cmdWord_msb_first] does for a word of 8 bits. *)
Theorem send_byte_bits (byte lastbyte : Z) (st : jtag_state) :
  send_byte byte lastbyte st =
    Fine (sent (combine (bits_msb_first 8 byte) (tms_last 8 lastbyte)) st) /\
  send_cmdWord_msb_first byte lastbyte 8 st = send_byte byte lastbyte st.
Proof.
  assert (H : send_byte byte lastbyte st =
                Fine (sent (combine (bits_msb_first 8 byte) (tms_last 8 lastbyte)) st)).
  { unfold send_byte, sent. cbn [send_byte_loop bits_msb_first tms_last replicate app
                                   combine fold_left fst snd].
    cbn [Z.geb Z.compare Z.eqb Z.sub Z.add Z.opp Z.pos_sub Pos.pred_double Z.of_nat
           Pos.of_succ_nat Pos.succ Z.succ_double Z.pred_double Z.double Pos.compare
           Pos.compare_cont andb].
    reflexivity. }
  split; [exact H|]. rewrite H. unfold send_cmdWord_msb_first.
  apply (send_cmdWord_msb_first_loop_spec byte lastbyte 8); [lia|].
  change (Z.to_nat 8) with 8%nat. lia.
Qed.

(** X24. The two word senders differ in the order of the bits only.  For
    a count [n] of at most 32, [send_cmdWord_msb_first] sends the bits
    [n-1] down to 0 of the word and [send_cmdWord_msb_last] sends the same
    bits from 0 up to [n-1], both with TMS 0 but for the last cycle, where
    it is 1 exactly when [lastBit] is 1; a count of 0 sends nothing. *)
Theorem send_cmdWord_bit_order (cmd lastBit : Z) (n : nat) (st : jtag_state) :
  (n <= 32)%nat ->
  send_cmdWord_msb_first cmd lastBit (Z.of_nat n) st =
    Fine (sent (combine (bits_msb_first n cmd) (tms_last n lastBit)) st) /\
  send_cmdWord_msb_last cmd lastBit (Z.of_nat n) st =
    Fine (sent (combine (rev (bits_msb_first n cmd)) (tms_last n lastBit)) st).
Proof.
  intros Hn. split.
  - apply send_cmdWord_msb_first_loop_spec; lia.
  - unfold send_cmdWord_msb_last. rewrite rev_bits_msb_first.
    apply (send_cmdWord_msb_last_loop_spec cmd lastBit n n 0); lia.
Qed.

Lemma send_cmdWord_bit_order_witness :
  send_cmdWord_msb_first 6 1 3 (jtag_start []) =
    Fine (sent [(1, 0); (1, 0); (0, 1)] (jtag_start [])) /\
  send_cmdWord_msb_last 6 1 3 (jtag_start []) =
    Fine (sent [(0, 0); (1, 0); (1, 1)] (jtag_start [])).
Proof.
  apply (send_cmdWord_bit_order 6 1 3 (jtag_start [])). lia.
Defined.

Lemma send_cmdWord_msb_last_overrun (cmd lastBit n : Z) (k : nat) :
  forall (i fuel : nat) (st : jtag_state),
    (i + k = 32)%nat -> 32 < n -> (k < fuel)%nat ->
    send_cmdWord_msb_last_loop fuel cmd lastBit n (Z.of_nat i) st = Undefined ShiftCount.
Proof.
  induction k as [|k IH]; intros i fuel st Hi Hn Hfuel;
    (destruct fuel as [|fuel]; [lia|]);
    cbn [send_cmdWord_msb_last_loop];
    (destruct (Z.ltb_spec (Z.of_nat i) n); [|lia]); unfold shift_right.
  - replace ((0 <=? Z.of_nat i) && (Z.of_nat i <? 32)) with false; [reflexivity|].
    symmetry. apply andb_false_iff. right. apply Z.ltb_ge. lia.
  - replace ((0 <=? Z.of_nat i) && (Z.of_nat i <? 32)) with true by in_range.
    cbn [bindO]. replace (Z.of_nat i + 1) with (Z.of_nat (S i)) by lia.
    apply IH; lia.
Qed.

(** X25. The bit count of the word senders is not checked.  A count
    above 32 shifts the 32-bit word by its width or more, at once in
    [send_cmdWord_msb_first] and after 32 cycles in
    [send_cmdWord_msb_last].  With a negative count
    [send_cmdWord_msb_last] sends nothing, while the [while (bitoffset--)]
    of [send_cmdWord_msb_first] enters its body and shifts by a negative
    count. *)
Theorem send_cmdWord_count_range (cmd lastBit n : Z) (st : jtag_state) :
  (32 < n <= INT_MAX ->
   send_cmdWord_msb_first cmd lastBit n st = Undefined ShiftCount /\
   send_cmdWord_msb_last cmd lastBit n st = Undefined ShiftCount) /\
  (INT_MIN < n < 0 ->
   send_cmdWord_msb_first cmd lastBit n st = Undefined ShiftCount /\
   send_cmdWord_msb_last cmd lastBit n st = Fine st).
Proof.
  unfold send_cmdWord_msb_first, send_cmdWord_msb_last. split; intros Hn; split.
  - cbn [send_cmdWord_msb_first_loop].
    destruct (Z.eqb_spec n 0); [lia|]. unfold as_int, shift_right.
    replace ((INT_MIN <=? n - 1) && (n - 1 <=? INT_MAX)) with true by in_range.
    cbn [bindO].
    replace ((0 <=? n - 1) && (n - 1 <? 32)) with false; [reflexivity|].
    symmetry. apply andb_false_iff. right. apply Z.ltb_ge. lia.
  - apply (send_cmdWord_msb_last_overrun cmd lastBit n 32 0); lia.
  - cbn [send_cmdWord_msb_first_loop].
    destruct (Z.eqb_spec n 0); [lia|]. unfold as_int, shift_right.
    replace ((INT_MIN <=? n - 1) && (n - 1 <=? INT_MAX)) with true by in_range.
    cbn [bindO].
    replace ((0 <=? n - 1) && (n - 1 <? 32)) with false; [reflexivity|].
    symmetry. apply andb_false_iff. left. apply Z.leb_gt. lia.
  - replace (Z.to_nat n) with 0%nat by lia. cbn [send_cmdWord_msb_last_loop].
    destruct (Z.ltb_spec 0 n); [lia|reflexivity].
Qed.

Lemma send_cmdWord_count_range_witness :
  (send_cmdWord_msb_first 1 0 33 (jtag_start []) = Undefined ShiftCount /\
   send_cmdWord_msb_last 1 0 33 (jtag_start []) = Undefined ShiftCount) /\
  (send_cmdWord_msb_first 1 0 (-1) (jtag_start []) = Undefined ShiftCount /\
   send_cmdWord_msb_last 1 0 (-1) (jtag_start []) = Fine (jtag_start [])).
Proof.
  split.
  - apply (send_cmdWord_count_range 1 0 33 (jtag_start [])). unfold INT_MAX. lia.
  - apply (send_cmdWord_count_range 1 0 (-1) (jtag_start [])). unfold INT_MIN. lia.
Defined.

(** ** Sending bits without TMS *)

Lemma land_1_b2z (x : Z) : Z.land x 1 = Z.b2z (Z.testbit x 0).
Proof.
  change 1 with (Z.ones 1) at 1. rewrite Z.land_ones by lia.
  rewrite Z.testbit_spec' by lia. change (2 ^ 0) with 1. rewrite Z.div_1_r.
  reflexivity.
Qed.

Lemma bit_of_shiftr (w k : Z) :
  0 <= k -> Z.land (Z.shiftr w k) 1 = Z.b2z (Z.testbit w k).
Proof.
  intros Hk. rewrite land_1_b2z, Z.shiftr_spec by lia. reflexivity.
Qed.

Lemma land_pow2 (w k : Z) :
  0 <= k -> Z.land w (2 ^ k) = if Z.testbit w k then 2 ^ k else 0.
Proof.
  intros Hk. apply Z.bits_inj'. intros j Hj.
  rewrite Z.land_spec, Z.pow2_bits_eqb by lia.
  destruct (Z.eqb_spec k j) as [->|Hne].
  - rewrite andb_true_r. destruct (Z.testbit w j) eqn:E.
    + rewrite Z.pow2_bits_true by lia. reflexivity.
    + rewrite Z.bits_0. reflexivity.
  - rewrite andb_false_r. destruct (Z.testbit w k).
    + rewrite Z.pow2_bits_false by exact Hne. reflexivity.
    + rewrite Z.bits_0. reflexivity.
Qed.

Lemma mask_bit (w k : Z) :
  0 <= k -> c_bool (negb (Z.land w (2 ^ k) =? 0)) = Z.land (Z.shiftr w k) 1.
Proof.
  intros Hk. rewrite land_pow2, bit_of_shiftr by exact Hk.
  destruct (Z.testbit w k); [|reflexivity].
  destruct (Z.eqb_spec (2 ^ k) 0) as [E|_]; [|reflexivity].
  pose proof (Z.pow_pos_nonneg 2 k ltac:(lia) Hk). lia.
Qed.

Lemma send_cmd_no_tms_state (iTDI : Z) (st : jtag_state) :
  send_cmd_no_tms iTDI st =
    {| chip := chip st; h_tck := h_tck st; h_tms := h_tms st; h_tdi := h_tdi st;
       h_tdo := h_tdo st; tdi_state := c_bool (negb (iTDI =? 0));
       gpio_calls := gpio_calls st
                     ++ no_tms_calls (h_tck st) (h_tdi st) (tdi_state st)
                          (c_bool (negb (iTDI =? 0)));
       gpio_answers := gpio_answers st |}.
Proof.
  unfold send_cmd_no_tms, no_tms_calls. destruct st as [c k m i o t calls answers].
  cbn [tdi_state h_tdi h_tck].
  destruct (iTDI =? 0); cbn [negb c_bool].
  - destruct (Z.eqb_spec t 0) as [->|Hne]; cbn [negb];
      unfold gpio_set_line, gpio_clr_line, called, set_tdi_state; cbn;
      rewrite <- ?app_assoc; reflexivity.
  - destruct (Z.eqb_spec t 1) as [->|Hne]; cbn [negb];
      unfold gpio_set_line, gpio_clr_line, called, set_tdi_state; cbn;
      rewrite <- ?app_assoc; reflexivity.
Qed.

Lemma clocked_app (tck tms tdi : Z) (l1 l2 : list gpio_call) :
  forall ck ms di,
    clocked tck tms tdi ck ms di (l1 ++ l2) =
      clocked tck tms tdi ck ms di l1
      ++ (let '(ck', ms', di') := levels_after tck tms tdi ck ms di l1 in
          clocked tck tms tdi ck' ms' di' l2).
Proof.
  induction l1 as [|c l1 IH]; intros ck ms di; [reflexivity|].
  destruct c; simpl; try apply IH.
  destruct (line_handle =? tck); [rewrite <- app_assoc, IH; reflexivity|].
  destruct (line_handle =? tms); [apply IH|].
  destruct (line_handle =? tdi); apply IH.
Qed.

Lemma levels_after_app (tck tms tdi : Z) (l1 l2 : list gpio_call) :
  forall ck ms di,
    levels_after tck tms tdi ck ms di (l1 ++ l2) =
      (let '(ck', ms', di') := levels_after tck tms tdi ck ms di l1 in
       levels_after tck tms tdi ck' ms' di' l2).
Proof.
  induction l1 as [|c l1 IH]; intros ck ms di; [reflexivity|].
  destruct c; simpl; try apply IH.
  destruct (line_handle =? tck); [apply IH|].
  destruct (line_handle =? tms); [apply IH|].
  destruct (line_handle =? tdi); apply IH.
Qed.

Lemma no_tms_calls_seen (tck tms tdi state b ms di : Z) :
  tck <> tms -> tck <> tdi -> tms <> tdi ->
  b = 0 \/ b = 1 -> (state = 0 \/ state = 1 -> di = state) ->
  clocked tck tms tdi 0 ms di (no_tms_calls tck tdi state b) = [(b, ms)] /\
  levels_after tck tms tdi 0 ms di (no_tms_calls tck tdi state b) = (0, ms, b).
Proof.
  intros H1 H2 H3 Hb Hsync. unfold no_tms_calls.
  destruct (Z.eqb_spec state b) as [->|Hne]; simpl;
    rewrite ?Z.eqb_refl, ?(proj2 (Z.eqb_neq tdi tck)), ?(proj2 (Z.eqb_neq tdi tms))
      by congruence; simpl.
  - rewrite (Hsync Hb). split; reflexivity.
  - split; reflexivity.
Qed.

Lemma sent_no_tms_seen (l : list Z) :
  forall (st : jtag_state) (ms di : Z),
    h_tck st <> h_tms st -> h_tck st <> h_tdi st -> h_tms st <> h_tdi st ->
    tdi_in_sync st di ->
    exists new,
      sent_no_tms l st =
        {| chip := chip st; h_tck := h_tck st; h_tms := h_tms st; h_tdi := h_tdi st;
           h_tdo := h_tdo st;
           tdi_state := match last l with
                        | Some i => c_bool (negb (i =? 0))
                        | None => tdi_state st
                        end;
           gpio_calls := gpio_calls st ++ new;
           gpio_answers := gpio_answers st |} /\
      clocked (h_tck st) (h_tms st) (h_tdi st) 0 ms di new
        = map (fun i => (c_bool (negb (i =? 0)), ms)) l /\
      levels_after (h_tck st) (h_tms st) (h_tdi st) 0 ms di new
        = (0, ms, match last l with
                  | Some i => c_bool (negb (i =? 0))
                  | None => di
                  end).
Proof.
  induction l as [|i l IH]; intros st ms di H1 H2 H3 Hsync.
  - exists []. destruct st. simpl. rewrite app_nil_r. repeat split.
  - unfold sent_no_tms in *. cbn [fold_left].
    set (b := c_bool (negb (i =? 0))).
    assert (Hb : b = 0 \/ b = 1) by (subst b; destruct (i =? 0); simpl; auto).
    destruct (no_tms_calls_seen (h_tck st) (h_tms st) (h_tdi st) (tdi_state st) b ms di
                H1 H2 H3 Hb Hsync) as [Hseen Hlevels].
    destruct (IH (send_cmd_no_tms i st) ms b) as (new & Hst & Hclocked & Hafter).
    1-3: rewrite send_cmd_no_tms_state; assumption.
    { rewrite send_cmd_no_tms_state. intros _. reflexivity. }
    rewrite Hst. rewrite send_cmd_no_tms_state in *. cbn [chip h_tck h_tms h_tdi h_tdo
      tdi_state gpio_calls gpio_answers] in *. fold b in Hclocked, Hafter |- *.
    exists (no_tms_calls (h_tck st) (h_tdi st) (tdi_state st) b ++ new).
    rewrite clocked_app, levels_after_app, Hseen, Hlevels, Hclocked, Hafter.
    rewrite last_cons, <- app_assoc.
    split; [destruct (last l); reflexivity|].
    split; [reflexivity|]. destruct (last l); reflexivity.
Qed.

(** X26. [send_byte_no_tms] clocks the eight bits of the byte out on TDI,
    highest first, just as [send_byte] does, although it passes the masked
    byte where a 0 or a 1 is expected and writes TDI only when the wanted
    level differs from [tdi_state].  This holds with the three output lines
    on distinct handles, the clock low and [tdi_state] in agreement with
    the TDI line; TMS keeps its level throughout, and the agreement holds
    again at the end. *)
Theorem send_byte_no_tms_bits (byte ms di : Z) (st : jtag_state) :
  h_tck st <> h_tms st -> h_tck st <> h_tdi st -> h_tms st <> h_tdi st ->
  tdi_in_sync st di ->
  exists new,
    gpio_calls (send_byte_no_tms byte st) = gpio_calls st ++ new /\
    clocked (h_tck st) (h_tms st) (h_tdi st) 0 ms di new
      = map (fun b => (b, ms)) (bits_msb_first 8 byte) /\
    levels_after (h_tck st) (h_tms st) (h_tdi st) 0 ms di new = (0, ms, Z.land byte 1) /\
    tdi_state (send_byte_no_tms byte st) = Z.land byte 1 /\
    line_handles (send_byte_no_tms byte st) = line_handles st.
Proof.
  intros H1 H2 H3 Hsync.
  destruct (sent_no_tms_seen
              [Z.land byte (2 ^ 7); Z.land byte (2 ^ 6); Z.land byte (2 ^ 5);
               Z.land byte (2 ^ 4); Z.land byte (2 ^ 3); Z.land byte (2 ^ 2);
               Z.land byte (2 ^ 1); Z.land byte (2 ^ 0)] st ms di H1 H2 H3 Hsync)
    as (new & Hst & Hclocked & Hafter).
  change (send_byte_no_tms byte st) with
    (sent_no_tms [Z.land byte (2 ^ 7); Z.land byte (2 ^ 6); Z.land byte (2 ^ 5);
                  Z.land byte (2 ^ 4); Z.land byte (2 ^ 3); Z.land byte (2 ^ 2);
                  Z.land byte (2 ^ 1); Z.land byte (2 ^ 0)] st).
  rewrite Hst. exists new. cbn [gpio_calls tdi_state line_handles h_tck h_tms h_tdi h_tdo].
  cbn [map last] in Hclocked, Hafter |- *.
  rewrite !mask_bit in * by lia. rewrite Z.shiftr_0_r in *.
  repeat split; assumption || reflexivity.
Qed.

Lemma send_byte_no_tms_bits_witness :
  exists new,
    gpio_calls (send_byte_no_tms 165
                  {| chip := 0; h_tck := 1; h_tms := 2; h_tdi := 3; h_tdo := 4;
                     tdi_state := -1; gpio_calls := []; gpio_answers := [] |}) = new /\
    clocked 1 2 3 0 1 0 new
      = [(1, 1); (0, 1); (1, 1); (0, 1); (0, 1); (1, 1); (0, 1); (1, 1)].
Proof.
  destruct (send_byte_no_tms_bits 165 1 0
              {| chip := 0; h_tck := 1; h_tms := 2; h_tdi := 3; h_tdo := 4;
                 tdi_state := -1; gpio_calls := []; gpio_answers := [] |})
    as (new & Hnew & Hclocked & _).
  1-3: simpl; lia.
  { intros [H|H]; discriminate H. }
  exists new. split; [exact Hnew|exact Hclocked].
Defined.

(** ** Reading bits *)

Lemma read_jtag_tdo_state (st : jtag_state) :
  read_jtag_tdo st =
    ((if hd 0 (gpio_answers st) =? 0 then 0 else 1),
     {| chip := chip st; h_tck := h_tck st; h_tms := h_tms st; h_tdi := h_tdi st;
        h_tdo := h_tdo st; tdi_state := tdi_state st;
        gpio_calls := gpio_calls st ++ [lgGpioRead (h_tdo st)];
        gpio_answers := tl (gpio_answers st) |}).
Proof. destruct st. reflexivity. Qed.

Lemma answers_read_cycle (tms : Z) (st : jtag_state) :
  gpio_answers (read_cycle tms st) = tl (gpio_answers st).
Proof.
  unfold read_cycle. rewrite send_cmd_state, read_jtag_tdo_state. reflexivity.
Qed.

Lemma answers_read_cycles (k : nat) (st : jtag_state) :
  gpio_answers (Nat.iter k (read_cycle 0) st) = drop k (gpio_answers st).
Proof.
  induction k as [|k IH]; [reflexivity|].
  cbn [Nat.iter nat_rect]. rewrite answers_read_cycle.
  change (Nat.iter k (read_cycle 0) st) with (nat_rect _ st (fun _ => read_cycle 0) k) in IH.
  rewrite IH. apply tl_drop.
Qed.

Lemma hd_drop {A : Type} (d : A) (k : nat) (l : list A) : hd d (drop k l) = nth k l d.
Proof.
  revert l. induction k as [|k IH]; intros [|x l]; simpl; auto.
Qed.

Lemma quot_8 (k : nat) : Z.quot (Z.of_nat k) 8 = Z.of_nat (k / 8).
Proof.
  rewrite Z.quot_div_nonneg by lia. rewrite Nat2Z.inj_div. reflexivity.
Qed.

Lemma land_7 (k : nat) : Z.land (Z.of_nat k) 7 = Z.of_nat (k mod 8).
Proof.
  change 7 with (Z.ones 3). rewrite Z.land_ones by lia.
  rewrite Nat2Z.inj_mod. reflexivity.
Qed.

Lemma same_bit_index (j k : nat) :
  (j / 8 = k / 8)%nat -> (j mod 8 = k mod 8)%nat -> j = k.
Proof.
  intros Hq Hr. rewrite (Nat.div_mod_eq j 8), (Nat.div_mod_eq k 8). lia.
Qed.

Lemma or_into_bit (data : list Z) (k : nat) (t : Z) :
  (k / 8 < length data)%nat -> t = 0 \/ t = 1 ->
  exists data',
    or_into data (Z.quot (Z.of_nat k) 8) (Z.shiftl t (Z.land (Z.of_nat k) 7))
      = Fine data' /\
    length data' = length data /\
    forall j, buffer_bit data' j = buffer_bit data j || ((j =? k)%nat && (t =? 1)).
Proof.
  intros Hk Ht. rewrite quot_8, land_7. unfold or_into.
  destruct (Z.ltb_spec (Z.of_nat (k / 8)) 0); [lia|]. rewrite Nat2Z.id.
  destruct (lookup_lt_is_Some_2 data (k / 8)%nat Hk) as [b Hb]. rewrite Hb.
  eexists. split; [reflexivity|]. split; [apply length_insert|].
  intros j. unfold buffer_bit.
  destruct (Nat.eq_dec (j / 8)%nat (k / 8)%nat) as [Hq|Hq].
  - rewrite Hq, list_lookup_insert_eq by exact Hk. rewrite Hb.
    remember (j mod 8)%nat as jm eqn:Hjm. remember (k mod 8)%nat as km eqn:Hkm.
    simpl. rewrite Z.lor_spec. f_equal.
    rewrite Z.shiftl_spec by lia.
    destruct Ht as [-> | ->].
    + rewrite Z.bits_0, andb_false_r. reflexivity.
    + change 1 with (2 ^ 0) at 1. rewrite Z.pow2_bits_eqb by lia.
      rewrite andb_true_r.
      destruct (Nat.eqb_spec j k) as [->|Hne].
      * subst jm km. rewrite Z.sub_diag. reflexivity.
      * apply Z.eqb_neq. intros Heq. apply Hne.
        apply same_bit_index; [exact Hq|]. subst jm km. lia.
  - rewrite list_lookup_insert_ne by (intros Heq; apply Hq; symmetry; exact Heq).
    destruct (Nat.eqb_spec j k) as [->|Hne]; [contradiction|].
    rewrite orb_false_r. reflexivity.
Qed.

Lemma memset_zero_bits (data : list Z) (m : nat) :
  (m <= length data)%nat ->
  exists data',
    memset_zero data (Z.of_nat m) = Fine data' /\
    length data' = length data /\
    forall j, buffer_bit data' j = if (j <? 8 * m)%nat then false else buffer_bit data j.
Proof.
  intros Hm. unfold memset_zero.
  replace ((0 <=? Z.of_nat m) && (Z.of_nat m <=? Z.of_nat (length data))) with true
    by (symmetry; apply andb_true_iff; lia).
  rewrite Nat2Z.id. eexists. split; [reflexivity|]. split.
  - rewrite length_app, length_replicate, length_drop. lia.
  - intros j. unfold buffer_bit.
    destruct (Nat.ltb_spec j (8 * m)) as [Hlt|Hge].
    + assert (Hq : (j / 8 < m)%nat) by (apply Nat.Div0.div_lt_upper_bound; lia).
      rewrite lookup_app_l by (rewrite length_replicate; exact Hq).
      rewrite lookup_replicate_2 by exact Hq. simpl. apply Z.bits_0.
    + assert (Hq : (m <= j / 8)%nat) by (apply Nat.div_le_lower_bound; lia).
      rewrite lookup_app_r by (rewrite length_replicate; exact Hq).
      rewrite length_replicate, lookup_drop.
      replace (m + (j / 8 - m))%nat with (j / 8)%nat by lia. reflexivity.
Qed.

Lemma nth_tl {A : Type} (d : A) (i : nat) (l : list A) : nth i (tl l) d = nth (S i) l d.
Proof. destruct l; destruct i; reflexivity. Qed.

Lemma hd_nth {A : Type} (d : A) (l : list A) : hd d l = nth 0 l d.
Proof. destruct l; reflexivity. Qed.

Lemma jtag_read_data_loop_spec (k : nat) :
  forall (fuel : nat) (data : list Z) (st : jtag_state),
    (k <= fuel)%nat -> (k / 8 < length data)%nat ->
    exists data',
      jtag_read_data_loop fuel data (Z.of_nat k) st
        = Fine (data', Nat.iter k (read_cycle 0) st) /\
      length data' = length data /\
      forall j, buffer_bit data' j =
        buffer_bit data j
        || ((1 <=? j)%nat && (j <=? k)%nat
            && negb (nth (k - j) (gpio_answers st) 0 =? 0)).
Proof.
  induction k as [|k IH]; intros fuel data st Hfuel Hlen.
  - exists data. split; [destruct fuel; reflexivity|]. split; [reflexivity|].
    intros j. destruct (Nat.leb_spec 1 j), (Nat.leb_spec j 0); try lia;
      simpl; rewrite ?orb_false_r; reflexivity.
  - destruct fuel as [|fuel]; [lia|]. cbn [jtag_read_data_loop].
    destruct (Z.gtb_spec (Z.of_nat (S k)) 0); [|lia].
    pose proof (read_jtag_tdo_state st) as Hread.
    destruct (read_jtag_tdo st) as [temp st1] eqn:E.
    assert (Hcycle : send_cmd 0 0 st1 = read_cycle 0 st)
      by (unfold read_cycle; rewrite E; reflexivity).
    injection Hread as Htemp _.
    assert (Ht : temp = 0 \/ temp = 1)
      by (rewrite Htemp; destruct (hd 0 (gpio_answers st) =? 0); auto).
    destruct (or_into_bit data (S k) temp Hlen Ht) as (data1 & Hor & Hlen1 & Hbits1).
    rewrite Hor, Hcycle. cbn [bindO].
    replace (Z.of_nat (S k) - 1) with (Z.of_nat k) by lia.
    destruct (IH fuel data1 (read_cycle 0 st)) as (data' & Hloop & Hlen' & Hbits').
    { lia. }
    { rewrite Hlen1. eapply Nat.le_lt_trans; [|exact Hlen].
      apply Nat.Div0.div_le_mono. lia. }
    rewrite Hloop, Nat.iter_succ_r.
    exists data'. split; [reflexivity|]. split; [congruence|].
    intros j. rewrite Hbits', Hbits1, answers_read_cycle, nth_tl.
    assert (Hs : (temp =? 1) = negb (nth 0 (gpio_answers st) 0 =? 0)).
    { rewrite Htemp, hd_nth. destruct (nth 0 (gpio_answers st) 0 =? 0); reflexivity. }
    rewrite Hs. rewrite <- orb_assoc. f_equal.
    destruct (Nat.eqb_spec j (S k)) as [->|Hne].
    + rewrite Nat.sub_diag.
      replace (S k <=? k)%nat with false by (symmetry; apply Nat.leb_gt; lia).
      replace (S k <=? S k)%nat with true by (symmetry; apply Nat.leb_le; lia).
      rewrite andb_false_r, orb_false_r. reflexivity.
    + cbn [andb orb].
      destruct (Nat.leb_spec 1 j); [|reflexivity].
      destruct (Nat.leb_spec j k).
      * replace (j <=? S k)%nat with true by (symmetry; apply Nat.leb_le; lia).
        replace (S k - j)%nat with (S (k - j)) by lia. reflexivity.
      * replace (j <=? S k)%nat with false by (symmetry; apply Nat.leb_gt; lia).
        reflexivity.
Qed.

(** X27. [jtag_read_data] for a bit count [n] above 0 and a buffer of at
    least [(n + 7) / 8] bytes runs [n] cycles, each reading TDO and then
    clocking with TDI 0, with TMS 0 but for the last cycle, where it is 1.
    The first bit read lands in bit [n - 1] of the buffer and the last in
    bit 0 (bit [j] being bit [j mod 8] of byte [j / 8]); any answer of the
    library other than 0, an error code too, counts as a 1.  The bits from
    [n] to the end of the last byte used are left 0, and the bytes behind
    it are untouched. *)
Theorem jtag_read_data_bits (data : list Z) (n : nat) (st : jtag_state) :
  (0 < n)%nat -> Z.of_nat n + 7 <= INT_MAX -> ((n + 7) / 8 <= length data)%nat ->
  exists data',
    jtag_read_data data (Z.of_nat n) st
      = Fine (data', read_cycle 1 (Nat.iter (n - 1) (read_cycle 0) st)) /\
    length data' = length data /\
    (forall j, (j < n)%nat ->
       buffer_bit data' j = negb (nth (n - 1 - j) (gpio_answers st) 0 =? 0)) /\
    (forall j, (n <= j < 8 * ((n + 7) / 8))%nat -> buffer_bit data' j = false) /\
    (forall j, (8 * ((n + 7) / 8) <= j)%nat -> buffer_bit data' j = buffer_bit data j).
Proof.
  intros Hn Hmax Hlen. unfold jtag_read_data.
  destruct (Z.eqb_spec (Z.of_nat n) 0); [lia|].
  unfold as_int.
  replace ((INT_MIN <=? Z.of_nat n + 7) && (Z.of_nat n + 7 <=? INT_MAX)) with true
    by in_range.
  cbn [bindO].
  replace (Z.of_nat n + 7) with (Z.of_nat (n + 7)) by lia. rewrite quot_8.
  destruct (memset_zero_bits data ((n + 7) / 8) Hlen) as (data0 & Hset & Hlen0 & Hbits0).
  rewrite Hset. cbn [bindO].
  replace ((INT_MIN <=? Z.of_nat n - 1) && (Z.of_nat n - 1 <=? INT_MAX)) with true
    by in_range.
  cbn [bindO].
  replace (Z.of_nat n - 1) with (Z.of_nat (n - 1)) by lia. rewrite Nat2Z.id.
  assert (Hbytes : (1 <= (n + 7) / 8)%nat) by (apply Nat.div_le_lower_bound; lia).
  assert (Hspan : (n <= 8 * ((n + 7) / 8) < n + 8)%nat).
  { pose proof (Nat.div_mod_eq (n + 7) 8).
    pose proof (Nat.mod_upper_bound (n + 7) 8 ltac:(lia)). lia. }
  destruct (jtag_read_data_loop_spec (n - 1) n data0 st) as (data1 & Hloop & Hlen1 & Hbits1).
  { lia. }
  { rewrite Hlen0. eapply Nat.lt_le_trans; [|exact Hlen].
    apply Nat.Div0.div_lt_upper_bound. lia. }
  rewrite Hloop. cbn [bindO fst snd].
  set (stk := Nat.iter (n - 1) (read_cycle 0) st).
  pose proof (read_jtag_tdo_state stk) as Hread.
  destruct (read_jtag_tdo stk) as [temp st1] eqn:E.
  assert (Hcycle : send_cmd 0 1 st1 = read_cycle 1 stk)
    by (unfold read_cycle; rewrite E; reflexivity).
  injection Hread as Htemp _.
  assert (Ht : temp = 0 \/ temp = 1)
    by (rewrite Htemp; destruct (hd 0 (gpio_answers stk) =? 0); auto).
  destruct (or_into_bit data1 0 temp ltac:(simpl; lia) Ht)
    as (data' & Hor & Hlen' & Hbits').
  change (Z.quot (Z.of_nat 0) 8) with 0 in Hor.
  change (Z.land (Z.of_nat 0) 7) with 0 in Hor. rewrite Z.shiftl_0_r in Hor.
  rewrite Hor, Hcycle. cbn [bindO].
  exists data'. split; [reflexivity|]. split; [congruence|].
  assert (Hs : (temp =? 1) = negb (nth (n - 1) (gpio_answers st) 0 =? 0)).
  { rewrite Htemp. subst stk. rewrite answers_read_cycles, hd_drop.
    destruct (nth (n - 1) (gpio_answers st) 0 =? 0); reflexivity. }
  assert (Hall : forall j, buffer_bit data' j =
            (if (j <? 8 * ((n + 7) / 8))%nat then false else buffer_bit data j)
            || ((1 <=? j)%nat && (j <=? n - 1)%nat
                && negb (nth (n - 1 - j) (gpio_answers st) 0 =? 0))
            || ((j =? 0)%nat && negb (nth (n - 1) (gpio_answers st) 0 =? 0))).
  { intros j. rewrite Hbits', Hbits1, Hbits0, Hs. reflexivity. }
  split; [|split].
  - intros j Hj. rewrite Hall.
    replace (j <? 8 * ((n + 7) / 8))%nat with true
      by (symmetry; apply Nat.ltb_lt; lia).
    destruct j as [|j].
    + rewrite Nat.sub_0_r. reflexivity.
    + replace (S j <=? n - 1)%nat with true by (symmetry; apply Nat.leb_le; lia).
      cbn. rewrite orb_false_r. reflexivity.
  - intros j Hj. rewrite Hall.
    replace (j <? 8 * ((n + 7) / 8))%nat with true
      by (symmetry; apply Nat.ltb_lt; lia).
    replace (j <=? n - 1)%nat with false by (symmetry; apply Nat.leb_gt; lia).
    replace (j =? 0)%nat with false by (symmetry; apply Nat.eqb_neq; lia).
    rewrite andb_false_r. reflexivity.
  - intros j Hj. rewrite Hall.
    replace (j <? 8 * ((n + 7) / 8))%nat with false
      by (symmetry; apply Nat.ltb_ge; lia).
    replace (j <=? n - 1)%nat with false by (symmetry; apply Nat.leb_gt; lia).
    replace (j =? 0)%nat with false by (symmetry; apply Nat.eqb_neq; lia).
    rewrite andb_false_r, !orb_false_r. reflexivity.
Qed.

Lemma jtag_read_data_bits_witness :
  exists st',
    jtag_read_data [255; 255; 255] 10
      {| chip := 0; h_tck := 1; h_tms := 2; h_tdi := 3; h_tdo := 4; tdi_state := -1;
         gpio_calls := []; gpio_answers := [1; 0; 0; -3; 0; 0; 0; 0; 1; 1; 7] |}
      = Fine ([67; 2; 255], st') /\
    gpio_answers st' = [7].
Proof.
  destruct (jtag_read_data_bits [255; 255; 255] 10
              {| chip := 0; h_tck := 1; h_tms := 2; h_tdi := 3; h_tdo := 4;
                 tdi_state := -1; gpio_calls := [];
                 gpio_answers := [1; 0; 0; -3; 0; 0; 0; 0; 1; 1; 7] |})
    as (data' & Hrun & _); [lia|unfold INT_MAX; lia|simpl; lia|].
  eexists. split; [vm_compute; reflexivity|reflexivity].
Defined.

(** X28. The bit count of [jtag_read_data] is only tested against 0.  For
    a count from -14 to -1 nothing is cleared and the loop is skipped, but
    the last cycle is still run: TDO is read, the clock cycle with TMS 1 is
    sent, and the bit is or-ed into byte 0 on top of what was there.  A
    count of -15 or below turns into a negative [memset] length, and a
    positive count with a buffer shorter than [(n + 7) / 8] bytes clears
    beyond the buffer. *)
Theorem jtag_read_data_bad_count (data : list Z) (n : Z) (st : jtag_state) :
  (-14 <= n < 0 ->
   forall b rest, data = b :: rest ->
     jtag_read_data data n st =
       Fine (Z.lor b (if hd 0 (gpio_answers st) =? 0 then 0 else 1) :: rest,
             read_cycle 1 st)) /\
  (INT_MIN <= n <= -15 -> jtag_read_data data n st = Undefined BufferOverrun) /\
  (0 < n <= INT_MAX - 7 -> Z.of_nat (length data) < Z.quot (n + 7) 8 ->
   jtag_read_data data n st = Undefined BufferOverrun).
Proof.
  split; [|split].
  - intros Hn b rest ->. unfold jtag_read_data.
    destruct (Z.eqb_spec n 0); [lia|]. unfold as_int.
    replace ((INT_MIN <=? n + 7) && (n + 7 <=? INT_MAX)) with true by in_range.
    cbn [bindO].
    replace (Z.quot (n + 7) 8) with 0
      by (symmetry; apply Z.quot_small_iff; lia).
    change (memset_zero (b :: rest) 0) with (Fine (b :: rest)). cbn [bindO].
    replace ((INT_MIN <=? n - 1) && (n - 1 <=? INT_MAX)) with true by in_range.
    cbn [bindO]. replace (Z.to_nat n) with 0%nat by lia.
    cbn [jtag_read_data_loop]. destruct (Z.gtb_spec (n - 1) 0); [lia|].
    cbn [bindO fst snd].
    pose proof (read_jtag_tdo_state st) as Hread.
    destruct (read_jtag_tdo st) as [temp st1] eqn:E.
    assert (Hcycle : send_cmd 0 1 st1 = read_cycle 1 st)
      by (unfold read_cycle; rewrite E; reflexivity).
    injection Hread as Htemp _. rewrite Hcycle, Htemp. reflexivity.
  - intros Hn. unfold jtag_read_data.
    destruct (Z.eqb_spec n 0); [lia|]. unfold as_int.
    replace ((INT_MIN <=? n + 7) && (n + 7 <=? INT_MAX)) with true by in_range.
    cbn [bindO]. unfold memset_zero.
    replace (0 <=? Z.quot (n + 7) 8) with false; [reflexivity|].
    symmetry. apply Z.leb_gt.
    pose proof (Z.quot_le_mono (n + 7) (-8) 8 ltac:(lia) ltac:(lia)) as H.
    change (Z.quot (-8) 8) with (-1) in H. lia.
  - intros Hn Hlen. unfold jtag_read_data.
    destruct (Z.eqb_spec n 0); [lia|]. unfold as_int.
    replace ((INT_MIN <=? n + 7) && (n + 7 <=? INT_MAX)) with true by in_range.
    cbn [bindO]. unfold memset_zero.
    replace (Z.quot (n + 7) 8 <=? Z.of_nat (length data)) with false
      by (symmetry; apply Z.leb_gt; exact Hlen).
    rewrite andb_false_r. reflexivity.
Qed.

Lemma jtag_read_data_bad_count_witness :
  jtag_read_data [128; 9] (-3) (jtag_start [5]) =
    Fine ([129; 9], read_cycle 1 (jtag_start [5])) /\
  jtag_read_data [128; 9] (-15) (jtag_start [5]) = Undefined BufferOverrun /\
  jtag_read_data [128; 9] 17 (jtag_start [5]) = Undefined BufferOverrun.
Proof.
  split; [|split].
  - destruct (jtag_read_data_bad_count [128; 9] (-3) (jtag_start [5])) as (H & _ & _).
    apply (H ltac:(lia) 128 [9] eq_refl).
  - destruct (jtag_read_data_bad_count [128; 9] (-15) (jtag_start [5])) as (_ & H & _).
    apply H. unfold INT_MIN. lia.
  - destruct (jtag_read_data_bad_count [128; 9] 17 (jtag_start [5])) as (_ & _ & H).
    apply H; [unfold INT_MAX; lia|vm_compute; reflexivity].
Defined.




(** ** A whole session on the lines *)

(** X30. A [setup_io] that succeeds followed by [close_io] asks the
    library for the chip and the four lines and gives back exactly those:
    the four line handles are released in the order they were claimed,
    each once, and the chip is closed last; the statics are back at -1. *)
Theorem setup_then_close (st : jtag_state) (c tck tms tdi tdo : Z) (rest : list Z) :
  gpio_answers st = c :: tck :: tms :: tdi :: tdo :: rest ->
  0 <= c -> 0 <= tck -> 0 <= tms -> 0 <= tdi -> 0 <= tdo ->
  exists st1,
    setup_io st = Fine (0, st1) /\
    close_io st1 =
      {| chip := -1; h_tck := -1; h_tms := -1; h_tdi := -1; h_tdo := -1;
         tdi_state := -1;
         gpio_calls := gpio_calls st ++ setup_requests c
                       ++ [lgGpioFreeLine tck; lgGpioFreeLine tms; lgGpioFreeLine tdi;
                           lgGpioFreeLine tdo; lgGpiochipClose c];
         gpio_answers := rest |}.
Proof.
  intros Hans Hc Htck Htms Htdi Htdo.
  destruct st as [c0 k m i o t calls answers]. simpl in Hans. subst answers.
  eexists. split.
  - unfold setup_io.
    rewrite (nop_sleep_ends (Z.to_nat WAIT) WAIT
               ltac:(unfold WAIT, INT_MAX; lia) (le_n _)).
    do 5 (cbn -[Z.ltb Z.geb]; known_sign).
    unfold set_tdi_state, set_h_tdo. cbn. reflexivity.
  - rewrite close_io_state. unfold frees, line_handles.
    cbn -[Z.ltb Z.geb]. known_sign. cbn. rewrite <- !app_assoc. reflexivity.
Qed.

Lemma setup_then_close_witness :
  exists st1,
    setup_io (jtag_start [0; 1; 2; 3; 4]) = Fine (0, st1) /\
    gpio_calls (close_io st1) =
      [lgGpiochipOpen 0; lgGpioClaimOutput 0 0 24 0; lgGpioClaimOutput 0 0 27 0;
       lgGpioClaimOutput 0 0 22 0; lgGpioClaimInput 0 0 23;
       lgGpioFreeLine 1; lgGpioFreeLine 2; lgGpioFreeLine 3; lgGpioFreeLine 4;
       lgGpiochipClose 0].
Proof.
  destruct (setup_then_close (jtag_start [0; 1; 2; 3; 4]) 0 1 2 3 4 [] eq_refl)
    as (st1 & Hsetup & Hclose); [lia..|].
  exists st1. split; [exact Hsetup|]. rewrite Hclose. reflexivity.
Defined.
